(** * QR Request Manager: request registry, token gate, submission ledger
      and rewards summary

    A shallow embedding of [db.py] (the SQLite store) and of the decision
    logic of [app.py] (validation, URL construction, the public form and
    the rewards part of the review page), followed by the properties of
    the specification that are settled against it.

    Conventions.
    - A Python [str] is a [string]: a sequence of characters given by
      their code point, here in the range 0..255.
    - A Python [int] is a [Z].
    - A table is the list of its rows in insertion order; the [settings]
      table, whose primary key is its [key] column, is a finite map.
    - A raised exception is the [Raise] case of [result]. *)

From Stdlib Require Import ZArith Lia Ascii DecimalString.
From Stdlib Require DecimalPos DecimalZ.
From stdpp Require Import base option list gmap strings.

Open Scope Z_scope.
Open Scope string_scope.

(* ===================================================================== *)
(** * Python strings *)
(* ===================================================================== *)

Module PyStr.

Definition code (c : ascii) : N := Ascii.N_of_ascii c.

(** [\d] on a [str] pattern: the decimal digits.  Below code point 256
    these are exactly ['0'..'9']. *)
Definition is_digit (c : ascii) : bool :=
  ((48 <=? code c) && (code c <=? 57))%N.

(** [\s] on a [str] pattern, and the characters removed by
    [str.strip()]: tab, line feed, vertical tab, form feed, carriage
    return, the separators 0x1c..0x1f, space, NEL and no-break space. *)
Definition is_space (c : ascii) : bool :=
  (((9 <=? code c) && (code c <=? 13))
   || ((28 <=? code c) && (code c <=? 32))
   || (code c =? 133) || (code c =? 160))%N.

(** The characters of a string, in order. *)
Fixpoint chars (s : string) : list ascii :=
  match s with
  | EmptyString => []
  | String c s' => c :: chars s'
  end.

(** [len(s)] *)
Definition len (s : string) : nat := String.length s.

Fixpoint str_filter (p : ascii -> bool) (s : string) : string :=
  match s with
  | EmptyString => EmptyString
  | String c s' => if p c then String c (str_filter p s') else str_filter p s'
  end.

Fixpoint str_forall (p : ascii -> bool) (s : string) : bool :=
  match s with
  | EmptyString => true
  | String c s' => p c && str_forall p s'
  end.

(** [s.startswith(pre)] *)
Fixpoint starts_with (pre s : string) : bool :=
  match pre, s with
  | EmptyString, _ => true
  | String a pre', String b s' => if Ascii.eqb a b then starts_with pre' s' else false
  | String _ _, EmptyString => false
  end.

(** [needle in hay] *)
Fixpoint str_in (needle hay : string) : bool :=
  starts_with needle hay
  || match hay with
     | EmptyString => false
     | String _ hay' => str_in needle hay'
     end.

Fixpoint lstrip (s : string) : string :=
  match s with
  | EmptyString => EmptyString
  | String c s' => if is_space c then lstrip s' else s
  end.

Fixpoint rstrip (s : string) : string :=
  match s with
  | EmptyString => EmptyString
  | String c s' =>
      match rstrip s' with
      | EmptyString => if is_space c then EmptyString else String c EmptyString
      | t => String c t
      end
  end.

(** [s.strip()] *)
Definition strip (s : string) : string := rstrip (lstrip s).

(** [str(n)] and the [{n}] of an f-string, for an [int]. *)
Definition str_of_int (n : Z) : string := NilZero.string_of_int (Z.to_int n).

(** The first [n] characters, and the rest. *)
Fixpoint str_take (n : nat) (s : string) : string :=
  match n, s with
  | S n', String c s' => String c (str_take n' s')
  | _, _ => EmptyString
  end.

Fixpoint str_drop (n : nat) (s : string) : string :=
  match n, s with
  | S n', String _ s' => str_drop n' s'
  | _, _ => s
  end.

(** [s.endswith("\n")] *)
Fixpoint ends_with_lf (s : string) : bool :=
  match s with
  | EmptyString => false
  | String c EmptyString => Ascii.eqb c "010"
  | String _ s' => ends_with_lf s'
  end.

(** [bool(s)] of a string: non-empty. *)
Definition truthy (s : string) : bool :=
  match s with EmptyString => false | _ => true end.

End PyStr.

(* ===================================================================== *)
(** * The fragment of [re] used by the validators *)
(* ===================================================================== *)

Module Re.

(** One item of a pattern: a literal character, a character class
    repeated between [lo] and [hi] times ([hi = None]: unbounded, as
    in [+]), or the anchor [$]. *)
Inductive item : Type :=
| Lit (c : ascii)
| Rep (cls : ascii -> bool) (lo : nat) (hi : option nat)
| Eos.

Definition pattern := list item.

Definition may_take (hi : option nat) : bool :=
  match hi with Some O => false | _ => true end.

Definition dec_hi (hi : option nat) : option nat :=
  match hi with Some n => Some (Nat.pred n) | None => None end.

(** Greedy bounded repetition of a class followed by the continuation
    [k]: first try to take one more character, then fall back to
    stopping here. *)
Fixpoint rep (cls : ascii -> bool) (lo : nat) (hi : option nat)
         (k : string -> bool) (s : string) : bool :=
  match s with
  | String c s' =>
      (cls c && may_take hi && rep cls (Nat.pred lo) (dec_hi hi) k s')
      || (Nat.eqb lo 0 && k s)
  | EmptyString => Nat.eqb lo 0 && k s
  end.

(** [$] without [re.MULTILINE]: at the end of the string, or just
    before a line feed that is the last character. *)
Definition at_eos (s : string) : bool :=
  match s with
  | EmptyString => true
  | String c EmptyString => Ascii.eqb c "010"
  | _ => false
  end.

(** [re.match(p, s)] as a truth value ([^] is implied by [match]). *)
Fixpoint matches (p : pattern) (s : string) : bool :=
  match p with
  | [] => true
  | Lit c :: p' =>
      match s with
      | String c' s' => Ascii.eqb c c' && matches p' s'
      | EmptyString => false
      end
  | Rep cls lo hi :: p' => rep cls lo hi (matches p') s
  | Eos :: p' => at_eos s && matches p' s
  end.

End Re.

(* ===================================================================== *)
(** * Exceptions *)
(* ===================================================================== *)

Inductive exn : Type :=
| ValueError (msg : string)
| KeyError (key : string)
| TypeError (msg : string)
| IntegrityError (msg : string).

Inductive result (A : Type) : Type :=
| Ok (a : A)
| Raise (e : exn).

Arguments Ok {A} a.
Arguments Raise {A} e.

(** Sequencing: an exception ends the computation.  With these instances
    [x ← m; k] runs [m], binds its value to [x] and continues with [k]. *)
#[global] Instance result_bind : MBind result :=
  fun A B (f : A -> result B) (m : result A) =>
    match m with
    | Ok a => f a
    | Raise e => Raise e
    end.

#[global] Instance result_ret : MRet result := fun A (a : A) => Ok a.

(** [[f(x) for x in l]] where [f] may raise: stops at the first
    exception. *)
Fixpoint mapM {A B : Type} (f : A -> result B) (l : list A) : result (list B) :=
  match l with
  | [] => Ok []
  | x :: l' => y ← f x; ys ← mapM f l'; Ok (y :: ys)
  end.

(* ===================================================================== *)
(** * db.py: the store *)
(* ===================================================================== *)

Module Db.

(** A row of [requests]. *)
Record Request : Type := mkRequest {
  req_id : Z;
  req_title : string;
  req_description : string;
  req_status : string;
  req_token : string;
  req_created_at : string;
  req_one_time_use : Z;
  req_used_count : Z
}.

(** A row of [submissions]. *)
Record Submission : Type := mkSubmission {
  sub_id : Z;
  sub_request_id : Z;
  sub_name : string;
  sub_phone : string;
  sub_email : string;
  sub_created_at : string
}.

(** A row of the rewards ledger. *)
Record RewardEntry : Type := mkRewardEntry {
  rw_name : string;
  rw_phone : string;
  rw_points : Z;
  rw_reason : string;
  rw_created_at : string
}.

(** The database file.  [seq_requests] and [seq_submissions] are the
    [AUTOINCREMENT] counters of the two tables: the largest row id ever
    handed out, which no [DELETE] resets. *)
Record Store : Type := mkStore {
  settings : gmap string string;
  requests : list Request;
  submissions : list Submission;
  reward_entries : list RewardEntry;
  seq_requests : Z;
  seq_submissions : Z
}.

(** The store right after [init_db] on a fresh file. *)
Definition empty_store : Store :=
  mkStore ∅ [] [] [] 0 0.

Definition with_settings (s : Store) (m : gmap string string) : Store :=
  mkStore m (requests s) (submissions s) (reward_entries s)
          (seq_requests s) (seq_submissions s).

Definition with_requests (s : Store) (l : list Request) : Store :=
  mkStore (settings s) l (submissions s) (reward_entries s)
          (seq_requests s) (seq_submissions s).

Definition with_submissions (s : Store) (l : list Submission) : Store :=
  mkStore (settings s) (requests s) l (reward_entries s)
          (seq_requests s) (seq_submissions s).

Definition with_reward_entries (s : Store) (l : list RewardEntry) : Store :=
  mkStore (settings s) (requests s) (submissions s) l
          (seq_requests s) (seq_submissions s).

Definition set_status (st : string) (r : Request) : Request :=
  mkRequest (req_id r) (req_title r) (req_description r) st (req_token r)
            (req_created_at r) (req_one_time_use r) (req_used_count r).

Definition set_flag (f : Z) (r : Request) : Request :=
  mkRequest (req_id r) (req_title r) (req_description r) (req_status r)
            (req_token r) (req_created_at r) f (req_used_count r).

Definition incr_used (r : Request) : Request :=
  mkRequest (req_id r) (req_title r) (req_description r) (req_status r)
            (req_token r) (req_created_at r) (req_one_time_use r)
            (req_used_count r + 1).

(** [UPDATE t SET ... WHERE cond]: every row that satisfies [cond] is
    changed, the others are kept. *)
Definition update_where {A : Type} (cond : A -> bool) (f : A -> A)
           (rows : list A) : list A :=
  map (fun r => if cond r then f r else r) rows.

(** [DELETE FROM t WHERE cond] *)
Definition delete_where {A : Type} (cond : A -> bool) (rows : list A) : list A :=
  List.filter (fun r => negb (cond r)) rows.

(** [SELECT ... WHERE cond] followed by [fetchone()] *)
Definition select_one {A : Type} (cond : A -> bool) (rows : list A) : option A :=
  List.find cond rows.

(** [ORDER BY created_at DESC]: a row is inserted before the first row
    that is older.  SQLite leaves the order of rows with the same
    timestamp open; here the later row comes first. *)
Fixpoint insert_desc {A : Type} (key : A -> string) (x : A) (l : list A) : list A :=
  match l with
  | [] => [x]
  | y :: l' =>
      if String.ltb (key y) (key x) then x :: l
      else y :: insert_desc key x l'
  end.

Definition order_by_desc {A : Type} (key : A -> string) (l : list A) : list A :=
  fold_right (insert_desc key) [] l.

(** [get_setting(key, default)] *)
Definition get_setting (s : Store) (key : string) (default : string) : string :=
  match settings s !! key with
  | Some v => v
  | None => default
  end.

(** [set_setting(key, value)]: insert, or update on a key conflict. *)
Definition set_setting (s : Store) (key value : string) : Store :=
  with_settings s (<[key := value]> (settings s)).

(** [get_request_by_token(token)] *)
Definition get_request_by_token (s : Store) (token : string) : option Request :=
  select_one (fun r => String.eqb (req_token r) token) (requests s).

(** [create_request(title, description, token)] at time [now].  The
    [INSERT] leaves [one_time_use] and [used_count] to their column
    default 0, and fails on the [UNIQUE] constraint of [token]. *)
Definition create_request (s : Store) (title description token now : string)
  : result (Request * Store) :=
  match get_request_by_token s token with
  | Some _ => Raise (IntegrityError "UNIQUE constraint failed: requests.token")
  | None =>
      let rid := seq_requests s + 1 in
      let row := mkRequest rid title description "open" token now 0 0 in
      Ok (row, mkStore (settings s) (requests s ++ [row]) (submissions s)
                       (reward_entries s) rid (seq_submissions s))
  end.

(** [list_requests(status)]; [None] and the empty string select all. *)
Definition list_requests (s : Store) (status : option string) : list Request :=
  match status with
  | Some st =>
      if PyStr.truthy st
      then order_by_desc req_created_at
             (List.filter (fun r => String.eqb (req_status r) st) (requests s))
      else order_by_desc req_created_at (requests s)
  | None => order_by_desc req_created_at (requests s)
  end.

(** [update_request_status(request_id, status)] *)
Definition update_request_status (s : Store) (request_id : Z) (status : string) : Store :=
  with_requests s
    (update_where (fun r => Z.eqb (req_id r) request_id) (set_status status) (requests s)).

(** [delete_request(request_id)]: two [DELETE]s, on [submissions] and
    on [requests]. *)
Definition delete_request (s : Store) (request_id : Z) : Store :=
  let s1 := with_submissions s
              (delete_where (fun x => Z.eqb (sub_request_id x) request_id) (submissions s)) in
  with_requests s1 (delete_where (fun r => Z.eqb (req_id r) request_id) (requests s1)).

Definition duplicate_phone_msg : string :=
  "A submission with this phone number already exists for this request".

(** [add_submission(request_id, name, phone, email)] at time [now]. *)
Definition add_submission (s : Store) (request_id : Z) (name phone email now : string)
  : result (Submission * Store) :=
  match select_one (fun x => Z.eqb (sub_request_id x) request_id
                             && String.eqb (sub_phone x) phone)
                   (submissions s) with
  | Some _ => Raise (ValueError duplicate_phone_msg)
  | None =>
      let sid := seq_submissions s + 1 in
      let row := mkSubmission sid request_id name phone email now in
      Ok (row, mkStore (settings s) (requests s) (submissions s ++ [row])
                       (reward_entries s) (seq_requests s) sid)
  end.

(** [list_submissions(request_id)] *)
Definition list_submissions (s : Store) (request_id : Z) : list Submission :=
  order_by_desc sub_created_at
    (List.filter (fun x => Z.eqb (sub_request_id x) request_id) (submissions s)).

(** [is_token_used(token)] *)
Definition is_token_used (s : Store) (token : string) : bool :=
  match select_one (fun r => String.eqb (req_token r) token) (requests s) with
  | Some row => Z.eqb (req_one_time_use row) 1 && Z.gtb (req_used_count row) 0
  | None => false
  end.

(** [mark_token_used(token)] *)
Definition mark_token_used (s : Store) (token : string) : Store :=
  with_requests s
    (update_where (fun r => String.eqb (req_token r) token) incr_used (requests s)).

(** [set_one_time_use(request_id, one_time)] *)
Definition set_one_time_use (s : Store) (request_id : Z) (one_time : bool) : Store :=
  with_requests s
    (update_where (fun r => Z.eqb (req_id r) request_id)
                  (set_flag (if one_time then 1 else 0)) (requests s)).

(** [wipe_database()]: empties [submissions], [requests] and
    [settings]. *)
Definition wipe_database (s : Store) : Store :=
  mkStore ∅ [] [] (reward_entries s) (seq_requests s) (seq_submissions s).

(** Modelled from the spec: [get_rewards_adjustment_sum], which app.py
    imports from db.py and db.py does not define.  Section 4.4:
    the sum of the points of all reward entries whose name and phone
    are exactly the given strings. *)
Definition get_rewards_adjustment_sum (s : Store) (name phone : string) : Z :=
  fold_right Z.add 0
    (map rw_points
         (List.filter (fun e => String.eqb (rw_name e) name
                                && String.eqb (rw_phone e) phone)
                      (reward_entries s))).

(** Modelled from the spec: [add_reward_entry], which app.py imports
    from db.py and db.py does not define.  Section 4.4: appends a
    reward entry, with no condition on the sign of the points, and
    fails with a validation error when name or phone is empty. *)
Definition add_reward_entry (s : Store) (name phone : string) (points : Z)
           (reason now : string) : result Store :=
  if PyStr.truthy name && PyStr.truthy phone
  then Ok (with_reward_entries s
             (reward_entries s ++ [mkRewardEntry name phone points reason now]))
  else Raise (ValueError "name and phone are required").

(** Modelled from the spec: [clear_reward_entries], which app.py
    imports from db.py and db.py does not define.  Section 4.4:
    deletes all reward entries matching the name and phone. *)
Definition clear_reward_entries (s : Store) (name phone : string) : Store :=
  with_reward_entries s
    (delete_where (fun e => String.eqb (rw_name e) name
                            && String.eqb (rw_phone e) phone)
                  (reward_entries s)).

End Db.

(* ===================================================================== *)
(** * app.py: validation and URL construction *)
(* ===================================================================== *)

Module App.
Import Db.

(** The class [[^@\s]] *)
Definition email_cls (c : ascii) : bool :=
  negb (Ascii.eqb c "@") && negb (PyStr.is_space c).

(** The class [[0-9+\-()\s]] *)
Definition phone_cls (c : ascii) : bool :=
  PyStr.is_digit c
  || Ascii.eqb c "+" || Ascii.eqb c "-" || Ascii.eqb c "(" || Ascii.eqb c ")"
  || PyStr.is_space c.

(** [^[^@\s]+@[^@\s]+\.[^@\s]+$] *)
Definition email_pattern : Re.pattern :=
  [Re.Rep email_cls 1 None; Re.Lit "@"; Re.Rep email_cls 1 None; Re.Lit ".";
   Re.Rep email_cls 1 None; Re.Eos].

(** [^[0-9+\-()\s]{7,20}$] *)
Definition phone_pattern : Re.pattern :=
  [Re.Rep phone_cls 7 (Some 20%nat); Re.Eos].

(** [_is_valid_email(email)] *)
Definition _is_valid_email (email : string) : bool :=
  Re.matches email_pattern email.

(** [re.sub(r'[^\d]', '', phone)] *)
Definition digits_only (phone : string) : string :=
  PyStr.str_filter PyStr.is_digit phone.

(** [_is_valid_phone(phone)] *)
Definition _is_valid_phone (phone : string) : bool :=
  Re.matches phone_pattern phone
  && (Nat.leb 7 (PyStr.len (digits_only phone))
      && Nat.leb (PyStr.len (digits_only phone)) 20).

(** The phone rule in the words of the specification: only digits,
    [+], [-], parentheses and spaces, 7 to 20 characters in all, 7 to
    20 of them digits. *)
Definition phone_rule_as_stated (phone : string) : bool :=
  PyStr.str_forall
    (fun c => PyStr.is_digit c
              || Ascii.eqb c "+" || Ascii.eqb c "-" || Ascii.eqb c "(" || Ascii.eqb c ")"
              || Ascii.eqb c " ") phone
  && (Nat.leb 7 (PyStr.len phone) && Nat.leb (PyStr.len phone) 20)
  && (Nat.leb 7 (PyStr.len (digits_only phone))
      && Nat.leb (PyStr.len (digits_only phone)) 20).

(** [_build_form_url(base_url, token)] *)
Definition _build_form_url (base_url token : string) : string :=
  let sep := if PyStr.str_in "?" base_url then "&" else "?" in
  base_url +:+ sep +:+ "view=form&token=" +:+ token.

(** The settings keys written next to a request ([f"points_{id}"] and
    [f"qr_custom_{id}"]). *)
Definition points_key (request_id : Z) : string :=
  "points_" +:+ PyStr.str_of_int request_id.

Definition qr_custom_key (request_id : Z) : string :=
  "qr_custom_" +:+ PyStr.str_of_int request_id.

(** The create form of [_admin_section] for a title that is not blank
    and a single QR code: the token is the fresh [uuid4().hex],
    [points] the number entered, [custom] the custom QR text ([None]
    for "Auto URL"). *)
Definition admin_create_single (s : Store) (title description token now : string)
           (points : Z) (one_time_use : bool) (custom : option string)
  : result (Request * Store) :=
  '(req, s1) ← create_request s (PyStr.strip title) (PyStr.strip description) token now;
  let s2 := set_setting s1 (points_key (req_id req)) (PyStr.str_of_int points) in
  let s3 := set_one_time_use s2 (req_id req) one_time_use in
  match custom with
  | Some txt =>
      if PyStr.truthy (PyStr.strip txt)
      then Ok (req, set_setting s3 (qr_custom_key (req_id req)) (PyStr.strip txt))
      else Ok (req, s3)
  | None => Ok (req, s3)
  end.

(* =================================================================== *)
(** * app.py: the public form *)
(* =================================================================== *)

(** The states of a token (section 4.2 of the specification). *)
Inductive TokenState : Type := UNKNOWN_TOKEN | CLOSED | EXHAUSTED | USABLE.

(** The guard at the head of [_public_form]: the three [st.stop()]
    exits, and [USABLE] when the form is rendered. *)
Definition token_gate (s : Store) (token : string) : TokenState :=
  match get_request_by_token s token with
  | None => UNKNOWN_TOKEN
  | Some req =>
      if negb (String.eqb (req_status req) "open") then CLOSED
      else if is_token_used s token then EXHAUSTED
      else USABLE
  end.

(** What the visitor typed, whether "Submit" was pressed, and the clock
    reading [datetime.utcnow().isoformat()] of the insertion. *)
Record FormInput : Type := mkFormInput {
  f_name : string;
  f_phone : string;
  f_email : string;
  f_submit : bool;
  f_now : string
}.

Inductive FieldError : Type :=
| NameRequired | NameTooShort | NameTooLong
| PhoneRequired | PhoneInvalid
| EmailInvalid | EmailTooLong.

Definition name_errors (name : string) : list FieldError :=
  let n := PyStr.strip name in
  if negb (PyStr.truthy n) then [NameRequired]
  else if Nat.ltb (PyStr.len n) 2 then [NameTooShort]
  else if Nat.ltb 100 (PyStr.len n) then [NameTooLong]
  else [].

Definition phone_errors (phone : string) : list FieldError :=
  let p := PyStr.strip phone in
  if negb (PyStr.truthy p) then [PhoneRequired]
  else if negb (_is_valid_phone p) then [PhoneInvalid]
  else [].

Definition email_errors (email : string) : list FieldError :=
  let e := PyStr.strip email in
  if PyStr.truthy e then
    if negb (_is_valid_email e) then [EmailInvalid]
    else if Nat.ltb 100 (PyStr.len e) then [EmailTooLong]
    else []
  else [].

(** The list [errors] built by the validation block. *)
Definition validate (inp : FormInput) : list FieldError :=
  name_errors (f_name inp) ++ phone_errors (f_phone inp) ++ email_errors (f_email inp).

Inductive Outcome : Type :=
| Rejected (st : TokenState)       (* one of the three [st.stop()] exits *)
| NotSubmitted                     (* form rendered, button not pressed *)
| Invalid (errors : list FieldError)
| Accepted
| Duplicate                        (* "Duplicate submission detected!" *)
| ValidationMessage (msg : string) (* another [ValueError] *)
| Failed.                          (* any other exception *)

(** How the [except] clauses classify what [add_submission] raised. *)
Definition classify (e : exn) : Outcome :=
  match e with
  | ValueError msg =>
      if PyStr.str_in "phone number already exists" msg then Duplicate
      else ValidationMessage msg
  | _ => Failed
  end.

(** One run of [_public_form(token)]. *)
Definition _public_form (s : Store) (token : string) (inp : FormInput)
  : Store * Outcome :=
  match get_request_by_token s token with
  | None => (s, Rejected UNKNOWN_TOKEN)
  | Some req =>
      if negb (String.eqb (req_status req) "open") then (s, Rejected CLOSED)
      else if is_token_used s token then (s, Rejected EXHAUSTED)
      else if negb (f_submit inp) then (s, NotSubmitted)
      else
        match validate inp with
        | _ :: _ as errors => (s, Invalid errors)
        | [] =>
            match add_submission s (req_id req) (PyStr.strip (f_name inp))
                    (PyStr.strip (f_phone inp)) (PyStr.strip (f_email inp))
                    (f_now inp) with
            | Ok (_, s1) => (mark_token_used s1 token, Accepted)
            | Raise e => (s, classify e)
            end
        end
  end.

(** ** Concurrent runs

    Every function of db.py opens its own connection and commits when
    it returns, so a run of [_public_form] is a sequence of separate
    transactions: the lookup of the request, the [is_token_used] check,
    the insertion, the increment.  Between two of them another run may
    be scheduled.  [Pc] is the point a run has reached. *)
Inductive Pc : Type :=
| AtLookup                       (* before [get_request_by_token] *)
| AtGate (req : Request)         (* status seen open, before [is_token_used] *)
| AtInsert (req : Request)       (* gate passed, input valid, before [add_submission] *)
| AtMark (req : Request)         (* inserted, before [mark_token_used] *)
| Finished (o : Outcome).

(** One transaction of a run, with the local computation that follows
    it. *)
Definition step (token : string) (inp : FormInput) (s : Store) (pc : Pc)
  : Store * Pc :=
  match pc with
  | AtLookup =>
      match get_request_by_token s token with
      | None => (s, Finished (Rejected UNKNOWN_TOKEN))
      | Some req =>
          if negb (String.eqb (req_status req) "open")
          then (s, Finished (Rejected CLOSED))
          else (s, AtGate req)
      end
  | AtGate req =>
      if is_token_used s token then (s, Finished (Rejected EXHAUSTED))
      else if negb (f_submit inp) then (s, Finished NotSubmitted)
      else
        match validate inp with
        | _ :: _ as errors => (s, Finished (Invalid errors))
        | [] => (s, AtInsert req)
        end
  | AtInsert req =>
      match add_submission s (req_id req) (PyStr.strip (f_name inp))
              (PyStr.strip (f_phone inp)) (PyStr.strip (f_email inp))
              (f_now inp) with
      | Ok (_, s1) => (s1, AtMark req)
      | Raise e => (s, Finished (classify e))
      end
  | AtMark req => (mark_token_used s token, Finished Accepted)
  | Finished o => (s, Finished o)
  end.

(** [n] transactions of one run with no other run in between. *)
Fixpoint run_steps (n : nat) (token : string) (inp : FormInput)
         (s : Store) (pc : Pc) : Store * Pc :=
  match n with
  | O => (s, pc)
  | S n' =>
      let '(s', pc') := step token inp s pc in
      run_steps n' token inp s' pc'
  end.

(** Two runs on the same token, [inp1] and [inp2], and the store they
    share. *)
Record Config : Type := mkConfig {
  cfg_store : Store;
  cfg_pc1 : Pc;
  cfg_pc2 : Pc
}.

Inductive Turn : Type := First | Second.

Definition sched_step (token : string) (inp1 inp2 : FormInput)
           (c : Config) (t : Turn) : Config :=
  match t with
  | First =>
      let '(s', pc') := step token inp1 (cfg_store c) (cfg_pc1 c) in
      mkConfig s' pc' (cfg_pc2 c)
  | Second =>
      let '(s', pc') := step token inp2 (cfg_store c) (cfg_pc2 c) in
      mkConfig s' (cfg_pc1 c) pc'
  end.

(** The configuration reached under a schedule. *)
Definition run_schedule (token : string) (inp1 inp2 : FormInput)
           (sched : list Turn) (s : Store) : Config :=
  fold_left (sched_step token inp1 inp2) sched (mkConfig s AtLookup AtLookup).

End App.

(* ===================================================================== *)
(** * app.py: the rewards part of the review page *)
(* ===================================================================== *)

Module Review.
Import Db.

(** The values held by the rows of the rewards table. *)
Inductive pyval : Type :=
| VStr (s : string)
| VInt (n : Z).

#[global] Instance pyval_eq_dec : EqDecision pyval.
Proof. solve_decision. Defined.

(** ** [int(...)] *)

Definition digit_val (c : ascii) : Z := Z.of_N (PyStr.code c) - 48.

(** Digits with single underscores between them. *)
Fixpoint parse_digits (acc : Z) (after_digit : bool) (s : string) : option Z :=
  match s with
  | EmptyString => if after_digit then Some acc else None
  | String c s' =>
      if PyStr.is_digit c then parse_digits (acc * 10 + digit_val c) true s'
      else if Ascii.eqb c "_" && after_digit then parse_digits acc false s'
      else None
  end.

Definition int_of_str (s : string) : result Z :=
  let t := PyStr.strip s in
  let r := match t with
           | String "-" t' => Z.opp <$> parse_digits 0 false t'
           | String "+" t' => parse_digits 0 false t'
           | _ => parse_digits 0 false t
           end in
  match r with
  | Some n => Ok n
  | None => Raise (ValueError "invalid literal for int() with base 10")
  end.

Definition py_int (v : pyval) : result Z :=
  match v with
  | VInt n => Ok n
  | VStr s => int_of_str s
  end.

(** A string handed to the ledger as a query parameter. *)
Definition str_arg (v : pyval) : result string :=
  match v with
  | VStr s => Ok s
  | VInt _ => Raise (TypeError "expected str")
  end.

(** Unary minus. *)
Definition py_neg (v : pyval) : result pyval :=
  match v with
  | VInt n => Ok (VInt (- n))
  | VStr _ => Raise (TypeError "bad operand type for unary -: 'str'")
  end.

(** [a < b] *)
Definition py_lt (a b : pyval) : result bool :=
  match a, b with
  | VInt x, VInt y => Ok (Z.ltb x y)
  | VStr x, VStr y => Ok (String.ltb x y)
  | _, _ => Raise (TypeError "'<' not supported between instances of 'str' and 'int'")
  end.

(** ** Rows: dictionaries with string keys *)

Abbreviation Row := (gmap string pyval).

(** [row[k]] *)
Definition getitem (row : Row) (k : string) : result pyval :=
  match row !! k with
  | Some v => Ok v
  | None => Raise (KeyError k)
  end.

(** [row.get(k, default)] *)
Definition get_default (row : Row) (k : string) (default : pyval) : pyval :=
  match row !! k with
  | Some v => v
  | None => default
  end.

(** [row[k] += d] for an integer [d] *)
Definition iadd (k : string) (d : Z) (row : Row) : result Row :=
  v ← getitem row k;
  match v with
  | VInt n => Ok (<[k := VInt (n + d)]> row)
  | VStr _ => Raise (TypeError "can only concatenate str (not 'int') to str")
  end.

(** The dictionary literal of a new row. *)
Definition new_row (key : string * string) : Row :=
  <["Name" := VStr key.1]>
    (<["Phone" := VStr key.2]>
       (<["Earned Points" := VInt 0]>
          (<["Adjustments" := VInt 0]>
             (<["Balance" := VInt 0]>
                (<["Submissions" := VInt 0]> ∅))))).

(** A row with all six keys set. *)
Definition mk_row (name phone : string) (earned adj balance count : Z) : Row :=
  <["Name" := VStr name]>
    (<["Phone" := VStr phone]>
       (<["Earned Points" := VInt earned]>
          (<["Adjustments" := VInt adj]>
             (<["Balance" := VInt balance]>
                (<["Submissions" := VInt count]> ∅))))).

(** The keys of such a row. *)
Definition row_keys : gset string :=
  list_to_set ["Name"; "Phone"; "Earned Points"; "Adjustments"; "Balance";
               "Submissions"].

(** ** [agg]: a dictionary from (name, phone) to rows, in insertion
       order *)

Abbreviation Agg := (list ((string * string) * Row)).

(** [key in agg] *)
Definition dict_has (key : string * string) (agg : Agg) : bool :=
  existsb (fun kv => bool_decide (kv.1 = key)) agg.

(** [agg[key]] replaced by the result of [f] on it. *)
Fixpoint dict_update (agg : Agg) (key : string * string)
         (f : Row -> result Row) : result Agg :=
  match agg with
  | [] => Raise (KeyError (key.1 +:+ ", " +:+ key.2))
  | (k, row) :: rest =>
      if bool_decide (k = key)
      then row' ← f row; Ok ((k, row') :: rest)
      else rest' ← dict_update rest key f; Ok ((k, row) :: rest')
  end.

(** The body of the first loop over [all_filtered_rows].  On strings
    [name_val or ""] is [name_val], and on integers [int(pts or 0)] is
    [pts]. *)
Definition aggregate_step (agg : Agg) (r : string * string * Z) : result Agg :=
  let '(name_val, phone_val, pts) := r in
  let key := (name_val, phone_val) in
  let agg1 := if dict_has key agg then agg else (agg ++ [(key, new_row key)])%list in
  agg2 ← dict_update agg1 key (iadd "Earned Points" (Z.max 0 pts));
  dict_update agg2 key (iadd "Submissions" 1).

Fixpoint aggregate_from (agg : Agg) (rows : list (string * string * Z)) : result Agg :=
  match rows with
  | [] => Ok agg
  | r :: rows' => agg' ← aggregate_step agg r; aggregate_from agg' rows'
  end.

Definition aggregate (rows : list (string * string * Z)) : result Agg :=
  aggregate_from [] rows.

(** [max(0, earned + adj)] *)
Definition compute_balance (earned adj : Z) : Z := Z.max 0 (earned + adj).

(** The body of the second loop: adjustments pulled from the ledger,
    balance computed. *)
Definition pull_adjustment (s : Store) (row : Row) : result Row :=
  name ← getitem row "Name";
  phone ← getitem row "Phone";
  name_s ← str_arg name;
  phone_s ← str_arg phone;
  let adj := get_rewards_adjustment_sum s name_s phone_s in
  let row1 := <["Adjustments" := VInt adj]> row in
  earned ← getitem row1 "Earned Points";
  earned_i ← py_int earned;
  Ok (<["Balance" := VInt (compute_balance earned_i adj)]> row1).

Definition pull_adjustments (s : Store) (agg : Agg) : result Agg :=
  mapM (fun kv => row' ← pull_adjustment s kv.2; Ok (kv.1, row')) agg.

(** [lambda r: (-r["Total Points"], r["Name"])] *)
Definition sort_key (r : Row) : result (pyval * pyval) :=
  t ← getitem r "Total Points";
  nt ← py_neg t;
  n ← getitem r "Name";
  Ok (nt, n).

(** Comparison of two keys, as tuples. *)
Definition key_lt (a b : pyval * pyval) : result bool :=
  if bool_decide (a.1 = b.1) then py_lt a.2 b.2 else py_lt a.1 b.1.

(** [x], which came before the rows of [l], goes behind the rows with
    a smaller key and before the first row whose key is not smaller:
    rows with equal keys keep their order. *)
Fixpoint insert_sorted (x : (pyval * pyval) * Row) (l : list ((pyval * pyval) * Row))
  : result (list ((pyval * pyval) * Row)) :=
  match l with
  | [] => Ok [x]
  | y :: l' =>
      smaller ← key_lt y.1 x.1;
      if smaller : bool then rest ← insert_sorted x l'; Ok (y :: rest)
      else Ok (x :: l)
  end.

Fixpoint sort_keyed (l : list ((pyval * pyval) * Row))
  : result (list ((pyval * pyval) * Row)) :=
  match l with
  | [] => Ok []
  | x :: l' => sorted ← sort_keyed l'; insert_sorted x sorted
  end.

(** [agg_rows.sort(key=...)]: the key of every row is computed first,
    then the rows are ordered by key, equal keys keeping their order. *)
Definition sort_rows (agg_rows : list Row) : result (list Row) :=
  keyed ← mapM (fun r => k ← sort_key r; Ok (k, r)) agg_rows;
  sorted ← sort_keyed keyed;
  Ok (map snd sorted).

(** ** Reward actions *)

Record RewardForm : Type := mkRewardForm {
  act_name : string;
  act_phone : string;
  adj_points : Z;
  reason : string;
  btn_add_adj : bool;
  btn_pay_all : bool;
  btn_delete : bool;
  act_now : string
}.

(** The loop that recomputes [earned] from the displayed rows. *)
Fixpoint find_earned (agg_rows : list Row) (name phone : string) : result Z :=
  match agg_rows with
  | [] => Ok 0
  | row :: rest =>
      n ← getitem row "Name";
      if bool_decide (n = VStr name) then
        p ← getitem row "Phone";
        if bool_decide (p = VStr phone)
        then py_int (get_default row "Earned Points" (VInt 0))
        else find_earned rest name phone
      else find_earned rest name phone
  end.

(** The [try] block of "Pay (Zero Out)" for a non-empty name and
    phone. *)
Definition pay_block (s : Store) (agg_rows : list Row) (name phone now : string)
  : result Store :=
  let current_adj := get_rewards_adjustment_sum s name phone in
  earned ← find_earned agg_rows name phone;
  let balance := compute_balance earned current_adj in
  if Z.eqb balance 0 then Ok s
  else add_reward_entry s name phone (- balance) "paid" now.

(** [try: ... except Exception: st.error(...)]: an exception leaves the
    store as it was. *)
Definition caught (s : Store) (r : result Store) : Store :=
  match r with
  | Ok s' => s'
  | Raise _ => s
  end.

Definition has_identity (f : RewardForm) : bool :=
  PyStr.truthy (PyStr.strip (act_name f)) && PyStr.truthy (PyStr.strip (act_phone f)).

(** The three [if btn_...] blocks that follow the form. *)
Definition reward_actions (s : Store) (agg_rows : list Row) (f : RewardForm) : Store :=
  let name := PyStr.strip (act_name f) in
  let phone := PyStr.strip (act_phone f) in
  let s1 :=
    if btn_add_adj f && has_identity f
    then caught s (add_reward_entry s name phone (adj_points f)
                                    (PyStr.strip (reason f)) (act_now f))
    else s in
  let s2 :=
    if btn_pay_all f && has_identity f
    then caught s1 (pay_block s1 agg_rows name phone (act_now f))
    else s1 in
  if btn_delete f && has_identity f
  then clear_reward_entries s2 name phone
  else s2.

Inductive PageResult : Type :=
| NoMatchingSubmissions            (* the [return] after [st.info] *)
| Uncaught (e : exn)               (* an exception leaves the function *)
| Rendered (table : list Row).

(** The table of rows before sorting: both loops, then
    [list(agg.values())]. *)
Definition rewards_rows (s : Store) (all_filtered_rows : list (string * string * Z))
  : result (list Row) :=
  agg ← aggregate all_filtered_rows;
  agg' ← pull_adjustments s agg;
  Ok (map snd agg').

(** [_review_page] from "Rewards aggregation table" to its end, given
    the list [all_filtered_rows] collected above it and the state of
    the reward-actions form. *)
Definition _review_page (s : Store) (all_filtered_rows : list (string * string * Z))
           (f : RewardForm) : Store * PageResult :=
  match all_filtered_rows with
  | [] => (s, NoMatchingSubmissions)
  | _ :: _ =>
      match (agg_rows ← rewards_rows s all_filtered_rows; sort_rows agg_rows) with
      | Raise e => (s, Uncaught e)
      | Ok sorted => (reward_actions s sorted f, Rendered sorted)
      end
  end.

(** ** Invariants of the two loops *)

(** After the first loop: every row is filed under its own name and
    phone, has earned a non-negative number of points, and has its
    adjustments and balance still at 0. *)
Definition counted (kv : (string * string) * Row) : Prop :=
  exists earned count : Z,
    kv.2 = mk_row kv.1.1 kv.1.2 earned 0 0 count /\ 0 <= earned.

(** After the second loop: adjustments and balance are filled in from
    the ledger of [s]. *)
Definition balanced (s : Store) (row : Row) : Prop :=
  exists (name phone : string) (earned count : Z),
    let adj := get_rewards_adjustment_sum s name phone in
    row = mk_row name phone earned adj (compute_balance earned adj) count
    /\ 0 <= earned.

End Review.

(* ===================================================================== *)
(** * Well-formed stores *)
(* ===================================================================== *)

Module Wf.
Import Db.

(** What the schema and the writers of db.py maintain on [requests]:
    [id] is the primary key, [token] is [UNIQUE], [one_time_use] is
    written as 0 or 1 only, [used_count] starts at 0 and is only
    incremented, and no id exceeds the [AUTOINCREMENT] counter. *)
Definition request_ok (seq : Z) (r : Request) : Prop :=
  (req_one_time_use r = 0 \/ req_one_time_use r = 1)
  /\ 0 <= req_used_count r
  /\ req_id r <= seq.

Definition wf_store (s : Store) : Prop :=
  List.NoDup (map req_id (requests s))
  /\ List.NoDup (map req_token (requests s))
  /\ List.Forall (request_ok (seq_requests s)) (requests s).

(** The same conditions as a test, for concrete stores. *)
Fixpoint distinct {A : Type} (eqb : A -> A -> bool) (l : list A) : bool :=
  match l with
  | [] => true
  | x :: l' => negb (existsb (eqb x) l') && distinct eqb l'
  end.

Definition request_okb (seq : Z) (r : Request) : bool :=
  (Z.eqb (req_one_time_use r) 0 || Z.eqb (req_one_time_use r) 1)
  && Z.leb 0 (req_used_count r)
  && Z.leb (req_id r) seq.

Definition wf_storeb (s : Store) : bool :=
  distinct Z.eqb (map req_id (requests s))
  && distinct String.eqb (map req_token (requests s))
  && forallb (request_okb (seq_requests s)) (requests s).

(** The stores the application can get to: from the fresh database, by
    the operations of db.py. *)
Inductive reachable : Store -> Prop :=
| reach_init : reachable empty_store
| reach_set_setting s key value :
    reachable s -> reachable (set_setting s key value)
| reach_create_request s title description token now r s' :
    reachable s ->
    create_request s title description token now = Ok (r, s') ->
    reachable s'
| reach_update_request_status s request_id status :
    reachable s -> reachable (update_request_status s request_id status)
| reach_delete_request s request_id :
    reachable s -> reachable (delete_request s request_id)
| reach_add_submission s request_id name phone email now x s' :
    reachable s ->
    add_submission s request_id name phone email now = Ok (x, s') ->
    reachable s'
| reach_mark_token_used s token :
    reachable s -> reachable (mark_token_used s token)
| reach_set_one_time_use s request_id one_time :
    reachable s -> reachable (set_one_time_use s request_id one_time)
| reach_wipe_database s :
    reachable s -> reachable (wipe_database s)
| reach_add_reward_entry s name phone points why now s' :
    reachable s ->
    add_reward_entry s name phone points why now = Ok s' ->
    reachable s'
| reach_clear_reward_entries s name phone :
    reachable s -> reachable (clear_reward_entries s name phone).

End Wf.


(* ===================================================================== *)
(** * A scenario: one event, one visitor *)
(* ===================================================================== *)

Module Scenario.
Import Db App Review.

(** The request "Event A": 10 points, one-time use, token [abc123]. *)
Definition event_request : Request :=
  mkRequest 1 "Event A" "" "open" "abc123" "2024-01-01T09:00:00" 1 0.

Definition event_store : Store :=
  mkStore {[ "points_1" := "10" ]} [event_request] [] [] 1 0.

Definition jane : FormInput :=
  mkFormInput "Jane Doe" "+1 555-000-1111" "" true "2024-01-01T10:00:00".

Definition john : FormInput :=
  mkFormInput "John Roe" "555-000-2222" "" true "2024-01-01T10:00:01".

(** The store after Jane's submission. *)
Definition jane_submission : Submission :=
  mkSubmission 1 1 "Jane Doe" "+1 555-000-1111" "" "2024-01-01T10:00:00".

Definition store_after_jane : Store :=
  mkStore {[ "points_1" := "10" ]}
          [mkRequest 1 "Event A" "" "open" "abc123" "2024-01-01T09:00:00" 1 1]
          [jane_submission] [] 1 1.

(** Both runs look the request up and pass the gate before either
    inserts. *)
Definition racing_schedule : list Turn :=
  [First; Second; First; Second; First; Second; First; Second].

(** A phone number with a tab between its groups. *)
Definition tab_phone : string :=
  "555" +:+ String "009" "1234".

(** What the review page collects for Jane. *)
Definition jane_rows : list (string * string * Z) :=
  [("Jane Doe", "+1 555-000-1111", 10)].

Definition pay_jane : RewardForm :=
  mkRewardForm "Jane Doe" "+1 555-000-1111" 0 "" false true false
               "2024-01-02T08:00:00".



End Scenario.

(* ===================================================================== *)
(** * More of the store: orderings and the submissions table *)
(* ===================================================================== *)

Module Tables.
Import Db.

(** Newest first: no row is followed directly by a newer one. *)
Fixpoint newest_first {A : Type} (key : A -> string) (l : list A) : Prop :=
  match l with
  | [] => True
  | x :: l' =>
      match l' with
      | [] => True
      | y :: _ => String.ltb (key x) (key y) = false
      end
      /\ newest_first key l'
  end.

(** What identifies a submission for the duplicate check. *)
Definition sub_key (x : Submission) : Z * string :=
  (sub_request_id x, sub_phone x).

(** What the writers of db.py maintain on [submissions]: no two rows of
    one request with the same phone string, [id] is the primary key,
    and no id exceeds the [AUTOINCREMENT] counter. *)
Definition subs_ok (s : Store) : Prop :=
  List.NoDup (map sub_key (submissions s))
  /\ List.NoDup (map sub_id (submissions s))
  /\ List.Forall (fun x => sub_id x <= seq_submissions s) (submissions s).

(** clear_db.py, [main()], on a database that has its three tables: the
    same three [DELETE]s as [wipe_database]. *)
Definition clear_db_main (s : Store) : Store :=
  let s1 := with_submissions s [] in
  let s2 := with_requests s1 [] in
  with_settings s2 ∅.

End Tables.

(* ===================================================================== *)
(** * app.py: query parameters and the choice of page *)
(* ===================================================================== *)

Module Routing.

(** A value of the query-parameter mapping: a string, or a list of
    strings in the older Streamlit. *)
Inductive param : Type :=
| PStr (s : string)
| PList (l : list string).

(** [_get_param_value(params, key)] *)
Definition _get_param_value (params : gmap string param) (key : string)
  : option string :=
  match params !! key with
  | None => None
  | Some (PStr s) => Some s
  | Some (PList l) =>
      match l with
      | [] => None
      | x :: _ => Some x
      end
  end.

Inductive Page : Type :=
| FormPage (token : string)
| ReviewPage
| AdminPage.

(** The dispatch at the end of [main()]. *)
Definition main (params : gmap string param) : Page :=
  let view := _get_param_value params "view" in
  let token := _get_param_value params "token" in
  match view, token with
  | Some v, Some t =>
      if String.eqb v "form" && PyStr.truthy t then FormPage t
      else if String.eqb v "review" then ReviewPage
      else AdminPage
  | Some v, None => if String.eqb v "review" then ReviewPage else AdminPage
  | None, _ => AdminPage
  end.

End Routing.

(* ===================================================================== *)
(** * app.py: the admin dashboard *)
(* ===================================================================== *)

Module Admin.
Import Db App.

(** [v or d] on strings *)
Definition or_default (v d : string) : string :=
  if PyStr.truthy v then v else d.

(** The base URL of the create form. *)
Definition create_form_base (s : Store) : string :=
  or_default (get_setting s "base_url" "") "http://192.168.1.4:8501".

(** The base URL of the batch form. *)
Definition batch_form_base (s : Store) : string :=
  let base_url := or_default (get_setting s "base_url" "") "" in
  if negb (PyStr.truthy base_url) then "http://192.168.1.12:8501" else base_url.

(** The content encoded in the QR code by the create form. *)
Definition created_content (base_url : string) (custom : option string)
           (token : string) : string :=
  match custom with
  | Some txt =>
      if PyStr.truthy (PyStr.strip txt) then PyStr.strip txt
      else _build_form_url base_url token
  | None => _build_form_url base_url token
  end.

(** The content encoded in the QR code shown for a request in the list
    "All Requests". *)
Definition listed_content (s : Store) (r : Request) : string :=
  let base_url := or_default (get_setting s "base_url" "") "" in
  let custom_qr_text := get_setting s (qr_custom_key (req_id r)) "" in
  if PyStr.truthy custom_qr_text then custom_qr_text
  else if PyStr.truthy base_url then _build_form_url base_url (req_token r)
  else "http://192.168.1.4:8501?view=form&token=" +:+ req_token r.

(** The body of the loop of the create form for more than one QR code,
    at iteration [i]: a request titled [f"{title} #{i+1}"] under the
    fresh token, its points and its one-time flag. *)
Definition batch_iteration (i : Z) (s : Store) (title description : string)
           (points : Z) (one_time_use : bool) (btok now : string)
  : result (Request * Store) :=
  '(req, s1) ← create_request s
                 (PyStr.strip title +:+ " #" +:+ PyStr.str_of_int (i + 1))
                 (PyStr.strip description) btok now;
  let s2 := set_setting s1 (points_key (req_id req)) (PyStr.str_of_int points) in
  let s3 := set_one_time_use s2 (req_id req) one_time_use in
  Ok (req, s3).

(** The loop from iteration [i] on, one iteration per (token, clock
    reading).  An exception of [create_request] leaves the loop; what
    the earlier iterations wrote stays. *)
Fixpoint create_batch_from (i : Z) (s : Store) (title description : string)
         (points : Z) (one_time_use : bool) (fresh : list (string * string))
  : Store * result (list Request) :=
  match fresh with
  | [] => (s, Ok [])
  | (btok, now) :: rest =>
      match batch_iteration i s title description points one_time_use btok now with
      | Raise e => (s, Raise e)
      | Ok (req, s3) =>
          let '(s4, r) := create_batch_from (i + 1) s3 title description points
                                            one_time_use rest in
          (s4, match r with
               | Ok reqs => Ok (req :: reqs)
               | Raise e => Raise e
               end)
      end
  end.

Definition create_batch (s : Store) (title description : string) (points : Z)
           (one_time_use : bool) (fresh : list (string * string))
  : Store * result (list Request) :=
  create_batch_from 0 s title description points one_time_use fresh.

End Admin.

(* ===================================================================== *)
(** * The rewards summary, by identity *)
(* ===================================================================== *)

Module Summary.

Definition row_key (r : string * string * Z) : string * string := (r.1.1, r.1.2).

(** The collected rows of one identity. *)
Definition rows_of (rows : list (string * string * Z)) (k : string * string)
  : list (string * string * Z) :=
  List.filter (fun r => bool_decide (row_key r = k)) rows.

(** The points an identity has earned: each of its rows counts for its
    points, or for nothing when they are negative. *)
Definition earned_for (rows : list (string * string * Z)) (k : string * string) : Z :=
  fold_right Z.add 0 (map (fun r => Z.max 0 r.2) (rows_of rows k)).

Definition count_for (rows : list (string * string * Z)) (k : string * string) : Z :=
  Z.of_nat (length (rows_of rows k)).

(** The row of the rewards table for the identity [k], from the
    collected rows and the ledger of [s]: earned points, adjustment
    sum, their sum floored at 0, and the number of submissions. *)
Definition summary_row (s : Db.Store) (rows : list (string * string * Z))
           (k : string * string) : gmap string Review.pyval :=
  let earned := earned_for rows k in
  let adj := Db.get_rewards_adjustment_sum s k.1 k.2 in
  Review.mk_row k.1 k.2 earned adj (Z.max 0 (earned + adj)) (count_for rows k).

(** Every row of [agg] is filed under its name and phone and carries
    the earned points [E] and the count [C] of its identity, with
    adjustments and balance at 0. *)
Definition shaped (E C : string * string -> Z)
           (agg : list ((string * string) * gmap string Review.pyval)) : Prop :=
  List.Forall (fun kv => kv.2 = Review.mk_row kv.1.1 kv.1.2 (E kv.1) 0 0 (C kv.1)) agg.

(** The state of the first loop after the rows [pre]. *)
Definition loop_inv (pre : list (string * string * Z))
           (agg : list ((string * string) * gmap string Review.pyval)) : Prop :=
  List.NoDup (map fst agg)
  /\ (forall k, List.In k (map fst agg) <-> List.In k (map row_key pre))
  /\ shaped (earned_for pre) (count_for pre) agg.

End Summary.

(* ===================================================================== *)
(** * qr_utils.py: the grid of the A4 sheet *)
(* ===================================================================== *)

Module QrUtils.

(** The sizes in pixels that [create_a4_print_layout] computes at its
    head, by [int(mm * dpi / 25.4)], from the sizes in millimetres. *)
Record Sizes : Type := mkSizes {
  a4_width_px : Z;
  a4_height_px : Z;
  qr_width_px : Z;
  qr_height_px : Z;
  margin_px : Z;
  spacing_px : Z
}.

(** [a // b]; [None] is the [ZeroDivisionError]. *)
Definition floordiv (a b : Z) : option Z :=
  if Z.eqb b 0 then None else Some (a / b).

Definition grid_cols (p : Sizes) : option Z :=
  let available_width := a4_width_px p - 2 * margin_px p in
  q ← floordiv (available_width + spacing_px p) (qr_width_px p + spacing_px p);
  Some (Z.max 1 q).

Definition grid_rows (p : Sizes) : option Z :=
  let available_height := a4_height_px p - 2 * margin_px p in
  q ← floordiv (available_height + spacing_px p) (qr_height_px p + spacing_px p);
  Some (Z.max 1 q).

(** Where image number [i] is pasted. *)
Definition position (p : Sizes) (cols i : Z) : Z * Z :=
  let row := i / cols in
  let col := i mod cols in
  (margin_px p + col * (qr_width_px p + spacing_px p),
   margin_px p + row * (qr_height_px p + spacing_px p)).

(** The loop over [enumerate(qr_images)] from index [i] on: the images
    pasted, each with its position; the loop is left at the first
    index that is not below [cols * rows]. *)
Fixpoint place_from {A : Type} (p : Sizes) (cols rows i : Z) (imgs : list A)
  : list (A * (Z * Z)) :=
  match imgs with
  | [] => []
  | img :: rest =>
      if Z.geb i (cols * rows) then []
      else (img, position p cols i) :: place_from p cols rows (i + 1) rest
  end.

(** The images [create_a4_print_layout] pastes on the sheet. *)
Definition pasted {A : Type} (p : Sizes) (qr_images : list A)
  : option (list (A * (Z * Z))) :=
  cols ← grid_cols p;
  rows ← grid_rows p;
  Some (place_from p cols rows 0 qr_images).

(** [generate_batch_qr_codes]: [count] times the image that
    [generate_passport_size_qr] makes of the data. *)
Definition generate_batch_qr_codes {A : Type} (make : A) (count : Z) : list A :=
  repeat make (Z.to_nat count).

End QrUtils.

(* ===================================================================== *)
(** * A second scenario: a request that may be used more than once *)
(* ===================================================================== *)

Module OpenHouse.
Import Db App.

Definition house_request : Request :=
  mkRequest 1 "Open house" "" "open" "777fee" "2024-02-01T09:00:00" 0 0.

Definition house_store : Store :=
  mkStore {[ "points_1" := "3" ]} [house_request] [] [] 1 0.

Definition store_after_visit : Store :=
  mkStore {[ "points_1" := "3" ]}
          [mkRequest 1 "Open house" "" "open" "777fee" "2024-02-01T09:00:00" 0 1]
          [mkSubmission 1 1 "Jane Doe" "+1 555-000-1111" "" "2024-01-01T10:00:00"]
          [] 1 1.

(** The sheet of [create_a4_print_layout] at 300 dpi with passport-size
    codes: 210 x 297 mm, codes of 45 x 35 mm, margin 10 mm, spacing
    5 mm. *)
Definition passport_sheet : QrUtils.Sizes :=
  QrUtils.mkSizes 2480 3507 531 413 118 59.

End OpenHouse.

(* ===================================================================== *)
(** * Tables: selection, update and deletion *)
(* ===================================================================== *)

Section Tables.
Context {A : Type}.
Implicit Types (cond : A -> bool) (rows : list A).

Lemma select_one_some cond rows r :
  Db.select_one cond rows = Some r -> List.In r rows /\ cond r = true.
Proof. unfold Db.select_one. apply List.find_some. Qed.

Lemma select_one_none cond rows :
  Db.select_one cond rows = None <-> (forall r, List.In r rows -> cond r = false).
Proof.
  unfold Db.select_one. split.
  - intros H r Hr. exact (List.find_none cond rows H r Hr).
  - induction rows as [|x rows IH]; intros H; simpl; [reflexivity|].
    rewrite (H x (or_introl eq_refl)). apply IH.
    intros r Hr. apply H. now right.
Qed.

Lemma in_delete_where cond rows r :
  List.In r (Db.delete_where cond rows) <-> List.In r rows /\ cond r = false.
Proof.
  unfold Db.delete_where. rewrite List.filter_In.
  now rewrite Bool.negb_true_iff.
Qed.

Lemma in_update_where cond (f : A -> A) rows r :
  List.In r (Db.update_where cond f rows) <->
  exists r0, List.In r0 rows /\ r = (if cond r0 then f r0 else r0).
Proof.
  unfold Db.update_where. rewrite List.in_map_iff.
  split; intros (r0 & H1 & H2); exists r0; split; auto.
Qed.

Lemma map_update_where {B : Type} (g : A -> B) cond (f : A -> A) rows :
  (forall r, g (f r) = g r) ->
  map g (Db.update_where cond f rows) = map g rows.
Proof.
  intros Hg. unfold Db.update_where. rewrite List.map_map.
  apply List.map_ext. intros r. destruct (cond r); [apply Hg | reflexivity].
Qed.

(** Selecting on a condition that the update preserves finds the
    updated version of the row found before. *)
Lemma select_update_where cond cond' (f : A -> A) rows :
  (forall r, cond (f r) = cond r) ->
  Db.select_one cond (Db.update_where cond' f rows)
  = (fun r => if cond' r then f r else r) <$> Db.select_one cond rows.
Proof.
  intros Hc. unfold Db.select_one, Db.update_where.
  induction rows as [|x rows IH]; simpl; [reflexivity|].
  assert (Hx : cond (if cond' x then f x else x) = cond x)
    by (destruct (cond' x); [apply Hc | reflexivity]).
  rewrite Hx. destruct (cond x); [reflexivity | exact IH].
Qed.

Lemma nodup_map_delete_where {B : Type} (g : A -> B) cond rows :
  List.NoDup (map g rows) -> List.NoDup (map g (Db.delete_where cond rows)).
Proof.
  unfold Db.delete_where.
  induction rows as [|x rows IH]; simpl; intros H; [constructor|].
  inversion H as [|? ? Hnotin Hnd]; subst.
  destruct (negb (cond x)); simpl; [|auto].
  constructor; [|auto].
  intros Hin. apply Hnotin.
  apply List.in_map_iff in Hin as (y & Hy & Hin).
  apply List.filter_In in Hin as [Hin _].
  apply List.in_map_iff. eauto.
Qed.

Lemma order_by_desc_nil (key : A -> string) : Db.order_by_desc key [] = [].
Proof. reflexivity. Qed.

Lemma in_insert_desc (key : A -> string) x l r :
  List.In r (Db.insert_desc key x l) <-> r = x \/ List.In r l.
Proof.
  induction l as [|y l IH]; simpl.
  - intuition.
  - destruct (String.ltb (key y) (key x)); simpl; [intuition|].
    rewrite IH. intuition.
Qed.

(** Ordering neither adds nor drops a row. *)
Lemma in_order_by_desc (key : A -> string) l r :
  List.In r (Db.order_by_desc key l) <-> List.In r l.
Proof.
  unfold Db.order_by_desc. induction l as [|y l IH]; simpl; [tauto|].
  rewrite in_insert_desc, IH. intuition.
Qed.

End Tables.

(* ===================================================================== *)
(** * Well-formedness is kept by every operation of db.py *)
(* ===================================================================== *)

Section WfPreserved.
Import Db Wf.

Lemma distinct_sound {A : Type} (eqb : A -> A -> bool) (l : list A) :
  (forall x y, eqb x y = true <-> x = y) ->
  distinct eqb l = true -> List.NoDup l.
Proof.
  intros Heq. induction l as [|x l IH]; simpl; intros H; [constructor|].
  apply andb_prop in H as [Hx Hl]. constructor; [|auto].
  intros Hin. apply Bool.negb_true_iff in Hx.
  assert (existsb (eqb x) l = true) as Hex
    by (apply List.existsb_exists; exists x; split; [assumption | now apply Heq]).
  congruence.
Qed.

Lemma request_okb_sound seq r : request_okb seq r = true -> request_ok seq r.
Proof.
  unfold request_okb, request_ok. intros H.
  apply andb_prop in H as [H H3]. apply andb_prop in H as [H1 H2].
  apply Bool.orb_true_iff in H1. lia.
Qed.

Lemma wf_storeb_sound s : wf_storeb s = true -> wf_store s.
Proof.
  unfold wf_storeb, wf_store. intros H.
  apply andb_prop in H as [H H3]. apply andb_prop in H as [H1 H2].
  split; [|split].
  - apply (distinct_sound Z.eqb); [apply Z.eqb_eq | assumption].
  - apply (distinct_sound String.eqb); [apply String.eqb_eq | assumption].
  - apply List.Forall_forall. intros r Hr. apply request_okb_sound.
    rewrite List.forallb_forall in H3. auto.
Qed.

Lemma wf_empty_store : wf_store empty_store.
Proof. apply wf_storeb_sound. reflexivity. Qed.

Lemma request_ok_mono seq seq' r : seq <= seq' -> request_ok seq r -> request_ok seq' r.
Proof. unfold request_ok. lia. Qed.

(** An update of [requests] that keeps ids and tokens and maps good
    rows to good rows keeps the store well formed. *)
Lemma wf_update_requests s cond (f : Request -> Request) :
  (forall r, req_id (f r) = req_id r) ->
  (forall r, req_token (f r) = req_token r) ->
  (forall r, request_ok (seq_requests s) r -> request_ok (seq_requests s) (f r)) ->
  wf_store s ->
  wf_store (with_requests s (update_where cond f (requests s))).
Proof.
  intros Hid Htok Hok (H1 & H2 & H3). unfold wf_store; simpl.
  rewrite !map_update_where by assumption.
  split; [assumption | split; [assumption|]].
  apply List.Forall_forall. intros r Hr.
  apply in_update_where in Hr as (r0 & Hr0 & ->).
  rewrite List.Forall_forall in H3.
  destruct (cond r0); auto.
Qed.

Lemma get_request_by_token_in s token r :
  get_request_by_token s token = Some r ->
  List.In r (requests s) /\ req_token r = token.
Proof.
  unfold get_request_by_token. intros H.
  apply select_one_some in H as [Hin Heq].
  split; [assumption | now apply String.eqb_eq].
Qed.

Lemma get_request_by_token_none s token :
  get_request_by_token s token = None <->
  (forall r, List.In r (requests s) -> req_token r <> token).
Proof.
  unfold get_request_by_token. rewrite select_one_none.
  split; intros H r Hr; specialize (H r Hr).
  - now apply String.eqb_neq.
  - now apply String.eqb_neq.
Qed.

Lemma wf_create_request s title description token now r s' :
  wf_store s ->
  create_request s title description token now = Ok (r, s') ->
  wf_store s'.
Proof.
  intros (H1 & H2 & H3) Hc. unfold create_request in Hc.
  destruct (get_request_by_token s token) eqn:Hfind; [discriminate|].
  injection Hc as <- <-. unfold wf_store; simpl.
  rewrite !List.map_app; simpl.
  rewrite List.Forall_forall in H3.
  split; [|split].
  - apply List.NoDup_app; repeat split; auto.
    + constructor; [intros [] | constructor].
    + intros x Hx [<-|[]].
      apply List.in_map_iff in Hx as (r0 & Hr0 & Hin).
      destruct (H3 r0 Hin) as (_ & _ & Hle). lia.
  - apply List.NoDup_app; repeat split; auto.
    + constructor; [intros [] | constructor].
    + intros x Hx [<-|[]].
      apply List.in_map_iff in Hx as (r0 & Hr0 & Hin).
      rewrite get_request_by_token_none in Hfind.
      exact (Hfind r0 Hin Hr0).
  - apply List.Forall_app. split.
    + apply List.Forall_forall. intros r0 Hr0.
      apply (request_ok_mono (seq_requests s)); [lia | auto].
    + constructor; [|constructor]. unfold request_ok; simpl. lia.
Qed.

Lemma wf_update_request_status s request_id status :
  wf_store s -> wf_store (update_request_status s request_id status).
Proof. intros H. apply wf_update_requests; auto. Qed.

Lemma wf_set_one_time_use s request_id one_time :
  wf_store s -> wf_store (set_one_time_use s request_id one_time).
Proof.
  intros H. apply wf_update_requests; auto.
  unfold request_ok; simpl. intros r Hr. destruct one_time; lia.
Qed.

Lemma wf_mark_token_used s token :
  wf_store s -> wf_store (mark_token_used s token).
Proof.
  intros H. apply wf_update_requests; auto.
  unfold request_ok; simpl. intros r Hr. lia.
Qed.

Lemma wf_delete_request s request_id :
  wf_store s -> wf_store (delete_request s request_id).
Proof.
  intros (H1 & H2 & H3). unfold wf_store, delete_request; simpl.
  split; [|split]; try now apply nodup_map_delete_where.
  apply List.Forall_forall. intros r Hr.
  apply in_delete_where in Hr as [Hr _].
  rewrite List.Forall_forall in H3. auto.
Qed.

Lemma wf_add_submission s request_id name phone email now x s' :
  wf_store s ->
  add_submission s request_id name phone email now = Ok (x, s') ->
  wf_store s'.
Proof.
  intros H Ha. unfold add_submission in Ha.
  destruct (select_one _ _); [discriminate|].
  injection Ha as <- <-. exact H.
Qed.

Lemma wf_set_setting s key value : wf_store s -> wf_store (set_setting s key value).
Proof. intros H. exact H. Qed.

Lemma wf_wipe_database s : wf_store s -> wf_store (wipe_database s).
Proof.
  intros _. unfold wf_store; simpl. repeat split; constructor.
Qed.

Lemma wf_add_reward_entry s name phone points why now s' :
  wf_store s -> add_reward_entry s name phone points why now = Ok s' -> wf_store s'.
Proof.
  intros H Ha. unfold add_reward_entry in Ha.
  destruct (PyStr.truthy name && PyStr.truthy phone); [|discriminate].
  injection Ha as <-. exact H.
Qed.

Lemma wf_clear_reward_entries s name phone :
  wf_store s -> wf_store (clear_reward_entries s name phone).
Proof. intros H. exact H. Qed.

(** Every store the application gets to is well formed. *)
Lemma reachable_wf s : reachable s -> wf_store s.
Proof.
  induction 1;
    eauto using wf_empty_store, wf_set_setting, wf_create_request,
      wf_update_request_status, wf_delete_request, wf_add_submission,
      wf_mark_token_used, wf_set_one_time_use, wf_wipe_database,
      wf_add_reward_entry, wf_clear_reward_entries.
Qed.

End WfPreserved.

(* ===================================================================== *)
(** * The token gate and the public form *)
(* ===================================================================== *)

Section TokenGate.
Import Db Wf App.

Lemma is_token_used_lookup s token :
  is_token_used s token =
  match get_request_by_token s token with
  | Some r => Z.eqb (req_one_time_use r) 1 && Z.gtb (req_used_count r) 0
  | None => false
  end.
Proof. reflexivity. Qed.

Lemma add_submission_requests s request_id name phone email now x s' :
  add_submission s request_id name phone email now = Ok (x, s') ->
  requests s' = requests s /\ settings s' = settings s
  /\ submissions s' = (submissions s ++ [x])%list.
Proof.
  unfold add_submission. destruct (select_one _ _); [discriminate|].
  intros H. injection H as <- <-. auto.
Qed.

Lemma lookup_after_mark s token token' :
  get_request_by_token (mark_token_used s token) token'
  = (fun r => if String.eqb (req_token r) token then incr_used r else r)
      <$> get_request_by_token s token'.
Proof.
  unfold get_request_by_token, mark_token_used; simpl.
  apply select_update_where. reflexivity.
Qed.

Lemma lookup_same_requests s s' token :
  requests s' = requests s ->
  get_request_by_token s' token = get_request_by_token s token.
Proof. unfold get_request_by_token. now intros ->. Qed.

(** What an accepted run did: the gate was open, the row was inserted,
    the counter incremented. *)
Lemma accepted_inv s token inp s' :
  _public_form s token inp = (s', Accepted) ->
  exists req x s1,
    get_request_by_token s token = Some req
    /\ req_status req = "open"
    /\ is_token_used s token = false
    /\ add_submission s (req_id req) (PyStr.strip (f_name inp))
         (PyStr.strip (f_phone inp)) (PyStr.strip (f_email inp)) (f_now inp)
       = Ok (x, s1)
    /\ s' = mark_token_used s1 token.
Proof.
  unfold _public_form.
  destruct (get_request_by_token s token) as [req|] eqn:Hreq; [|discriminate].
  destruct (String.eqb (req_status req) "open") eqn:Hst; simpl; [|discriminate].
  destruct (is_token_used s token) eqn:Hused; [discriminate|].
  destruct (f_submit inp); simpl; [|discriminate].
  destruct (validate inp); [|discriminate].
  destruct (add_submission _ _ _ _ _ _) as [[x s1]|e] eqn:Hadd.
  - intros H. injection H as <-.
    exists req, x, s1. apply String.eqb_eq in Hst. auto.
  - intros H. injection H as _ H. destruct e; simpl in H; try discriminate.
    destruct (PyStr.str_in _ _); discriminate.
Qed.

Lemma gate_usable_iff s token :
  token_gate s token = USABLE <->
  exists r, get_request_by_token s token = Some r
            /\ req_status r = "open"
            /\ (Z.eqb (req_one_time_use r) 1 && Z.gtb (req_used_count r) 0) = false.
Proof.
  unfold token_gate. rewrite is_token_used_lookup.
  destruct (get_request_by_token s token) as [r|].
  - destruct (String.eqb (req_status r) "open") eqn:Hst; simpl.
    + apply String.eqb_eq in Hst.
      destruct (Z.eqb (req_one_time_use r) 1 && Z.gtb (req_used_count r) 0) eqn:Hu.
      * split; [discriminate|]. intros (r' & Hr' & _ & Hf).
        injection Hr' as <-. congruence.
      * split; [|reflexivity]. intros _. exists r. auto.
    + apply String.eqb_neq in Hst.
      split; [discriminate|]. intros (r' & Hr' & Ho & _).
      injection Hr' as <-. contradiction.
  - split; [discriminate|]. intros (r' & Hr' & _). discriminate.
Qed.

Lemma used_flag_false r seq :
  request_ok seq r ->
  (Z.eqb (req_one_time_use r) 1 && Z.gtb (req_used_count r) 0) = false
  <-> (req_one_time_use r = 0 \/ req_used_count r = 0).
Proof.
  unfold request_ok. intros (Hflag & Hcount & _).
  rewrite Bool.andb_false_iff, Z.eqb_neq, Z.gtb_ltb, Z.ltb_ge. lia.
Qed.

Lemma wf_request_ok s token r :
  wf_store s -> get_request_by_token s token = Some r ->
  request_ok (seq_requests s) r.
Proof.
  intros (_ & _ & H) Hr. apply get_request_by_token_in in Hr as [Hin _].
  rewrite List.Forall_forall in H. auto.
Qed.

(** A run alone goes through its four transactions and ends as
    [_public_form] says. *)
Lemma run_steps_alone s token inp :
  run_steps 4 token inp s AtLookup
  = (fst (_public_form s token inp), Finished (snd (_public_form s token inp))).
Proof.
  unfold _public_form; simpl.
  destruct (get_request_by_token s token) as [req|]; [|reflexivity].
  destruct (negb (String.eqb (req_status req) "open")); simpl; [reflexivity|].
  destruct (is_token_used s token); simpl; [reflexivity|].
  destruct (negb (f_submit inp)); simpl; [reflexivity|].
  destruct (validate inp); simpl; [|reflexivity].
  destruct (add_submission _ _ _ _ _ _) as [[x s1]|e]; reflexivity.
Qed.

End TokenGate.

(** C1: on a well-formed store a token is usable exactly when its request
    exists, has status "open", and is not one-time or has a used count
    of 0; and once a run on a one-time request's token has been accepted,
    the next run on that token is rejected as exhausted and leaves the
    store as it is. *)
Theorem token_usable_iff_and_one_time
        (s : Db.Store) (token : string) (Hwf : Wf.wf_store s) :
  (App.token_gate s token = App.USABLE <->
   exists r, Db.get_request_by_token s token = Some r
             /\ Db.req_status r = "open"
             /\ (Db.req_one_time_use r = 0 \/ Db.req_used_count r = 0))
  /\ (forall r inp1 inp2 s',
         Db.get_request_by_token s token = Some r ->
         Db.req_one_time_use r = 1 ->
         App._public_form s token inp1 = (s', App.Accepted) ->
         App._public_form s' token inp2 = (s', App.Rejected App.EXHAUSTED)).
Proof.
  split.
  - rewrite gate_usable_iff. split; intros (r & Hr & Hopen & Hflag); exists r.
    + rewrite <- (used_flag_false r (Db.seq_requests s)); eauto using wf_request_ok.
    + rewrite (used_flag_false r (Db.seq_requests s)); eauto using wf_request_ok.
  - intros r inp1 inp2 s' Hr Hone Hacc.
    apply accepted_inv in Hacc as (req & x & s1 & Hreq & Hopen & Hused & Hadd & ->).
    assert (req = r) as -> by congruence.
    pose proof (wf_request_ok s token r Hwf Hr) as (_ & Hcount & _).
    pose proof (get_request_by_token_in s token r Hr) as [_ Htok].
    apply add_submission_requests in Hadd as (Hreqs & _ & _).
    unfold App._public_form.
    rewrite is_token_used_lookup, lookup_after_mark.
    rewrite (lookup_same_requests s s1 token Hreqs), Hr; simpl.
    rewrite Htok, String.eqb_refl; simpl.
    rewrite Hopen; simpl. rewrite Hone; simpl.
    replace (Z.gtb (Db.req_used_count r + 1) 0) with true
      by (symmetry; rewrite Z.gtb_ltb; apply Z.ltb_lt; lia).
    reflexivity.
Qed.

(** The scenario instantiates C1: "Event A" is well formed and its token
    is usable. *)
Lemma token_usable_iff_and_one_time_witness :
  (App.token_gate Scenario.event_store "abc123" = App.USABLE <->
   exists r, Db.get_request_by_token Scenario.event_store "abc123" = Some r
             /\ Db.req_status r = "open"
             /\ (Db.req_one_time_use r = 0 \/ Db.req_used_count r = 0))
  /\ (forall r inp1 inp2 s',
         Db.get_request_by_token Scenario.event_store "abc123" = Some r ->
         Db.req_one_time_use r = 1 ->
         App._public_form Scenario.event_store "abc123" inp1 = (s', App.Accepted) ->
         App._public_form s' "abc123" inp2 = (s', App.Rejected App.EXHAUSTED)).
Proof.
  apply (token_usable_iff_and_one_time Scenario.event_store "abc123").
  apply wf_storeb_sound. vm_compute. reflexivity.
Defined.

(** C9: for a token that belongs to no request [is_token_used] answers
    [False], as it does for a request that was never used; the unknown
    token is turned away by the lookup at the head of [_public_form]. *)
Theorem is_token_used_unknown_token (s : Db.Store) (token : string) :
  Db.get_request_by_token s token = None ->
  Db.is_token_used s token = false
  /\ App.token_gate s token = App.UNKNOWN_TOKEN
  /\ (forall inp, App._public_form s token inp = (s, App.Rejected App.UNKNOWN_TOKEN))
  /\ (forall token' r,
         Db.get_request_by_token s token' = Some r ->
         Db.req_used_count r = 0 ->
         Db.is_token_used s token' = Db.is_token_used s token).
Proof.
  intros Hnone. rewrite is_token_used_lookup, Hnone.
  unfold App.token_gate, App._public_form. rewrite Hnone.
  repeat split.
  intros token' r Hr Hzero. rewrite is_token_used_lookup, Hr, Hzero.
  apply Bool.andb_false_r.
Qed.

(** In the scenario the token [zzz] is unknown and [abc123] is fresh. *)
Lemma is_token_used_unknown_token_witness :
  Db.is_token_used Scenario.event_store "zzz" = false
  /\ App.token_gate Scenario.event_store "zzz" = App.UNKNOWN_TOKEN
  /\ (forall inp, App._public_form Scenario.event_store "zzz" inp
                  = (Scenario.event_store, App.Rejected App.UNKNOWN_TOKEN))
  /\ (forall token' r,
         Db.get_request_by_token Scenario.event_store token' = Some r ->
         Db.req_used_count r = 0 ->
         Db.is_token_used Scenario.event_store token'
         = Db.is_token_used Scenario.event_store "zzz").
Proof.
  apply (is_token_used_unknown_token Scenario.event_store "zzz").
  reflexivity.
Defined.

(* ===================================================================== *)
(** * Two runs on one token *)
(* ===================================================================== *)

Section Race.
Import Db App.

Lemma add_submission_fresh s request_id name phone email now :
  (forall x, List.In x (submissions s) ->
             sub_request_id x = request_id -> sub_phone x <> phone) ->
  add_submission s request_id name phone email now
  = Ok (mkSubmission (seq_submissions s + 1) request_id name phone email now,
        mkStore (settings s) (requests s)
                (submissions s ++ [mkSubmission (seq_submissions s + 1) request_id
                                                name phone email now])
                (reward_entries s) (seq_requests s) (seq_submissions s + 1)).
Proof.
  intros Hfresh. unfold add_submission.
  replace (select_one _ (submissions s)) with (@None Submission); [reflexivity|].
  symmetry. apply select_one_none. intros x Hx.
  apply Bool.andb_false_iff.
  destruct (Z.eqb_spec (sub_request_id x) request_id) as [Heq|Hne]; [right|now left].
  apply String.eqb_neq. auto.
Qed.

Lemma add_submission_taken s request_id name phone email now x :
  List.In x (submissions s) -> sub_request_id x = request_id -> sub_phone x = phone ->
  add_submission s request_id name phone email now
  = Raise (ValueError duplicate_phone_msg).
Proof.
  intros Hin Hid Hphone. unfold add_submission.
  destruct (select_one _ (submissions s)) eqn:Hsel; [reflexivity|].
  rewrite select_one_none in Hsel. specialize (Hsel x Hin). simpl in Hsel.
  rewrite Hid, Hphone, Z.eqb_refl, String.eqb_refl in Hsel. discriminate.
Qed.

(** The message raised by [add_submission] is the one the form reports
    as a duplicate. *)
Lemma classify_duplicate : classify (ValueError duplicate_phone_msg) = Duplicate.
Proof. reflexivity. Qed.

(** Whenever the token is usable and two visitors send valid forms with
    different phone numbers, neither of them submitted before, the
    schedule in which both pass the gate before either inserts ends
    with both accepted: the gate and the consumption are separate
    transactions. *)
Lemma both_accepted s token inp1 inp2 req :
  get_request_by_token s token = Some req ->
  req_status req = "open" ->
  is_token_used s token = false ->
  f_submit inp1 = true -> f_submit inp2 = true ->
  validate inp1 = [] -> validate inp2 = [] ->
  (forall x, List.In x (submissions s) -> sub_request_id x = req_id req ->
             sub_phone x <> PyStr.strip (f_phone inp1)
             /\ sub_phone x <> PyStr.strip (f_phone inp2)) ->
  PyStr.strip (f_phone inp1) <> PyStr.strip (f_phone inp2) ->
  let c := run_schedule token inp1 inp2
             [First; Second; First; Second; First; Second; First; Second] s in
  cfg_pc1 c = Finished Accepted
  /\ cfg_pc2 c = Finished Accepted
  /\ length (submissions (cfg_store c)) = S (S (length (submissions s))).
Proof.
  intros Hreq Hopen Hused Hs1 Hs2 Hv1 Hv2 Hfresh Hne.
  assert (L1 : step token inp1 s AtLookup = (s, AtGate req))
    by (simpl; rewrite Hreq, Hopen; reflexivity).
  assert (L2 : step token inp2 s AtLookup = (s, AtGate req))
    by (simpl; rewrite Hreq, Hopen; reflexivity).
  assert (G1 : step token inp1 s (AtGate req) = (s, AtInsert req))
    by (simpl; rewrite Hused, Hs1, Hv1; reflexivity).
  assert (G2 : step token inp2 s (AtGate req) = (s, AtInsert req))
    by (simpl; rewrite Hused, Hs2, Hv2; reflexivity).
  unfold run_schedule.
  cbn [fold_left sched_step cfg_store cfg_pc1 cfg_pc2]. rewrite L1.
  cbn [fold_left sched_step cfg_store cfg_pc1 cfg_pc2]. rewrite L2.
  cbn [fold_left sched_step cfg_store cfg_pc1 cfg_pc2]. rewrite G1.
  cbn [fold_left sched_step cfg_store cfg_pc1 cfg_pc2]. rewrite G2.
  cbn [fold_left sched_step cfg_store cfg_pc1 cfg_pc2].
  cbn [step]. rewrite add_submission_fresh by (intros x Hx Hid; now apply Hfresh).
  cbn [fold_left sched_step cfg_store cfg_pc1 cfg_pc2 step].
  rewrite add_submission_fresh.
  2:{ simpl. intros x Hx Hid. apply List.in_app_iff in Hx as [Hx|[<-|[]]]; simpl.
      - now apply Hfresh.
      - assumption. }
  cbn [fold_left sched_step cfg_store cfg_pc1 cfg_pc2 step].
  repeat split. simpl. rewrite !length_app; simpl. lia.
Qed.

End Race.

(** The scenario is one the application produces: the create form
    yields [event_store], and Jane's submission turns it into
    [store_after_jane]. *)
Example scenario_reached :
  App.admin_create_single Db.empty_store "Event A" "" "abc123"
                          "2024-01-01T09:00:00" 10 true None
  = Ok (Db.mkRequest 1 "Event A" "" "open" "abc123" "2024-01-01T09:00:00" 0 0,
        Scenario.event_store)
  /\ App._public_form Scenario.event_store "abc123" Scenario.jane
     = (Scenario.store_after_jane, App.Accepted).
Proof. vm_compute. split; reflexivity. Qed.

(** C3 (the code departs from it): in the scenario, Jane and John open the
    one-time token [abc123] together; with the gate checks of both runs
    scheduled before the insertions, both runs are accepted, two
    submissions are stored and the used count is 2. *)
Theorem race_on_one_time_token :
  let c := App.run_schedule "abc123" Scenario.jane Scenario.john
             Scenario.racing_schedule Scenario.event_store in
  Db.req_one_time_use Scenario.event_request = 1
  /\ App.cfg_pc1 c = App.Finished App.Accepted
  /\ App.cfg_pc2 c = App.Finished App.Accepted
  /\ map Db.sub_name (Db.submissions (App.cfg_store c)) = ["Jane Doe"; "John Roe"]
  /\ map Db.req_used_count (Db.requests (App.cfg_store c)) = [2].
Proof. vm_compute. repeat split. Qed.

(* ===================================================================== *)
(** * Duplicate submissions *)
(* ===================================================================== *)

(** C2, as the code has it: after a submission to a request is stored,
    a second one to the same request is refused as a duplicate when its
    phone is the same string, and is stored when its phone is another
    string that no earlier submission to the request has, whatever the
    digits of the two; the phone is stored as it was given. *)
Theorem add_submission_exact_phone
        (s s1 : Db.Store) (request_id : Z) (x1 : Db.Submission)
        (name1 phone1 email1 now1 name2 phone2 email2 now2 : string) :
  Db.add_submission s request_id name1 phone1 email1 now1 = Ok (x1, s1) ->
  Db.sub_phone x1 = phone1
  /\ (phone2 = phone1 ->
      Db.add_submission s1 request_id name2 phone2 email2 now2
      = Raise (ValueError Db.duplicate_phone_msg))
  /\ (phone2 <> phone1 ->
      (forall x, List.In x (Db.submissions s) ->
                 Db.sub_request_id x = request_id -> Db.sub_phone x <> phone2) ->
      exists x2 s2,
        Db.add_submission s1 request_id name2 phone2 email2 now2 = Ok (x2, s2)
        /\ Db.sub_phone x2 = phone2
        /\ Db.submissions s2 = (Db.submissions s ++ [x1; x2])%list).
Proof.
  intros Hadd.
  assert (Hx1 : Db.sub_phone x1 = phone1 /\ Db.sub_request_id x1 = request_id).
  { unfold Db.add_submission in Hadd. destruct (Db.select_one _ _); [discriminate|].
    injection Hadd as <- _. auto. }
  destruct Hx1 as [Hp1 Hid1].
  apply add_submission_requests in Hadd as (_ & _ & Hsubs).
  split; [assumption | split].
  - intros ->. apply (add_submission_taken s1 request_id name2 phone1 email2 now2 x1);
      auto. rewrite Hsubs. apply List.in_app_iff. right. now left.
  - intros Hne Hfresh. eexists _, _. rewrite add_submission_fresh.
    + split; [reflexivity|]. simpl. split; [reflexivity|].
      rewrite Hsubs, <- List.app_assoc. reflexivity.
    + intros x Hx Hid. rewrite Hsubs in Hx.
      apply List.in_app_iff in Hx as [Hx|[<-|[]]]; [auto | congruence].
Qed.

(** Jane's submission in the scenario instantiates C2. *)
Lemma add_submission_exact_phone_witness :
  Db.sub_phone Scenario.jane_submission = "+1 555-000-1111"
  /\ ("+1 555-000-1111" = "+1 555-000-1111" ->
      Db.add_submission
        (Db.mkStore {[ "points_1" := "10" ]} [Scenario.event_request]
                    [Scenario.jane_submission] [] 1 1)
        1 "Jane D." "+1 555-000-1111" "" "2024-01-01T11:00:00"
      = Raise (ValueError Db.duplicate_phone_msg))
  /\ ("+1 555-000-1111" <> "+1 555-000-1111" ->
      (forall x, List.In x (Db.submissions Scenario.event_store) ->
                 Db.sub_request_id x = 1 -> Db.sub_phone x <> "+1 555-000-1111") ->
      exists x2 s2,
        Db.add_submission
          (Db.mkStore {[ "points_1" := "10" ]} [Scenario.event_request]
                      [Scenario.jane_submission] [] 1 1)
          1 "Jane D." "+1 555-000-1111" "" "2024-01-01T11:00:00" = Ok (x2, s2)
        /\ Db.sub_phone x2 = "+1 555-000-1111"
        /\ Db.submissions s2
           = (Db.submissions Scenario.event_store ++ [Scenario.jane_submission; x2])%list).
Proof.
  apply (add_submission_exact_phone Scenario.event_store _ 1 Scenario.jane_submission
           "Jane Doe" "+1 555-000-1111" "" "2024-01-01T10:00:00"
           "Jane D." "+1 555-000-1111" "" "2024-01-01T11:00:00").
  reflexivity.
Defined.

(** C2 as stated fails: "555-1234" and "5551234" have the same digits,
    and the second is stored after the first for the same request. *)
Lemma reformatted_phone_is_stored :
  App.digits_only "555-1234" = App.digits_only "5551234"
  /\ exists x1 s1 x2 s2,
      Db.add_submission Scenario.event_store 1 "Jane Doe" "555-1234" ""
                        "2024-01-01T10:00:00" = Ok (x1, s1)
      /\ Db.add_submission s1 1 "Jane Doe" "5551234" ""
                           "2024-01-01T10:05:00" = Ok (x2, s2)
      /\ map Db.sub_phone (Db.submissions s2) = ["555-1234"; "5551234"].
Proof.
  split; [reflexivity|].
  eexists _, _, _, _. split; [reflexivity|]. split; reflexivity.
Qed.

(* ===================================================================== *)
(** * Deleting a request *)
(* ===================================================================== *)

Section Delete.
Import Db Wf.

Lemma nodup_map_eq {A B : Type} (g : A -> B) (l : list A) a b :
  List.NoDup (map g l) -> List.In a l -> List.In b l -> g a = g b -> a = b.
Proof.
  induction l as [|x l IH]; simpl; intros Hnd Ha Hb Hg; [contradiction|].
  inversion Hnd as [|? ? Hnotin Hnd']; subst.
  destruct Ha as [<-|Ha], Hb as [<-|Hb]; auto.
  - exfalso. apply Hnotin. rewrite Hg. now apply List.in_map.
  - exfalso. apply Hnotin. rewrite <- Hg. now apply List.in_map.
Qed.

Lemma delete_request_submissions s request_id x :
  List.In x (submissions (delete_request s request_id)) <->
  List.In x (submissions s) /\ sub_request_id x <> request_id.
Proof.
  unfold delete_request; simpl. rewrite in_delete_where.
  now rewrite Z.eqb_neq.
Qed.

Lemma delete_request_requests s request_id r :
  List.In r (requests (delete_request s request_id)) <->
  List.In r (requests s) /\ req_id r <> request_id.
Proof.
  unfold delete_request; simpl. rewrite in_delete_where.
  now rewrite Z.eqb_neq.
Qed.

Lemma delete_request_settings s request_id :
  settings (delete_request s request_id) = settings s.
Proof. reflexivity. Qed.

Lemma list_submissions_in s request_id x :
  List.In x (list_submissions s request_id) <->
  List.In x (submissions s) /\ sub_request_id x = request_id.
Proof.
  unfold list_submissions. rewrite in_order_by_desc, List.filter_In.
  now rewrite Z.eqb_eq.
Qed.

End Delete.

(** C5, as the code has it: after [delete_request(R)] on a well-formed
    store no submission has request id R, [list_submissions(R)] is empty,
    no request has id R, the token of a deleted request is no longer
    found, and the settings are what they were. *)
Theorem delete_request_cascade (s : Db.Store) (R : Z) (Hwf : Wf.wf_store s) :
  let s' := Db.delete_request s R in
  (forall x, List.In x (Db.submissions s') -> Db.sub_request_id x <> R)
  /\ Db.list_submissions s' R = []
  /\ (forall r, List.In r (Db.requests s') -> Db.req_id r <> R)
  /\ (forall r, List.In r (Db.requests s) -> Db.req_id r = R ->
                Db.get_request_by_token s' (Db.req_token r) = None)
  /\ Db.settings s' = Db.settings s.
Proof.
  intros s'. subst s'. repeat split.
  - intros x Hx. now apply delete_request_submissions in Hx.
  - destruct (Db.list_submissions (Db.delete_request s R) R) as [|x l] eqn:Hl;
      [reflexivity | exfalso].
    assert (Hx : List.In x (Db.list_submissions (Db.delete_request s R) R))
      by (rewrite Hl; now left).
    apply list_submissions_in in Hx as [Hx Hid].
    apply delete_request_submissions in Hx as [_ Hne]. contradiction.
  - intros r Hr. now apply delete_request_requests in Hr.
  - intros r Hr Hid. apply get_request_by_token_none. intros r' Hr' Htok.
    apply delete_request_requests in Hr' as [Hr' Hne].
    destruct Hwf as (_ & Htokens & _).
    assert (r' = r) by (eapply nodup_map_eq; eauto).
    congruence.
Qed.

(** Deleting "Event A" after Jane's submission instantiates C5. *)
Lemma delete_request_cascade_witness :
  let s' := Db.delete_request Scenario.store_after_jane 1 in
  (forall x, List.In x (Db.submissions s') -> Db.sub_request_id x <> 1)
  /\ Db.list_submissions s' 1 = []
  /\ (forall r, List.In r (Db.requests s') -> Db.req_id r <> 1)
  /\ (forall r, List.In r (Db.requests Scenario.store_after_jane) -> Db.req_id r = 1 ->
                Db.get_request_by_token s' (Db.req_token r) = None)
  /\ Db.settings s' = Db.settings Scenario.store_after_jane.
Proof.
  apply (delete_request_cascade Scenario.store_after_jane 1).
  apply wf_storeb_sound. vm_compute. reflexivity.
Defined.

(** C5 as stated fails: the key [points_1] written when "Event A" was
    created is still in the settings after the request is deleted. *)
Lemma delete_request_keeps_points_key :
  App.admin_create_single Db.empty_store "Event A" "" "abc123"
                          "2024-01-01T09:00:00" 10 true None
  = Ok (Db.mkRequest 1 "Event A" "" "open" "abc123" "2024-01-01T09:00:00" 0 0,
        Scenario.event_store)
  /\ Db.settings (Db.delete_request Scenario.event_store 1) !! App.points_key 1
     = Some "10"
  /\ Db.requests (Db.delete_request Scenario.event_store 1) = [].
Proof. vm_compute. repeat split. Qed.

(* ===================================================================== *)
(** * Strings and patterns *)
(* ===================================================================== *)

Section Strings.

Lemma str_forall_Forall (p : ascii -> bool) (s : string) :
  PyStr.str_forall p s = true <-> List.Forall (fun c => p c = true) (PyStr.chars s).
Proof.
  induction s as [|c s IH]; simpl.
  - split; [constructor | reflexivity].
  - rewrite Bool.andb_true_iff, IH. split.
    + intros [Hc Hs]. now constructor.
    + intros H. inversion H; subst. auto.
Qed.

Lemma len_str_filter (p : ascii -> bool) (s : string) :
  PyStr.len (PyStr.str_filter p s) = length (List.filter p (PyStr.chars s)).
Proof.
  unfold PyStr.len. induction s as [|c s IH]; simpl; [reflexivity|].
  destruct (p c); simpl; now rewrite IH.
Qed.

Lemma str_take_all (s : string) : PyStr.str_take (String.length s) s = s.
Proof. induction s as [|c s IH]; simpl; [reflexivity | now rewrite IH]. Qed.

(** A one-character needle is found exactly when the character occurs. *)
Lemma str_in_char (c : ascii) (s : string) :
  PyStr.str_in (String c EmptyString) s = true <-> List.In c (PyStr.chars s).
Proof.
  induction s as [|b s IH]; simpl.
  - split; [discriminate | contradiction].
  - rewrite Bool.orb_true_iff, IH.
    destruct (Ascii.eqb_spec c b) as [->|Hne].
    + split; auto.
    + split; (intros [H|H]; [| now right]).
      * discriminate.
      * congruence.
Qed.

(** What a bounded repetition followed by [k] accepts: some number of
    characters within the bounds, all in the class, with [k] accepting
    the rest. *)
Lemma rep_spec (cls : ascii -> bool) (k : string -> bool) (s : string) :
  forall lo hi : nat,
    Re.rep cls lo (Some hi) k s = true <->
    exists n : nat,
      (lo <= n <= hi)%nat /\ (n <= String.length s)%nat
      /\ PyStr.str_forall cls (PyStr.str_take n s) = true
      /\ k (PyStr.str_drop n s) = true.
Proof.
  induction s as [|c s IH]; intros lo hi.
  - simpl. rewrite Bool.andb_true_iff, Nat.eqb_eq. split.
    + intros [-> Hk]. exists O. repeat split; auto; lia.
    + intros (n & Hn & Hlen & _ & Hk).
      assert (n = O) as -> by lia. split; [lia | exact Hk].
  - cbn [Re.rep Re.dec_hi]. rewrite Bool.orb_true_iff, !Bool.andb_true_iff, IH, Nat.eqb_eq.
    split.
    + intros [[[Hc Hhi] (n & Hn & Hlen & Hall & Hk)] | [-> Hk]].
      * exists (S n). simpl. rewrite Hc, Hall.
        destruct hi as [|hi]; [discriminate|]. simpl in Hn.
        repeat split; auto; lia.
      * exists O. repeat split; auto; simpl; lia.
    + intros ([|n] & Hn & Hlen & Hall & Hk).
      * right. split; [lia | exact Hk].
      * left. simpl in Hall, Hk, Hlen. apply andb_prop in Hall as [Hc Hall].
        destruct hi as [|hi]; [lia|].
        split; [now rewrite Hc|].
        exists n. simpl. repeat split; auto; lia.
Qed.

(** Where [$] matches after [n] characters. *)
Lemma at_eos_drop (s : string) :
  forall n : nat,
    (n <= String.length s)%nat ->
    Re.at_eos (PyStr.str_drop n s) = true <->
    n = String.length s
    \/ (S n = String.length s /\ PyStr.ends_with_lf s = true).
Proof.
  induction s as [|c s IH]; intros n Hn.
  - simpl in Hn. assert (n = O) as -> by lia. simpl. intuition.
  - destruct n as [|n].
    + destruct s as [|b s]; simpl.
      * split; [intros H; right; now split | intros [H|[_ H]]; [discriminate | exact H]].
      * split; [discriminate | intros [H|[H _]]; discriminate].
    + simpl in Hn. cbn [PyStr.str_drop String.length].
      rewrite IH by lia.
      destruct s as [|b s].
      * simpl. split; (intros [H|[H _]]; [left; lia | discriminate]).
      * cbn [PyStr.ends_with_lf].
        split; (intros [H|[H1 H2]]; [left; lia | right; split; [lia | exact H2]]).
Qed.

End Strings.

(* ===================================================================== *)
(** * Phone validation and the form URL *)
(* ===================================================================== *)

Section Validation.
Import App.

Lemma phone_cls_true (c : ascii) :
  phone_cls c = true <->
  (PyStr.is_digit c = true \/ c = "+"%char \/ c = "-"%char \/ c = "("%char
   \/ c = ")"%char \/ PyStr.is_space c = true).
Proof.
  unfold phone_cls. rewrite !Bool.orb_true_iff, !Ascii.eqb_eq. tauto.
Qed.

(** The phone pattern on a string that does not end in a line feed. *)
Lemma phone_pattern_spec (phone : string) :
  PyStr.ends_with_lf phone = false ->
  Re.matches phone_pattern phone = true <->
  PyStr.str_forall phone_cls phone = true
  /\ (7 <= PyStr.len phone <= 20)%nat.
Proof.
  intros Hlf. unfold phone_pattern; cbn [Re.matches]. rewrite rep_spec.
  unfold PyStr.len. split.
  - intros (n & Hn & Hlen & Hall & Hk).
    rewrite Bool.andb_true_r in Hk. apply at_eos_drop in Hk; [|exact Hlen].
    destruct Hk as [->|[_ Hk]]; [|congruence].
    rewrite str_take_all in Hall. auto.
  - intros [Hall Hlen]. exists (String.length phone).
    rewrite str_take_all, Bool.andb_true_r.
    repeat split; auto; try lia.
    apply at_eos_drop; auto.
Qed.

Lemma str_forall_take (cls : ascii -> bool) (s : string) :
  forall n : nat,
    PyStr.str_forall cls s = true -> PyStr.str_forall cls (PyStr.str_take n s) = true.
Proof.
  induction s as [|c s IH]; intros [|n]; simpl; auto.
  intros H. apply andb_prop in H as [-> H]. simpl. auto.
Qed.

(** A string whose last character is a line feed, and whose other
    characters are in a class that has the line feed, is in the class. *)
Lemma str_forall_final_lf (cls : ascii -> bool) (s : string) :
  cls "010"%char = true ->
  forall n : nat,
    S n = String.length s -> PyStr.ends_with_lf s = true ->
    PyStr.str_forall cls (PyStr.str_take n s) = true ->
    PyStr.str_forall cls s = true.
Proof.
  intros Hlf. induction s as [|c s IH]; intros n Hlen Hend Hall; [discriminate|].
  destruct s as [|b s].
  - simpl in *. apply Ascii.eqb_eq in Hend. subst c. now rewrite Hlf.
  - destruct n as [|n]; [discriminate|].
    cbn [PyStr.str_take PyStr.str_forall] in Hall.
    apply andb_prop in Hall as [Hc Hall].
    cbn [PyStr.str_forall]. rewrite Hc. cbn [andb].
    apply (IH n); auto.
Qed.

(** The phone pattern on any string: the anchor [$] lets one more
    character through when it is a final line feed. *)
Lemma phone_pattern_full (phone : string) :
  Re.matches phone_pattern phone = true <->
  PyStr.str_forall phone_cls phone = true
  /\ ((7 <= PyStr.len phone <= 20)%nat
      \/ (PyStr.len phone = 21%nat /\ PyStr.ends_with_lf phone = true)).
Proof.
  unfold phone_pattern; cbn [Re.matches]. rewrite rep_spec.
  unfold PyStr.len. split.
  - intros (n & Hn & Hlen & Hall & Hk).
    rewrite Bool.andb_true_r in Hk. apply at_eos_drop in Hk; [|exact Hlen].
    destruct Hk as [->|[Hlast Hend]].
    + rewrite str_take_all in Hall. split; [assumption | left; lia].
    + split; [apply (str_forall_final_lf phone_cls phone eq_refl n); auto|].
      destruct (Nat.eq_dec n 20%nat) as [->|Hn20]; [right; split; [lia | assumption]|].
      left. lia.
  - intros [Hall [Hlen|[Hlen Hend]]].
    + exists (String.length phone).
      rewrite str_take_all, Bool.andb_true_r.
      repeat split; auto; try lia. apply at_eos_drop; auto.
    + exists 20%nat. rewrite Bool.andb_true_r.
      repeat split; try lia.
      * now apply str_forall_take.
      * apply at_eos_drop; [lia|]. right. split; [lia | assumption].
Qed.

End Validation.

(** C7, as the code has it: a phone string that does not end in a line
    feed is accepted exactly when every character is a digit, [+], [-],
    a parenthesis or a whitespace character, its length is between 7 and
    20, and between 7 and 20 of its characters are digits. *)
Theorem is_valid_phone_iff (phone : string) :
  PyStr.ends_with_lf phone = false ->
  App._is_valid_phone phone = true <->
  List.Forall (fun c => PyStr.is_digit c = true \/ c = "+"%char \/ c = "-"%char
                        \/ c = "("%char \/ c = ")"%char \/ PyStr.is_space c = true)
              (PyStr.chars phone)
  /\ (7 <= PyStr.len phone <= 20)%nat
  /\ (7 <= length (List.filter PyStr.is_digit (PyStr.chars phone)) <= 20)%nat.
Proof.
  intros Hlf. unfold App._is_valid_phone, App.digits_only.
  rewrite !Bool.andb_true_iff, (phone_pattern_spec phone Hlf), str_forall_Forall.
  rewrite len_str_filter, !Nat.leb_le.
  assert (Hcls : List.Forall (fun c => App.phone_cls c = true) (PyStr.chars phone) <->
                 List.Forall (fun c => PyStr.is_digit c = true \/ c = "+"%char
                                       \/ c = "-"%char \/ c = "("%char \/ c = ")"%char
                                       \/ PyStr.is_space c = true) (PyStr.chars phone)).
  { rewrite !List.Forall_forall.
    split; intros H c Hc; apply phone_cls_true; auto. }
  rewrite Hcls. tauto.
Qed.

(** Jane's phone number instantiates C7. *)
Lemma is_valid_phone_iff_witness :
  App._is_valid_phone "+1 555-000-1111" = true <->
  List.Forall (fun c => PyStr.is_digit c = true \/ c = "+"%char \/ c = "-"%char
                        \/ c = "("%char \/ c = ")"%char \/ PyStr.is_space c = true)
              (PyStr.chars "+1 555-000-1111")
  /\ (7 <= PyStr.len "+1 555-000-1111" <= 20)%nat
  /\ (7 <= length (List.filter PyStr.is_digit (PyStr.chars "+1 555-000-1111")) <= 20)%nat.
Proof.
  apply (is_valid_phone_iff "+1 555-000-1111"). reflexivity.
Defined.

(** C7 as stated fails: a number with a tab between its groups is
    accepted, and a tab is none of digit, [+], [-], parenthesis or
    space. *)
Lemma tab_phone_accepted :
  App._is_valid_phone Scenario.tab_phone = true
  /\ App.phone_rule_as_stated Scenario.tab_phone = false
  /\ PyStr.strip Scenario.tab_phone = Scenario.tab_phone.
Proof. vm_compute. repeat split. Qed.

(** The anchor [$] also matches before a final line feed: twenty digits
    and a line feed, 21 characters, are accepted. *)
Remark phone_with_final_line_feed :
  App._is_valid_phone ("12345678901234567890" +:+ String "010" "") = true
  /\ PyStr.len ("12345678901234567890" +:+ String "010" "") = 21%nat.
Proof. vm_compute. split; reflexivity. Qed.

(** C8: the form URL is the base URL, a separator, [view=form&token=]
    and the token, the separator being [&] when the base URL has a [?]
    in it and [?] when it has none. *)
Theorem build_form_url_format (base_url token : string) :
  exists sep : string,
    App._build_form_url base_url token
    = base_url +:+ sep +:+ "view=form&token=" +:+ token
    /\ ((List.In "?"%char (PyStr.chars base_url) /\ sep = "&")
        \/ (~ List.In "?"%char (PyStr.chars base_url) /\ sep = "?")).
Proof.
  unfold App._build_form_url.
  destruct (PyStr.str_in "?" base_url) eqn:Hq.
  - exists "&". split; [reflexivity|]. left. split; [|reflexivity].
    now apply str_in_char.
  - exists "?". split; [reflexivity|]. right. split; [|reflexivity].
    intros Hin. apply str_in_char in Hin. congruence.
Qed.

(* ===================================================================== *)
(** * Rows of the rewards table *)
(* ===================================================================== *)

Section Rows.
Import Db Review.

(** Two rows built from inserts are equal when they agree on every
    key. *)
Ltac row_ext :=
  apply map_eq; intros k; unfold mk_row;
  repeat (rewrite lookup_insert; case_decide; subst; [try done|]);
  try done.

Lemma new_row_mk_row key : new_row key = mk_row key.1 key.2 0 0 0 0.
Proof. reflexivity. Qed.

Lemma row_name n p e a b c : mk_row n p e a b c !! "Name" = Some (VStr n).
Proof. reflexivity. Qed.

Lemma row_phone n p e a b c : mk_row n p e a b c !! "Phone" = Some (VStr p).
Proof. reflexivity. Qed.

Lemma row_earned n p e a b c : mk_row n p e a b c !! "Earned Points" = Some (VInt e).
Proof. reflexivity. Qed.

Lemma row_adjustments n p e a b c : mk_row n p e a b c !! "Adjustments" = Some (VInt a).
Proof. reflexivity. Qed.

Lemma row_balance n p e a b c : mk_row n p e a b c !! "Balance" = Some (VInt b).
Proof. reflexivity. Qed.

Lemma row_submissions n p e a b c : mk_row n p e a b c !! "Submissions" = Some (VInt c).
Proof. reflexivity. Qed.

(** No row has a "Total Points". *)
Lemma row_total_points n p e a b c : mk_row n p e a b c !! "Total Points" = None.
Proof. reflexivity. Qed.

Lemma row_dom n p e a b c : dom (mk_row n p e a b c) = row_keys.
Proof. unfold mk_row, row_keys. rewrite !dom_insert_L, dom_empty_L. reflexivity. Qed.

Lemma set_earned n p e a b c e' :
  <["Earned Points" := VInt e']> (mk_row n p e a b c) = mk_row n p e' a b c.
Proof. row_ext. Qed.

Lemma set_submissions n p e a b c c' :
  <["Submissions" := VInt c']> (mk_row n p e a b c) = mk_row n p e a b c'.
Proof. row_ext. Qed.

Lemma set_adjustments n p e a b c a' :
  <["Adjustments" := VInt a']> (mk_row n p e a b c) = mk_row n p e a' b c.
Proof. row_ext. Qed.

Lemma set_balance n p e a b c b' :
  <["Balance" := VInt b']> (mk_row n p e a b c) = mk_row n p e a b' c.
Proof. row_ext. Qed.

Lemma iadd_earned n p e a b c d :
  iadd "Earned Points" d (mk_row n p e a b c) = Ok (mk_row n p (e + d) a b c).
Proof.
  unfold iadd, getitem. rewrite row_earned. simpl. now rewrite set_earned.
Qed.

Lemma iadd_submissions n p e a b c d :
  iadd "Submissions" d (mk_row n p e a b c) = Ok (mk_row n p e a b (c + d)).
Proof.
  unfold iadd, getitem. rewrite row_submissions. simpl. now rewrite set_submissions.
Qed.

Lemma pull_adjustment_row s n p e a b c :
  pull_adjustment s (mk_row n p e a b c)
  = Ok (mk_row n p e (get_rewards_adjustment_sum s n p)
               (compute_balance e (get_rewards_adjustment_sum s n p)) c).
Proof.
  unfold pull_adjustment, getitem. rewrite row_name, row_phone. simpl.
  rewrite set_adjustments, row_earned. simpl.
  now rewrite set_balance.
Qed.

Lemma sort_key_row n p e a b c :
  sort_key (mk_row n p e a b c) = Raise (KeyError "Total Points").
Proof. unfold sort_key, getitem. now rewrite row_total_points. Qed.

End Rows.

(* ===================================================================== *)
(** * The two loops of the rewards summary *)
(* ===================================================================== *)

Section Aggregation.
Import Db Review.

Lemma dict_has_app key (agg : list ((string * string) * gmap string pyval)) row :
  dict_has key (agg ++ [(key, row)]) = true.
Proof.
  unfold dict_has. rewrite List.existsb_app; simpl.
  rewrite bool_decide_eq_true_2 by reflexivity.
  now rewrite Bool.orb_true_r.
Qed.

(** Updating the row of a key that is present, with an update that maps
    counted rows to counted rows, succeeds and keeps the keys. *)
Lemma dict_update_counted (agg : list ((string * string) * gmap string pyval))
      key (f : gmap string pyval -> result (gmap string pyval)) :
  List.Forall counted agg ->
  dict_has key agg = true ->
  (forall e c, 0 <= e ->
     exists e' c', f (mk_row key.1 key.2 e 0 0 c) = Ok (mk_row key.1 key.2 e' 0 0 c')
                   /\ 0 <= e') ->
  exists agg', dict_update agg key f = Ok agg'
               /\ List.Forall counted agg'
               /\ map fst agg' = map fst agg.
Proof.
  intros Hall Hhas Hf. induction Hall as [|[k row] agg Hrow Hall IH].
  - discriminate.
  - simpl in *. case_bool_decide as Hk.
    + subst k. destruct Hrow as (e & c & Hrow & He). simpl in Hrow. subst row.
      destruct (Hf e c He) as (e' & c' & -> & He'). simpl.
      eexists. split; [reflexivity|]. split; [|reflexivity].
      constructor; [|assumption]. exists e', c'. auto.
    + simpl in Hhas. destruct (IH Hhas) as (agg' & -> & Hall' & Hkeys). simpl.
      eexists. split; [reflexivity|]. split.
      * constructor; [|assumption]. exact Hrow.
      * simpl. now rewrite Hkeys.
Qed.

Lemma aggregate_step_counted (agg : list ((string * string) * gmap string pyval)) r :
  List.Forall counted agg ->
  exists agg', aggregate_step agg r = Ok agg'
               /\ List.Forall counted agg'
               /\ agg' <> [].
Proof.
  intros Hall. destruct r as [[name_val phone_val] pts]. unfold aggregate_step.
  set (key := (name_val, phone_val)).
  set (agg1 := if dict_has key agg then agg else (agg ++ [(key, new_row key)])%list).
  assert (Hall1 : List.Forall counted agg1).
  { subst agg1. destruct (dict_has key agg); [assumption|].
    apply List.Forall_app. split; [assumption|].
    constructor; [|constructor]. exists 0, 0. split; [reflexivity | lia]. }
  assert (Hhas1 : dict_has key agg1 = true).
  { subst agg1. destruct (dict_has key agg) eqn:Hhas; [assumption|].
    apply dict_has_app. }
  destruct (dict_update_counted agg1 key (iadd "Earned Points" (Z.max 0 pts)) Hall1 Hhas1)
    as (agg2 & -> & Hall2 & Hkeys2).
  { intros e c He. exists (e + Z.max 0 pts), c. rewrite iadd_earned. split; [reflexivity | lia]. }
  simpl.
  assert (Hhas2 : dict_has key agg2 = true).
  { unfold dict_has in *. rewrite List.existsb_exists in *.
    destruct Hhas1 as (kv & Hin & Hkv).
    assert (Hk : List.In kv.1 (map fst agg2))
      by (rewrite Hkeys2; now apply List.in_map).
    apply List.in_map_iff in Hk as (kv' & Hfst & Hin').
    exists kv'. split; [assumption|]. now rewrite Hfst. }
  destruct (dict_update_counted agg2 key (iadd "Submissions" 1) Hall2 Hhas2)
    as (agg3 & -> & Hall3 & Hkeys3).
  { intros e c He. exists e, (c + 1). rewrite iadd_submissions. auto. }
  eexists. split; [reflexivity|]. split; [assumption|].
  intros ->. destruct agg2; [discriminate | discriminate].
Qed.

Lemma aggregate_from_counted rows :
  forall agg : list ((string * string) * gmap string pyval),
    List.Forall counted agg ->
    exists agg', aggregate_from agg rows = Ok agg'
                 /\ List.Forall counted agg'
                 /\ (rows <> [] -> agg' <> []).
Proof.
  induction rows as [|r rows IH]; intros agg Hall; simpl.
  - exists agg. auto.
  - destruct (aggregate_step_counted agg r Hall) as (agg1 & -> & Hall1 & Hne1). simpl.
    destruct (IH agg1 Hall1) as (agg' & Hagg' & Hall' & Hne').
    exists agg'. split; [assumption|]. split; [assumption|].
    intros _. destruct rows as [|r' rows].
    + simpl in Hagg'. injection Hagg' as <-. assumption.
    + apply Hne'. discriminate.
Qed.

Lemma pull_adjustments_balanced s (agg : list ((string * string) * gmap string pyval)) :
  List.Forall counted agg ->
  exists agg', pull_adjustments s agg = Ok agg'
               /\ List.Forall (balanced s) (map snd agg')
               /\ length agg' = length agg.
Proof.
  unfold pull_adjustments. induction 1 as [|[k row] agg Hrow Hall IH]; simpl.
  - exists []. repeat split. constructor.
  - destruct Hrow as (e & c & Hrow & He). simpl in Hrow. subst row.
    rewrite pull_adjustment_row. simpl.
    destruct IH as (agg' & -> & Hall' & Hlen). simpl.
    eexists. split; [reflexivity|]. split; [|simpl; now rewrite Hlen].
    simpl. constructor; [|assumption].
    exists k.1, k.2, e, c. simpl. auto.
Qed.

(** Both loops run to their end on any list of collected rows. *)
Lemma rewards_rows_balanced s rows :
  exists table, rewards_rows s rows = Ok table
                /\ List.Forall (balanced s) table
                /\ (rows <> [] -> table <> []).
Proof.
  unfold rewards_rows, aggregate.
  destruct (aggregate_from_counted rows []) as (agg & -> & Hall & Hne);
    [constructor|]. simpl.
  destruct (pull_adjustments_balanced s agg Hall) as (agg' & -> & Hall' & Hlen). simpl.
  eexists. split; [reflexivity|]. split; [assumption|].
  intros Hrows Hnil. apply Hne in Hrows.
  apply List.map_eq_nil in Hnil. subst agg'. destruct agg; [congruence | discriminate].
Qed.

(** The sort fails on the key of its first row. *)
Lemma sort_rows_balanced s row table :
  balanced s row -> sort_rows (row :: table) = Raise (KeyError "Total Points").
Proof.
  intros (n & p & e & c & Hrow). simpl in Hrow. destruct Hrow as [-> _].
  unfold sort_rows. simpl. now rewrite sort_key_row.
Qed.

(** The sum of the ledger after one more entry. *)
Lemma adjustment_sum_app s e name phone :
  get_rewards_adjustment_sum
    (with_reward_entries s (reward_entries s ++ [e])) name phone
  = get_rewards_adjustment_sum s name phone
    + (if String.eqb (rw_name e) name && String.eqb (rw_phone e) phone
       then rw_points e else 0).
Proof.
  unfold get_rewards_adjustment_sum; simpl.
  induction (reward_entries s) as [|x l IH]; simpl.
  - destruct (String.eqb (rw_name e) name && String.eqb (rw_phone e) phone); simpl; lia.
  - destruct (String.eqb (rw_name x) name && String.eqb (rw_phone x) phone); simpl;
      rewrite IH; lia.
Qed.

End Aggregation.

(* ===================================================================== *)
(** * Balance, sorting and "Pay (Zero Out)" *)
(* ===================================================================== *)

Section PayBlock.
Import Db Review.

Lemma compute_balance_floor earned adj :
  compute_balance earned adj = Z.max 0 (earned + adj)
  /\ 0 <= compute_balance earned adj
  /\ (adj < - earned -> compute_balance earned adj = 0).
Proof. unfold compute_balance. lia. Qed.

(** The page never gets to its reward actions: it returns early or the
    sort raises, and the store is the one it started from. *)
Lemma review_page_store s rows f : (_review_page s rows f).1 = s.
Proof.
  destruct rows as [|r rows]; [reflexivity|]. unfold _review_page.
  destruct (rewards_rows_balanced s (r :: rows)) as (table & -> & Hall & Hne). simpl.
  destruct table as [|row table]; [exfalso; now apply Hne|].
  inversion Hall; subst.
  now rewrite (sort_rows_balanced s row table).
Qed.

Lemma review_page_raises s r rows f :
  _review_page s (r :: rows) f = (s, Uncaught (KeyError "Total Points")).
Proof.
  unfold _review_page.
  destruct (rewards_rows_balanced s (r :: rows)) as (table & -> & Hall & Hne). simpl.
  destruct table as [|row table]; [exfalso; now apply Hne|].
  inversion Hall; subst. now rewrite (sort_rows_balanced s row table).
Qed.

Lemma add_reward_entry_ok s name phone points why now :
  name <> "" -> phone <> "" ->
  add_reward_entry s name phone points why now
  = Ok (with_reward_entries s
          (reward_entries s ++ [mkRewardEntry name phone points why now])).
Proof.
  intros Hn Hp. unfold add_reward_entry.
  destruct name; [contradiction|]. destruct phone; [contradiction|]. reflexivity.
Qed.

(** Taken by itself, the block behind the button is idempotent: run on
    the same table twice, it brings the balance to 0 the first time,
    with one entry "paid" when the balance was not 0 already, and
    changes nothing the second time. *)
Lemma pay_block_idempotent s table name phone now1 now2 earned :
  name <> "" -> phone <> "" ->
  find_earned table name phone = Ok earned ->
  let balance := compute_balance earned (get_rewards_adjustment_sum s name phone) in
  exists s1,
    pay_block s table name phone now1 = Ok s1
    /\ reward_entries s1
       = (if Z.eqb balance 0 then reward_entries s
          else reward_entries s ++ [mkRewardEntry name phone (- balance) "paid" now1])%list
    /\ compute_balance earned (get_rewards_adjustment_sum s1 name phone) = 0
    /\ pay_block s1 table name phone now2 = Ok s1.
Proof.
  intros Hn Hp Hearned balance. unfold pay_block. rewrite Hearned. simpl.
  fold balance. destruct (Z.eqb_spec balance 0) as [Hz|Hnz].
  - exists s. repeat split; auto.
    fold balance. now rewrite Hz.
  - rewrite add_reward_entry_ok by assumption.
    eexists. split; [reflexivity|]. split; [reflexivity|].
    rewrite adjustment_sum_app. simpl. rewrite !String.eqb_refl. simpl.
    assert (Hzero : compute_balance earned
                      (get_rewards_adjustment_sum s name phone + - balance) = 0)
      by (subst balance; unfold compute_balance in *; lia).
    rewrite Hzero. split; reflexivity.
Qed.

End PayBlock.

(** C10: when at least one row was collected, the rewards table is not
    empty, each of its rows has exactly the keys "Name", "Phone",
    "Earned Points", "Adjustments", "Balance" and "Submissions", none
    has "Total Points", and both the sort and the page end with the
    [KeyError] of that key. *)
Theorem sort_raises_key_error
        (s : Db.Store) (r : string * string * Z) (rows : list (string * string * Z))
        (f : Review.RewardForm) :
  exists table,
    Review.rewards_rows s (r :: rows) = Ok table
    /\ table <> []
    /\ List.Forall (fun row : gmap string Review.pyval =>
                      dom row = Review.row_keys /\ row !! "Total Points" = None) table
    /\ Review.sort_rows table = Raise (KeyError "Total Points")
    /\ Review._review_page s (r :: rows) f
       = (s, Review.Uncaught (KeyError "Total Points")).
Proof.
  destruct (rewards_rows_balanced s (r :: rows)) as (table & Htable & Hall & Hne).
  exists table. split; [assumption|]. split; [now apply Hne|]. split; [|split].
  - eapply List.Forall_impl; [|exact Hall].
    intros row (name & phone & earned & count & Hrow). simpl in Hrow.
    destruct Hrow as [-> _]. split; [apply row_dom | apply row_total_points].
  - destruct table as [|row table]; [exfalso; now apply Hne|].
    inversion Hall; subst. now apply (sort_rows_balanced s).
  - apply review_page_raises.
Qed.

(** Inside the page the reward actions come after the sort: with Jane's
    row collected the page ends in the [KeyError] before them, and with
    no row collected it returns before them; the store is unchanged
    either way. *)
Remark reward_actions_come_after_the_sort :
  Review.compute_balance 10
    (Db.get_rewards_adjustment_sum Scenario.store_after_jane
                                   "Jane Doe" "+1 555-000-1111") = 10
  /\ Review._review_page Scenario.store_after_jane Scenario.jane_rows Scenario.pay_jane
     = (Scenario.store_after_jane, Review.Uncaught (KeyError "Total Points"))
  /\ Db.reward_entries
       (Review._review_page Scenario.store_after_jane Scenario.jane_rows
                            Scenario.pay_jane).1 = []
  /\ (Review._review_page Scenario.store_after_jane [] Scenario.pay_jane).1
     = Scenario.store_after_jane.
Proof.
  split; [reflexivity|]. split; [|split].
  - apply review_page_raises.
  - now rewrite review_page_store.
  - reflexivity.
Qed.

(* ===================================================================== *)
(** * Settings *)
(* ===================================================================== *)

(** X1: a setting that was written is read back, whatever the default;
    the other keys read as before; a second write to the key replaces
    the first; and a key never written reads as the default. *)
Theorem setting_round_trip (s : Db.Store) (key value key' default : string) :
  Db.get_setting (Db.set_setting s key value) key default = value
  /\ (key' <> key ->
      Db.get_setting (Db.set_setting s key value) key' default
      = Db.get_setting s key' default)
  /\ (forall value',
         Db.set_setting (Db.set_setting s key value) key value'
         = Db.set_setting s key value')
  /\ (Db.settings s !! key = None -> Db.get_setting s key default = default)
  /\ Db.requests (Db.set_setting s key value) = Db.requests s
  /\ Db.submissions (Db.set_setting s key value) = Db.submissions s.
Proof.
  unfold Db.get_setting, Db.set_setting, Db.with_settings; simpl.
  rewrite lookup_insert_eq. repeat split.
  - intros Hne. now rewrite lookup_insert_ne by congruence.
  - intros value'. now rewrite insert_insert_eq.
  - now intros ->.
Qed.

(* ===================================================================== *)
(** * Creating requests *)
(* ===================================================================== *)

Section Create.
Import Db Wf App.

Lemma select_one_app_none {A : Type} (cond : A -> bool) (l : list A) (x : A) :
  select_one cond l = None ->
  select_one cond (l ++ [x]) = if cond x then Some x else None.
Proof.
  unfold select_one. induction l as [|y l IH]; simpl; [reflexivity|].
  destruct (cond y); [discriminate | exact IH].
Qed.

Lemma select_one_app_some {A : Type} (cond : A -> bool) (l : list A) (x r : A) :
  select_one cond l = Some r -> select_one cond (l ++ [x]) = Some r.
Proof.
  unfold select_one. induction l as [|y l IH]; simpl; [discriminate|].
  destruct (cond y); [auto | exact IH].
Qed.

Lemma select_one_app_false {A : Type} (cond : A -> bool) (l : list A) (x : A) :
  cond x = false -> select_one cond (l ++ [x]) = select_one cond l.
Proof.
  intros Hx. unfold select_one. induction l as [|y l IH]; simpl.
  - now rewrite Hx.
  - destruct (cond y); [reflexivity | exact IH].
Qed.

Lemma create_request_ok s title description token now :
  get_request_by_token s token = None ->
  create_request s title description token now
  = Ok (mkRequest (seq_requests s + 1) title description "open" token now 0 0,
        mkStore (settings s)
                (requests s ++ [mkRequest (seq_requests s + 1) title description
                                          "open" token now 0 0])
                (submissions s) (reward_entries s)
                (seq_requests s + 1) (seq_submissions s)).
Proof. intros H. unfold create_request. now rewrite H. Qed.

End Create.

(** X2: [create_request] succeeds exactly when no request has the token;
    it then returns an open request with used count 0 and the one-time
    flag off, whose id is larger than every id in the table, which the
    token resolves to, usable, while every other token resolves as
    before; with a token already in use it raises the integrity error. *)
Theorem create_request_token_unique
        (s : Db.Store) (title description token now : string) (Hwf : Wf.wf_store s) :
  (Db.get_request_by_token s token = None ->
   exists r s',
     Db.create_request s title description token now = Ok (r, s')
     /\ Db.req_title r = title /\ Db.req_description r = description
     /\ Db.req_status r = "open" /\ Db.req_token r = token
     /\ Db.req_created_at r = now
     /\ Db.req_one_time_use r = 0 /\ Db.req_used_count r = 0
     /\ (forall r0, List.In r0 (Db.requests s) -> Db.req_id r0 < Db.req_id r)
     /\ Db.get_request_by_token s' token = Some r
     /\ App.token_gate s' token = App.USABLE
     /\ (forall token' r0,
            Db.get_request_by_token s token' = Some r0 ->
            Db.get_request_by_token s' token' = Some r0)
     /\ (forall token',
            token' <> token ->
            Db.get_request_by_token s' token' = Db.get_request_by_token s token'))
  /\ (forall r0,
         Db.get_request_by_token s token = Some r0 ->
         Db.create_request s title description token now
         = Raise (IntegrityError "UNIQUE constraint failed: requests.token")).
Proof.
  split.
  - intros Hfresh. eexists _, _. rewrite (create_request_ok _ _ _ _ _ Hfresh).
    split; [reflexivity|]. simpl.
    assert (Hother : forall token',
               token' <> token ->
               Db.get_request_by_token
                 (Db.mkStore (Db.settings s)
                             (Db.requests s
                              ++ [Db.mkRequest (Db.seq_requests s + 1) title description
                                               "open" token now 0 0])
                             (Db.submissions s) (Db.reward_entries s)
                             (Db.seq_requests s + 1) (Db.seq_submissions s)) token'
               = Db.get_request_by_token s token').
    { intros token' Hne. unfold Db.get_request_by_token; simpl.
      apply select_one_app_false. simpl. now apply String.eqb_neq. }
    split; [reflexivity|]. split; [reflexivity|]. split; [reflexivity|].
    split; [reflexivity|]. split; [reflexivity|]. split; [reflexivity|].
    split; [reflexivity|].
    split; [|split; [|split; [|split; [|exact Hother]]]].
    + intros r0 Hr0. destruct Hwf as (_ & _ & Hall).
      rewrite List.Forall_forall in Hall. destruct (Hall r0 Hr0) as (_ & _ & Hle). lia.
    + unfold Db.get_request_by_token in *; simpl.
      rewrite (select_one_app_none _ _ _ Hfresh); simpl. now rewrite String.eqb_refl.
    + unfold App.token_gate, Db.is_token_used, Db.get_request_by_token in *; simpl.
      rewrite (select_one_app_none _ _ _ Hfresh); simpl. now rewrite String.eqb_refl.
    + intros token' r0 Hr0. unfold Db.get_request_by_token in *; simpl.
      now apply select_one_app_some.
  - intros r0 Hr0. unfold Db.create_request. now rewrite Hr0.
Qed.

(** A second request with a new token next to "Event A". *)
Lemma create_request_token_unique_witness :
  (Db.get_request_by_token Scenario.event_store "def456" = None ->
   exists r s',
     Db.create_request Scenario.event_store "Event B" "" "def456" "2024-01-03T09:00:00"
     = Ok (r, s')
     /\ Db.req_title r = "Event B" /\ Db.req_description r = ""
     /\ Db.req_status r = "open" /\ Db.req_token r = "def456"
     /\ Db.req_created_at r = "2024-01-03T09:00:00"
     /\ Db.req_one_time_use r = 0 /\ Db.req_used_count r = 0
     /\ (forall r0, List.In r0 (Db.requests Scenario.event_store) ->
                    Db.req_id r0 < Db.req_id r)
     /\ Db.get_request_by_token s' "def456" = Some r
     /\ App.token_gate s' "def456" = App.USABLE
     /\ (forall token' r0,
            Db.get_request_by_token Scenario.event_store token' = Some r0 ->
            Db.get_request_by_token s' token' = Some r0)
     /\ (forall token',
            token' <> "def456" ->
            Db.get_request_by_token s' token'
            = Db.get_request_by_token Scenario.event_store token'))
  /\ (forall r0,
         Db.get_request_by_token Scenario.event_store "def456" = Some r0 ->
         Db.create_request Scenario.event_store "Event B" "" "def456"
                           "2024-01-03T09:00:00"
         = Raise (IntegrityError "UNIQUE constraint failed: requests.token")).
Proof.
  apply (create_request_token_unique Scenario.event_store "Event B" "" "def456"
                                     "2024-01-03T09:00:00").
  apply wf_storeb_sound. vm_compute. reflexivity.
Defined.

(** X3: ids are not handed out twice: a request created after
    [delete_request] or after [wipe_database] gets an id that no request
    of the store before had, the deleted ones included. *)
Theorem request_ids_not_reused
        (s : Db.Store) (R : Z) (title description token now : string)
        (Hwf : Wf.wf_store s) :
  (forall r s',
      Db.create_request (Db.delete_request s R) title description token now = Ok (r, s') ->
      Db.req_id r = Db.seq_requests s + 1
      /\ forall r0, List.In r0 (Db.requests s) -> Db.req_id r0 < Db.req_id r)
  /\ (forall r s',
         Db.create_request (Db.wipe_database s) title description token now = Ok (r, s') ->
         Db.req_id r = Db.seq_requests s + 1
         /\ forall r0, List.In r0 (Db.requests s) -> Db.req_id r0 < Db.req_id r).
Proof.
  assert (Hids : forall r0, List.In r0 (Db.requests s) ->
                            Db.req_id r0 < Db.seq_requests s + 1).
  { intros r0 Hr0. destruct Hwf as (_ & _ & Hall).
    rewrite List.Forall_forall in Hall. destruct (Hall r0 Hr0) as (_ & _ & Hle). lia. }
  split; intros r s' Hc; unfold Db.create_request in Hc;
    destruct (Db.get_request_by_token _ token); try discriminate;
    injection Hc as <- <-; simpl; auto.
Qed.

(** Deleting "Event A" and creating "Event B" afterwards. *)
Lemma request_ids_not_reused_witness :
  (forall r s',
      Db.create_request (Db.delete_request Scenario.store_after_jane 1)
                        "Event B" "" "def456" "2024-01-03T09:00:00" = Ok (r, s') ->
      Db.req_id r = Db.seq_requests Scenario.store_after_jane + 1
      /\ forall r0, List.In r0 (Db.requests Scenario.store_after_jane) ->
                    Db.req_id r0 < Db.req_id r)
  /\ (forall r s',
         Db.create_request (Db.wipe_database Scenario.store_after_jane)
                           "Event B" "" "def456" "2024-01-03T09:00:00" = Ok (r, s') ->
         Db.req_id r = Db.seq_requests Scenario.store_after_jane + 1
         /\ forall r0, List.In r0 (Db.requests Scenario.store_after_jane) ->
                       Db.req_id r0 < Db.req_id r).
Proof.
  apply (request_ids_not_reused Scenario.store_after_jane 1 "Event B" "" "def456"
                                "2024-01-03T09:00:00").
  apply wf_storeb_sound. vm_compute. reflexivity.
Defined.

(* ===================================================================== *)
(** * Closing, reopening and the one-time flag *)
(* ===================================================================== *)

Section Status.
Import Db Wf App.

Lemma update_where_id {A : Type} (cond : A -> bool) (f : A -> A) (rows : list A) :
  (forall r, List.In r rows -> cond r = true -> f r = r) ->
  update_where cond f rows = rows.
Proof.
  intros H. unfold update_where. induction rows as [|x rows IH]; simpl; [reflexivity|].
  rewrite IH by (intros r Hr; apply H; now right).
  destruct (cond x) eqn:Hc; [|reflexivity].
  now rewrite (H x (or_introl eq_refl) Hc).
Qed.

Lemma update_where_twice {A : Type} (cond : A -> bool) (f g : A -> A) (rows : list A) :
  (forall r, cond (f r) = cond r) ->
  update_where cond g (update_where cond f rows)
  = update_where cond (fun r => g (f r)) rows.
Proof.
  intros Hc. unfold update_where. rewrite List.map_map.
  apply List.map_ext. intros r. destruct (cond r) eqn:Hr.
  - now rewrite Hc, Hr.
  - now rewrite Hr.
Qed.

(** The row found under a token after an update by id that keeps
    tokens. *)
Lemma lookup_after_update_by_id s request_id (f : Request -> Request) token :
  (forall r, req_token (f r) = req_token r) ->
  get_request_by_token
    (with_requests s (update_where (fun r => Z.eqb (req_id r) request_id) f (requests s)))
    token
  = (fun r => if Z.eqb (req_id r) request_id then f r else r)
      <$> get_request_by_token s token.
Proof.
  intros Htok. unfold get_request_by_token; simpl.
  apply select_update_where. intros r. now rewrite Htok.
Qed.

Lemma wf_unique_id s r r' :
  wf_store s -> List.In r (requests s) -> List.In r' (requests s) ->
  req_id r = req_id r' -> r = r'.
Proof. intros (Hids & _ & _). now apply nodup_map_eq. Qed.

End Status.

(** X4: closing a request turns its token away as closed, with the store
    left alone by the form, and does not touch the gate of any other
    token; closing twice is closing once; and reopening a request that
    was open gives back the store from before. *)
Theorem close_and_reopen
        (s : Db.Store) (token : string) (r : Db.Request)
        (Hwf : Wf.wf_store s) (Hr : Db.get_request_by_token s token = Some r) :
  let s' := Db.update_request_status s (Db.req_id r) "closed" in
  App.token_gate s' token = App.CLOSED
  /\ (forall inp, App._public_form s' token inp = (s', App.Rejected App.CLOSED))
  /\ (forall token', token' <> token -> App.token_gate s' token' = App.token_gate s token')
  /\ Db.update_request_status s' (Db.req_id r) "closed" = s'
  /\ (Db.req_status r = "open" ->
      Db.update_request_status s' (Db.req_id r) "open" = s).
Proof.
  intros s'. subst s'.
  pose proof (get_request_by_token_in s token r Hr) as [Hin Htok].
  assert (Hlook : Db.get_request_by_token
                    (Db.update_request_status s (Db.req_id r) "closed") token
                  = Some (Db.set_status "closed" r)).
  { unfold Db.update_request_status.
    rewrite lookup_after_update_by_id by reflexivity.
    rewrite Hr; simpl. now rewrite Z.eqb_refl. }
  split; [|split; [|split; [|split]]].
  - unfold App.token_gate. now rewrite Hlook.
  - intros inp. unfold App._public_form. now rewrite Hlook.
  - intros token' Hne. unfold App.token_gate, Db.is_token_used.
    fold (Db.get_request_by_token (Db.update_request_status s (Db.req_id r) "closed") token').
    fold (Db.get_request_by_token s token').
    unfold Db.update_request_status.
    rewrite lookup_after_update_by_id by reflexivity.
    destruct (Db.get_request_by_token s token') as [r'|] eqn:Hr'; [|reflexivity].
    simpl. destruct (Z.eqb_spec (Db.req_id r') (Db.req_id r)) as [Heq|Hneq]; [|reflexivity].
    exfalso. apply get_request_by_token_in in Hr' as [Hin' Htok'].
    assert (r' = r) by (eapply wf_unique_id; eauto). congruence.
  - unfold Db.update_request_status, Db.with_requests; simpl. f_equal.
    rewrite update_where_twice by reflexivity. reflexivity.
  - intros Hopen. unfold Db.update_request_status, Db.with_requests; simpl.
    rewrite update_where_twice by reflexivity.
    rewrite update_where_id; [now destruct s|].
    intros r0 Hr0 Hid. apply Z.eqb_eq in Hid.
    assert (r0 = r) as -> by (eapply wf_unique_id; eauto).
    destruct r; simpl in *. now subst.
Qed.

(** Closing "Event A". *)
Lemma close_and_reopen_witness :
  let s' := Db.update_request_status Scenario.event_store
                                     (Db.req_id Scenario.event_request) "closed" in
  App.token_gate s' "abc123" = App.CLOSED
  /\ (forall inp, App._public_form s' "abc123" inp = (s', App.Rejected App.CLOSED))
  /\ (forall token', token' <> "abc123" ->
                     App.token_gate s' token' = App.token_gate Scenario.event_store token')
  /\ Db.update_request_status s' (Db.req_id Scenario.event_request) "closed" = s'
  /\ (Db.req_status Scenario.event_request = "open" ->
      Db.update_request_status s' (Db.req_id Scenario.event_request) "open"
      = Scenario.event_store).
Proof.
  apply (close_and_reopen Scenario.event_store "abc123" Scenario.event_request).
  - apply wf_storeb_sound. vm_compute. reflexivity.
  - reflexivity.
Defined.

(** X5: the one-time flag acts on the uses already counted: with the flag
    switched off the token is never reported as used, and with the flag
    switched on a request that has been used before is exhausted at
    once. *)
Theorem one_time_flag_is_retroactive
        (s : Db.Store) (token : string) (r : Db.Request)
        (Hr : Db.get_request_by_token s token = Some r) :
  Db.is_token_used (Db.set_one_time_use s (Db.req_id r) false) token = false
  /\ (0 < Db.req_used_count r ->
      Db.is_token_used (Db.set_one_time_use s (Db.req_id r) true) token = true
      /\ (Db.req_status r = "open" ->
          App.token_gate (Db.set_one_time_use s (Db.req_id r) true) token
          = App.EXHAUSTED))
  /\ (Db.req_used_count r = 0 ->
      Db.is_token_used (Db.set_one_time_use s (Db.req_id r) true) token = false).
Proof.
  assert (Hlook : forall b,
             Db.get_request_by_token (Db.set_one_time_use s (Db.req_id r) b) token
             = Some (Db.set_flag (if b then 1 else 0) r)).
  { intros b. unfold Db.set_one_time_use.
    rewrite lookup_after_update_by_id by reflexivity.
    rewrite Hr; simpl. now rewrite Z.eqb_refl. }
  split; [|split].
  - now rewrite is_token_used_lookup, Hlook.
  - intros Hused.
    assert (Hu : Db.is_token_used (Db.set_one_time_use s (Db.req_id r) true) token = true).
    { rewrite is_token_used_lookup, Hlook; simpl.
      rewrite Z.gtb_ltb. now apply Z.ltb_lt. }
    split; [exact Hu|]. intros Hopen.
    unfold App.token_gate. rewrite Hlook; simpl. now rewrite Hopen, Hu.
  - intros Hzero. rewrite is_token_used_lookup, Hlook; simpl. now rewrite Hzero.
Qed.

(** "Event A" after Jane's submission, with the flag switched. *)
Lemma one_time_flag_is_retroactive_witness :
  let r := Db.mkRequest 1 "Event A" "" "open" "abc123" "2024-01-01T09:00:00" 1 1 in
  Db.is_token_used (Db.set_one_time_use Scenario.store_after_jane (Db.req_id r) false)
                   "abc123" = false
  /\ (0 < Db.req_used_count r ->
      Db.is_token_used (Db.set_one_time_use Scenario.store_after_jane (Db.req_id r) true)
                       "abc123" = true
      /\ (Db.req_status r = "open" ->
          App.token_gate (Db.set_one_time_use Scenario.store_after_jane (Db.req_id r) true)
                         "abc123" = App.EXHAUSTED))
  /\ (Db.req_used_count r = 0 ->
      Db.is_token_used (Db.set_one_time_use Scenario.store_after_jane (Db.req_id r) true)
                       "abc123" = false).
Proof.
  apply (one_time_flag_is_retroactive Scenario.store_after_jane "abc123").
  reflexivity.
Defined.

(** X6: [mark_token_used] adds one to the used count of the request of
    the token and changes nothing else about it; requests found under
    other tokens, the submissions and the settings stay as they are; and
    on a token of no request the store is unchanged. *)
Theorem mark_token_used_counts_one (s : Db.Store) (token : string) :
  (forall r, Db.get_request_by_token s token = Some r ->
             Db.get_request_by_token (Db.mark_token_used s token) token
             = Some (Db.incr_used r)
             /\ Db.req_used_count (Db.incr_used r) = Db.req_used_count r + 1
             /\ Db.req_status (Db.incr_used r) = Db.req_status r
             /\ Db.req_one_time_use (Db.incr_used r) = Db.req_one_time_use r)
  /\ (forall token', token' <> token ->
                     Db.get_request_by_token (Db.mark_token_used s token) token'
                     = Db.get_request_by_token s token')
  /\ Db.submissions (Db.mark_token_used s token) = Db.submissions s
  /\ Db.settings (Db.mark_token_used s token) = Db.settings s
  /\ (Db.get_request_by_token s token = None -> Db.mark_token_used s token = s).
Proof.
  repeat split.
  - rewrite lookup_after_mark, H. simpl.
    apply get_request_by_token_in in H as [_ ->]. now rewrite String.eqb_refl.
  - intros token' Hne. rewrite lookup_after_mark.
    destruct (Db.get_request_by_token s token') as [r'|] eqn:Hr'; [|reflexivity].
    simpl. apply get_request_by_token_in in Hr' as [_ Htok].
    destruct (String.eqb_spec (Db.req_token r') token); [congruence | reflexivity].
  - intros Hnone. unfold Db.mark_token_used, Db.with_requests.
    rewrite update_where_id; [now destruct s|].
    intros r Hr Htok. apply String.eqb_eq in Htok.
    rewrite get_request_by_token_none in Hnone. now apply Hnone in Hr.
Qed.

(* ===================================================================== *)
(** * Listings, deletion and wiping *)
(* ===================================================================== *)

Section Listings.
Import Db Tables.
Context {A : Type} (key : A -> string).

Lemma ltb_asym (a b : string) : String.ltb a b = true -> String.ltb b a = false.
Proof.
  unfold String.ltb. rewrite (String.compare_antisym a b).
  destruct (String.compare b a); simpl; congruence.
Qed.

Lemma insert_desc_perm (x : A) (l : list A) : insert_desc key x l ≡ₚ x :: l.
Proof.
  induction l as [|y l IH]; simpl; [reflexivity|].
  destruct (String.ltb (key y) (key x)); [reflexivity|].
  rewrite IH. apply Permutation_swap.
Qed.

Lemma order_by_desc_perm (l : list A) : order_by_desc key l ≡ₚ l.
Proof.
  unfold order_by_desc. induction l as [|x l IH]; simpl; [reflexivity|].
  rewrite insert_desc_perm. now rewrite IH.
Qed.

Lemma insert_desc_newest_first (x : A) (l : list A) :
  newest_first key l -> newest_first key (insert_desc key x l).
Proof.
  induction l as [|y l IH]; simpl; [auto|].
  intros [Hhd Htl].
  destruct (String.ltb (key y) (key x)) eqn:Hlt.
  - simpl. split; [now apply ltb_asym|]. split; assumption.
  - cbn [newest_first]. split; [|now apply IH].
    destruct l as [|z l]; simpl.
    + exact Hlt.
    + destruct (String.ltb (key z) (key x)); [exact Hlt | exact Hhd].
Qed.

Lemma order_by_desc_newest_first (l : list A) : newest_first key (order_by_desc key l).
Proof.
  unfold order_by_desc. induction l as [|x l IH]; simpl; [exact I|].
  now apply insert_desc_newest_first.
Qed.

End Listings.

(** X7: [list_requests] returns the requests of the store, each once,
    newest first; with a status it returns those of that status only,
    and the empty status selects all, like no status. *)
Theorem list_requests_sorted_selection (s : Db.Store) (status : string) :
  Db.list_requests s None ≡ₚ Db.requests s
  /\ Tables.newest_first Db.req_created_at (Db.list_requests s None)
  /\ Db.list_requests s (Some "") = Db.list_requests s None
  /\ (status <> "" ->
      Db.list_requests s (Some status)
      ≡ₚ List.filter (fun r => String.eqb (Db.req_status r) status) (Db.requests s)
      /\ Tables.newest_first Db.req_created_at (Db.list_requests s (Some status))
      /\ forall r, List.In r (Db.list_requests s (Some status)) <->
                   List.In r (Db.requests s) /\ Db.req_status r = status).
Proof.
  split; [apply order_by_desc_perm|].
  split; [apply order_by_desc_newest_first|].
  split; [reflexivity|].
  intros Hne. unfold Db.list_requests.
  destruct status as [|c status]; [contradiction|]. simpl.
  split; [apply order_by_desc_perm|].
  split; [apply order_by_desc_newest_first|].
  intros r. rewrite in_order_by_desc, List.filter_In.
  now rewrite String.eqb_eq.
Qed.

(** The open requests of the scenario. *)
Lemma list_requests_sorted_selection_witness :
  Db.list_requests Scenario.event_store None ≡ₚ Db.requests Scenario.event_store
  /\ Tables.newest_first Db.req_created_at (Db.list_requests Scenario.event_store None)
  /\ Db.list_requests Scenario.event_store (Some "")
     = Db.list_requests Scenario.event_store None
  /\ ("open" <> "" ->
      Db.list_requests Scenario.event_store (Some "open")
      ≡ₚ List.filter (fun r => String.eqb (Db.req_status r) "open")
                     (Db.requests Scenario.event_store)
      /\ Tables.newest_first Db.req_created_at
                             (Db.list_requests Scenario.event_store (Some "open"))
      /\ forall r, List.In r (Db.list_requests Scenario.event_store (Some "open")) <->
                   List.In r (Db.requests Scenario.event_store)
                   /\ Db.req_status r = "open").
Proof.
  apply (list_requests_sorted_selection Scenario.event_store "open").
Defined.

(** X8: [list_submissions] returns the submissions of the request, each
    once and no other, newest first. *)
Theorem list_submissions_sorted_selection (s : Db.Store) (request_id : Z) :
  Db.list_submissions s request_id
  ≡ₚ List.filter (fun x => Z.eqb (Db.sub_request_id x) request_id) (Db.submissions s)
  /\ Tables.newest_first Db.sub_created_at (Db.list_submissions s request_id)
  /\ (forall x, List.In x (Db.list_submissions s request_id) <->
                List.In x (Db.submissions s) /\ Db.sub_request_id x = request_id)
  /\ length (Db.list_submissions s request_id)
     = length (List.filter (fun x => Z.eqb (Db.sub_request_id x) request_id)
                           (Db.submissions s)).
Proof.
  unfold Db.list_submissions.
  split; [apply order_by_desc_perm|].
  split; [apply order_by_desc_newest_first|].
  split; [apply list_submissions_in|].
  apply Permutation_length, order_by_desc_perm.
Qed.

Section DeleteFrame.
Import Db.

Lemma filter_delete_where_other (R R' : Z) (l : list Submission) :
  R' <> R ->
  List.filter (fun x => Z.eqb (sub_request_id x) R')
              (delete_where (fun x => Z.eqb (sub_request_id x) R) l)
  = List.filter (fun x => Z.eqb (sub_request_id x) R') l.
Proof.
  intros Hne. unfold delete_where. induction l as [|x l IH]; simpl; [reflexivity|].
  destruct (Z.eqb_spec (sub_request_id x) R) as [->|Hx]; simpl.
  - destruct (Z.eqb_spec R R'); [congruence | exact IH].
  - destruct (Z.eqb (sub_request_id x) R'); [now rewrite IH | exact IH].
Qed.

Lemma select_delete_where_other (R : Z) (token : string) (l : list Request) r :
  select_one (fun r => String.eqb (req_token r) token) l = Some r ->
  req_id r <> R ->
  select_one (fun r => String.eqb (req_token r) token)
             (delete_where (fun r => Z.eqb (req_id r) R) l) = Some r
  \/ exists r0, List.In r0 l /\ req_token r0 = token /\ req_id r0 = R.
Proof.
  unfold select_one, delete_where. induction l as [|x l IH]; simpl; [discriminate|].
  intros Hsel Hid.
  destruct (String.eqb_spec (req_token x) token) as [Htok|Htok].
  - injection Hsel as ->.
    destruct (Z.eqb_spec (req_id r) R); [contradiction|]. simpl.
    left. now rewrite Htok, String.eqb_refl.
  - destruct (IH Hsel Hid) as [H|(r0 & Hin & Ht & Hi)].
    + left. destruct (Z.eqb (req_id x) R); simpl; [exact H|].
      destruct (String.eqb_spec (req_token x) token); [contradiction | exact H].
    + right. exists r0. auto.
Qed.

End DeleteFrame.

(** X9: [delete_request] touches one request only: every other request
    stays in the table, its token still resolves to it, and its list of
    submissions is the same. *)
Theorem delete_request_frame (s : Db.Store) (R : Z) (Hwf : Wf.wf_store s) :
  let s' := Db.delete_request s R in
  (forall r, Db.req_id r <> R -> (List.In r (Db.requests s') <-> List.In r (Db.requests s)))
  /\ (forall token r, Db.get_request_by_token s token = Some r -> Db.req_id r <> R ->
                      Db.get_request_by_token s' token = Some r)
  /\ (forall R', R' <> R -> Db.list_submissions s' R' = Db.list_submissions s R')
  /\ Db.seq_requests s' = Db.seq_requests s.
Proof.
  intros s'. subst s'. split; [|split; [|split]].
  - intros r Hid. rewrite delete_request_requests. tauto.
  - intros token r Hr Hid. unfold Db.get_request_by_token in *.
    unfold Db.delete_request; simpl.
    destruct (select_delete_where_other R token _ r Hr Hid)
      as [H|(r0 & Hin & Htok & Hi)]; [exact H | exfalso].
    apply select_one_some in Hr as [Hin' Htok']. apply String.eqb_eq in Htok'.
    destruct Hwf as (_ & Htokens & _).
    assert (r0 = r) by (eapply nodup_map_eq; eauto; congruence). congruence.
  - intros R' Hne. unfold Db.list_submissions, Db.delete_request; simpl.
    now rewrite filter_delete_where_other.
  - reflexivity.
Qed.

(** Deleting "Event A" after Jane's submission. *)
Lemma delete_request_frame_witness :
  let s' := Db.delete_request Scenario.store_after_jane 1 in
  (forall r, Db.req_id r <> 1 ->
             (List.In r (Db.requests s') <-> List.In r (Db.requests Scenario.store_after_jane)))
  /\ (forall token r, Db.get_request_by_token Scenario.store_after_jane token = Some r ->
                      Db.req_id r <> 1 ->
                      Db.get_request_by_token s' token = Some r)
  /\ (forall R', R' <> 1 ->
                 Db.list_submissions s' R' = Db.list_submissions Scenario.store_after_jane R')
  /\ Db.seq_requests s' = Db.seq_requests Scenario.store_after_jane.
Proof.
  apply (delete_request_frame Scenario.store_after_jane 1).
  apply wf_storeb_sound. vm_compute. reflexivity.
Defined.

(** X10: after [wipe_database] there is no request, no submission and no
    setting: every token is unknown, every listing is empty and every
    setting reads as its default; the id counters are kept; and the
    script clear_db.py leaves the same store. *)
Theorem wipe_database_empties (s : Db.Store) :
  let s' := Db.wipe_database s in
  (forall token, App.token_gate s' token = App.UNKNOWN_TOKEN)
  /\ (forall status, Db.list_requests s' status = [])
  /\ (forall R, Db.list_submissions s' R = [])
  /\ (forall key default, Db.get_setting s' key default = default)
  /\ Db.seq_requests s' = Db.seq_requests s
  /\ Db.seq_submissions s' = Db.seq_submissions s
  /\ Tables.clear_db_main s = s'
  /\ Db.wipe_database s' = s'.
Proof.
  simpl. repeat split.
  intros [st|]; [|reflexivity]. unfold Db.list_requests; simpl.
  now destruct (PyStr.truthy st).
Qed.

(* ===================================================================== *)
(** * The submissions table *)
(* ===================================================================== *)

Section Submissions.
Import Db Wf Tables.

Lemma subs_ok_add_submission s request_id name phone email now x s' :
  subs_ok s ->
  add_submission s request_id name phone email now = Ok (x, s') ->
  subs_ok s'.
Proof.
  intros (Hkeys & Hids & Hseq) Ha. unfold add_submission in Ha.
  destruct (select_one _ _) eqn:Hsel; [discriminate|].
  injection Ha as <- <-. unfold subs_ok; simpl.
  rewrite !List.map_app; simpl.
  rewrite select_one_none in Hsel. rewrite List.Forall_forall in Hseq.
  split; [|split].
  - apply List.NoDup_app; repeat split; auto.
    + constructor; [intros [] | constructor].
    + intros k Hk [<-|[]].
      apply List.in_map_iff in Hk as (y & Hy & Hin).
      specialize (Hsel y Hin). simpl in Hsel.
      unfold sub_key in Hy; simpl in Hy. injection Hy as Hrid Hph.
      now rewrite Hrid, Hph, Z.eqb_refl, String.eqb_refl in Hsel.
  - apply List.NoDup_app; repeat split; auto.
    + constructor; [intros [] | constructor].
    + intros i Hi [<-|[]].
      apply List.in_map_iff in Hi as (y & Hy & Hin).
      specialize (Hseq y Hin). simpl in Hseq. lia.
  - apply List.Forall_app. split.
    + apply List.Forall_forall. intros y Hy. specialize (Hseq y Hy). simpl in *. lia.
    + constructor; [simpl; lia | constructor].
Qed.

Lemma subs_ok_delete_request s request_id :
  subs_ok s -> subs_ok (delete_request s request_id).
Proof.
  intros (Hkeys & Hids & Hseq). unfold subs_ok, delete_request; simpl.
  split; [|split]; try now apply nodup_map_delete_where.
  apply List.Forall_forall. intros y Hy.
  apply in_delete_where in Hy as [Hy _].
  rewrite List.Forall_forall in Hseq. auto.
Qed.

Lemma subs_ok_wipe_database s : subs_ok (wipe_database s).
Proof. unfold subs_ok; simpl. repeat split; constructor. Qed.

Lemma subs_ok_same s s' :
  submissions s' = submissions s -> seq_submissions s' = seq_submissions s ->
  subs_ok s -> subs_ok s'.
Proof. unfold subs_ok. now intros -> ->. Qed.

End Submissions.

(** X11: in every store the application gets to, no two submissions of
    one request have the same phone string, no two submissions have the
    same id, and no submission id is above the counter. *)
Theorem reachable_submissions_distinct (s : Db.Store) :
  Wf.reachable s ->
  Tables.subs_ok s
  /\ (forall x y, List.In x (Db.submissions s) -> List.In y (Db.submissions s) ->
                  Db.sub_request_id x = Db.sub_request_id y ->
                  Db.sub_phone x = Db.sub_phone y -> x = y).
Proof.
  intros Hreach.
  assert (Hok : Tables.subs_ok s).
  { induction Hreach;
      try (eapply subs_ok_same; [| |eassumption]; reflexivity).
    - unfold Tables.subs_ok; simpl. repeat split; constructor.
    - unfold Db.create_request in H. destruct (Db.get_request_by_token _ _); [discriminate|].
      injection H as _ <-. exact IHHreach.
    - now apply subs_ok_delete_request.
    - eapply subs_ok_add_submission; eauto.
    - apply subs_ok_wipe_database.
    - unfold Db.add_reward_entry in H.
      destruct (PyStr.truthy name && PyStr.truthy phone); [|discriminate].
      injection H as <-. exact IHHreach. }
  split; [exact Hok|].
  intros x y Hx Hy Hrid Hph. destruct Hok as (Hkeys & _ & _).
  apply (nodup_map_eq Tables.sub_key (Db.submissions s)); auto.
  unfold Tables.sub_key. now rewrite Hrid, Hph.
Qed.

(** The store after Jane's submission is one the application gets to. *)
Lemma reachable_submissions_distinct_witness :
  Tables.subs_ok Scenario.store_after_jane
  /\ (forall x y, List.In x (Db.submissions Scenario.store_after_jane) ->
                  List.In y (Db.submissions Scenario.store_after_jane) ->
                  Db.sub_request_id x = Db.sub_request_id y ->
                  Db.sub_phone x = Db.sub_phone y -> x = y).
Proof.
  apply (reachable_submissions_distinct Scenario.store_after_jane).
  change (Wf.reachable
            (Db.mark_token_used
               (Db.mkStore {[ "points_1" := "10" ]} [Scenario.event_request]
                           [Scenario.jane_submission] [] 1 1) "abc123")).
  apply Wf.reach_mark_token_used.
  apply (Wf.reach_add_submission Scenario.event_store 1 "Jane Doe" "+1 555-000-1111" ""
                                 "2024-01-01T10:00:00" Scenario.jane_submission);
    [|reflexivity].
  change (Wf.reachable
            (Db.set_one_time_use
               (Db.mkStore {[ "points_1" := "10" ]}
                           [Db.mkRequest 1 "Event A" "" "open" "abc123"
                                         "2024-01-01T09:00:00" 0 0]
                           [] [] 1 0) 1 true)).
  apply Wf.reach_set_one_time_use.
  change (Wf.reachable
            (Db.set_setting
               (Db.mkStore ∅
                           [Db.mkRequest 1 "Event A" "" "open" "abc123"
                                         "2024-01-01T09:00:00" 0 0]
                           [] [] 1 0) "points_1" "10")).
  apply Wf.reach_set_setting.
  apply (Wf.reach_create_request Db.empty_store "Event A" "" "abc123" "2024-01-01T09:00:00"
                                 (Db.mkRequest 1 "Event A" "" "open" "abc123"
                                               "2024-01-01T09:00:00" 0 0));
    [apply Wf.reach_init | reflexivity].
Defined.

(* ===================================================================== *)
(** * More on the public form *)
(* ===================================================================== *)

Section FormRuns.
Import Db App.


Lemma name_errors_nil name :
  name_errors name = [] <->
  (2 <= PyStr.len (PyStr.strip name) <= 100)%nat.
Proof.
  unfold name_errors, PyStr.len.
  destruct (PyStr.strip name) as [|c t] eqn:Hs; simpl.
  - split; [discriminate | lia].
  - destruct t as [|c' t]; simpl; [split; [discriminate | lia]|].
    destruct (Nat.ltb_spec 100 (S (S (String.length t)))); split; try discriminate;
      try reflexivity; lia.
Qed.

Lemma phone_errors_nil phone :
  phone_errors phone = [] <->
  PyStr.strip phone <> "" /\ _is_valid_phone (PyStr.strip phone) = true.
Proof.
  unfold phone_errors.
  destruct (PyStr.strip phone) as [|c t] eqn:Hs; simpl.
  - split; [discriminate | intros [H _]; contradiction].
  - destruct (_is_valid_phone (String c t)); simpl; split; try discriminate; auto.
    intros [_ H]. discriminate.
Qed.

Lemma email_errors_nil email :
  email_errors email = [] <->
  PyStr.strip email = ""
  \/ (_is_valid_email (PyStr.strip email) = true
      /\ (PyStr.len (PyStr.strip email) <= 100)%nat).
Proof.
  unfold email_errors, PyStr.len.
  destruct (PyStr.strip email) as [|c t] eqn:Hs; [simpl; tauto|].
  cbn [PyStr.truthy]. destruct (_is_valid_email (String c t)); cbn [negb].
  - destruct (Nat.ltb_spec 100 (String.length (String c t))) as [Hlong|Hshort].
    + split; [discriminate|]. intros [H|[_ H]]; [discriminate | lia].
    + split; [|reflexivity]. intros _. right. split; [reflexivity | lia].
  - split; [discriminate | intros [H|[H _]]; discriminate].
Qed.

Lemma validate_nil inp :
  validate inp = [] <->
  name_errors (f_name inp) = [] /\ phone_errors (f_phone inp) = []
  /\ email_errors (f_email inp) = [].
Proof.
  unfold validate. split.
  - intros H. apply app_eq_nil in H as [H1 H]. apply app_eq_nil in H as [H2 H3]. auto.
  - intros (-> & -> & ->). reflexivity.
Qed.

Lemma field_errors_short inp :
  (length (name_errors (f_name inp)) <= 1)%nat
  /\ (length (phone_errors (f_phone inp)) <= 1)%nat
  /\ (length (email_errors (f_email inp)) <= 1)%nat.
Proof.
  unfold name_errors, phone_errors, email_errors.
  repeat split;
    repeat match goal with
           | |- context [if ?b then _ else _] => destruct b
           end; simpl; lia.
Qed.

End FormRuns.

(** X12: the form lets a submission through exactly when the stripped
    name has 2 to 100 characters, the stripped phone is valid, and the
    stripped email is empty or valid with at most 100 characters; it
    reports at most one error per field. *)
Theorem validate_accepts_iff (inp : App.FormInput) :
  (App.validate inp = [] <->
   (2 <= PyStr.len (PyStr.strip (App.f_name inp)) <= 100)%nat
   /\ App._is_valid_phone (PyStr.strip (App.f_phone inp)) = true
   /\ (PyStr.strip (App.f_email inp) = ""
       \/ (App._is_valid_email (PyStr.strip (App.f_email inp)) = true
           /\ (PyStr.len (PyStr.strip (App.f_email inp)) <= 100)%nat)))
  /\ (length (App.validate inp) <= 3)%nat
  /\ (length (App.name_errors (App.f_name inp)) <= 1)%nat
  /\ (length (App.phone_errors (App.f_phone inp)) <= 1)%nat
  /\ (length (App.email_errors (App.f_email inp)) <= 1)%nat.
Proof.
  split; [|split].
  - rewrite validate_nil, name_errors_nil, phone_errors_nil, email_errors_nil.
    split; [tauto|]. intros (Hn & Hp & He).
    split; [exact Hn | split; [split; [|exact Hp] | exact He]].
    intros Hempty. rewrite Hempty in Hp. discriminate.
  - unfold App.validate. rewrite !length_app.
    pose proof (field_errors_short inp). lia.
  - apply field_errors_short.
Qed.

(** X13: a run of the form that does not end in "accepted" leaves the
    store as it found it, and it ends in the rejection of a token state
    exactly when the guard is in that state. *)
Theorem form_changes_store_only_when_accepted
        (s : Db.Store) (token : string) (inp : App.FormInput) :
  ((App._public_form s token inp).2 <> App.Accepted ->
   (App._public_form s token inp).1 = s)
  /\ (forall st, (App._public_form s token inp).2 = App.Rejected st <->
                 (App.token_gate s token = st /\ st <> App.USABLE)).
Proof.
  unfold App._public_form, App.token_gate.
  destruct (Db.get_request_by_token s token) as [req|]; simpl.
  2:{ split; [reflexivity|]. intros st. split.
      - intros H. injection H as <-. split; [reflexivity | discriminate].
      - now intros [<- _]. }
  destruct (negb (String.eqb (Db.req_status req) "open")); simpl.
  { split; [reflexivity|]. intros st. split.
    - intros H. injection H as <-. split; [reflexivity | discriminate].
    - now intros [<- _]. }
  destruct (Db.is_token_used s token); simpl.
  { split; [reflexivity|]. intros st. split.
    - intros H. injection H as <-. split; [reflexivity | discriminate].
    - now intros [<- _]. }
  assert (Hno : forall (o : App.Outcome) st,
             (forall st', o <> App.Rejected st') ->
             o = App.Rejected st <-> App.USABLE = st /\ st <> App.USABLE).
  { intros o st Ho. split; [intros H; now apply Ho in H | intros [<- H]; congruence]. }
  destruct (negb (App.f_submit inp)); simpl.
  { split; [reflexivity|]. intros st. apply Hno. discriminate. }
  destruct (App.validate inp); simpl.
  2:{ split; [reflexivity|]. intros st. apply Hno. discriminate. }
  destruct (Db.add_submission _ _ _ _ _ _) as [[x s1]|e]; simpl.
  - split; [congruence|]. intros st. apply Hno. discriminate.
  - split; [reflexivity|]. intros st. apply Hno.
    destruct e; simpl; try discriminate.
    destruct (PyStr.str_in _ _); discriminate.
Qed.

(** A run that was not submitted in the scenario. *)
Lemma form_changes_store_only_when_accepted_witness :
  let inp := App.mkFormInput "Jane Doe" "+1 555-000-1111" "" false "" in
  ((App._public_form Scenario.event_store "abc123" inp).2 <> App.Accepted ->
   (App._public_form Scenario.event_store "abc123" inp).1 = Scenario.event_store)
  /\ (forall st, (App._public_form Scenario.event_store "abc123" inp).2 = App.Rejected st <->
                 (App.token_gate Scenario.event_store "abc123" = st /\ st <> App.USABLE)).
Proof.
  apply (form_changes_store_only_when_accepted Scenario.event_store "abc123").
Defined.

(** X14: an accepted run stores exactly one submission, for the request
    of the token, with the stripped fields, which pass validation and
    whose phone no earlier submission of the request has; the request's
    used count goes up by one, and the settings stay as they are. *)
Theorem accepted_run_effect
        (s s' : Db.Store) (token : string) (inp : App.FormInput) :
  App._public_form s token inp = (s', App.Accepted) ->
  exists req x,
    Db.get_request_by_token s token = Some req
    /\ Db.req_status req = "open"
    /\ x = Db.mkSubmission (Db.seq_submissions s + 1) (Db.req_id req)
                           (PyStr.strip (App.f_name inp)) (PyStr.strip (App.f_phone inp))
                           (PyStr.strip (App.f_email inp)) (App.f_now inp)
    /\ Db.submissions s' = (Db.submissions s ++ [x])%list
    /\ (2 <= PyStr.len (Db.sub_name x) <= 100)%nat
    /\ App._is_valid_phone (Db.sub_phone x) = true
    /\ (Db.sub_email x = ""
        \/ (App._is_valid_email (Db.sub_email x) = true
            /\ (PyStr.len (Db.sub_email x) <= 100)%nat))
    /\ (forall y, List.In y (Db.submissions s) ->
                  Db.sub_request_id y = Db.req_id req -> Db.sub_phone y <> Db.sub_phone x)
    /\ Db.get_request_by_token s' token = Some (Db.incr_used req)
    /\ Db.settings s' = Db.settings s.
Proof.
  intros Hacc.
  assert (Hval : App.validate inp = []).
  { unfold App._public_form in Hacc.
    destruct (Db.get_request_by_token s token); [|discriminate].
    destruct (negb _); [discriminate|]. destruct (Db.is_token_used s token); [discriminate|].
    destruct (negb _); [discriminate|]. destruct (App.validate inp); [reflexivity | discriminate]. }
  apply accepted_inv in Hacc as (req & x & s1 & Hreq & Hopen & Hused & Hadd & ->).
  pose proof (get_request_by_token_in s token req Hreq) as [_ Htok].
  assert (Hfresh : forall y, List.In y (Db.submissions s) ->
                             Db.sub_request_id y = Db.req_id req ->
                             Db.sub_phone y <> PyStr.strip (App.f_phone inp)).
  { intros y Hy Hid Hph.
    rewrite (add_submission_taken s (Db.req_id req) _ _ _ _ y Hy Hid Hph) in Hadd.
    discriminate. }
  rewrite (add_submission_fresh s _ _ _ _ _ Hfresh) in Hadd. injection Hadd as <- <-.
  apply validate_accepts_iff in Hval as (Hn & Hp & He).
  eexists req, _. split; [exact Hreq|]. split; [exact Hopen|]. split; [reflexivity|].
  simpl. repeat split; auto; try lia.
  rewrite lookup_after_mark; simpl.
  unfold Db.get_request_by_token in *; simpl. rewrite Hreq; simpl.
  now rewrite Htok, String.eqb_refl.
Qed.

(** Jane's accepted run. *)
Lemma accepted_run_effect_witness :
  exists req x,
    Db.get_request_by_token Scenario.event_store "abc123" = Some req
    /\ Db.req_status req = "open"
    /\ x = Db.mkSubmission (Db.seq_submissions Scenario.event_store + 1) (Db.req_id req)
                           (PyStr.strip (App.f_name Scenario.jane))
                           (PyStr.strip (App.f_phone Scenario.jane))
                           (PyStr.strip (App.f_email Scenario.jane))
                           (App.f_now Scenario.jane)
    /\ Db.submissions Scenario.store_after_jane
       = (Db.submissions Scenario.event_store ++ [x])%list
    /\ (2 <= PyStr.len (Db.sub_name x) <= 100)%nat
    /\ App._is_valid_phone (Db.sub_phone x) = true
    /\ (Db.sub_email x = ""
        \/ (App._is_valid_email (Db.sub_email x) = true
            /\ (PyStr.len (Db.sub_email x) <= 100)%nat))
    /\ (forall y, List.In y (Db.submissions Scenario.event_store) ->
                  Db.sub_request_id y = Db.req_id req -> Db.sub_phone y <> Db.sub_phone x)
    /\ Db.get_request_by_token Scenario.store_after_jane "abc123" = Some (Db.incr_used req)
    /\ Db.settings Scenario.store_after_jane = Db.settings Scenario.event_store.
Proof.
  apply (accepted_run_effect Scenario.event_store Scenario.store_after_jane "abc123"
                             Scenario.jane).
  vm_compute. reflexivity.
Defined.

(** X15: on a request that is not one-time, the token stays usable after
    an accepted run, and a further run with the same stripped phone is
    turned down as a duplicate and stores nothing. *)
Theorem multi_use_request_duplicate
        (s s' : Db.Store) (token : string) (r : Db.Request) (inp1 inp2 : App.FormInput) :
  Db.get_request_by_token s token = Some r ->
  Db.req_one_time_use r = 0 ->
  App._public_form s token inp1 = (s', App.Accepted) ->
  App.token_gate s' token = App.USABLE
  /\ (App.f_submit inp2 = true -> App.validate inp2 = [] ->
      PyStr.strip (App.f_phone inp2) = PyStr.strip (App.f_phone inp1) ->
      App._public_form s' token inp2 = (s', App.Duplicate)).
Proof.
  intros Hr Hflag Hacc.
  apply accepted_run_effect in Hacc
    as (req & x & Hreq & Hopen & Hx & Hsubs & _ & _ & _ & _ & Hlook & _).
  assert (req = r) as -> by congruence.
  assert (Hgate : Db.is_token_used s' token = false).
  { rewrite is_token_used_lookup, Hlook. simpl. now rewrite Hflag. }
  split.
  - unfold App.token_gate. rewrite Hlook; simpl. now rewrite Hopen, Hgate.
  - intros Hsub Hval Hphone. unfold App._public_form.
    rewrite Hlook; simpl. rewrite Hopen, Hgate, Hsub, Hval; simpl.
    rewrite (add_submission_taken s' (Db.req_id r) _ _ _ _ x).
    + reflexivity.
    + rewrite Hsubs. apply List.in_app_iff. right. now left.
    + now subst x.
    + subst x. simpl. now rewrite Hphone.
Qed.

(* ===================================================================== *)
(** * Email validation *)
(* ===================================================================== *)

Section Email.
Import App.

Lemma app_cons (c : ascii) (a b : string) : String c a +:+ b = String c (a +:+ b).
Proof. reflexivity. Qed.

Lemma app_nil_l (b : string) : "" +:+ b = b.
Proof. reflexivity. Qed.

(** An unbounded repetition followed by [k]. *)
Lemma rep_unbounded_spec (cls : ascii -> bool) (k : string -> bool) (s : string) :
  forall lo : nat,
    Re.rep cls lo None k s = true <->
    exists a rest : string,
      s = a +:+ rest /\ (lo <= String.length a)%nat
      /\ PyStr.str_forall cls a = true /\ k rest = true.
Proof.
  induction s as [|c s IH]; intros lo.
  - simpl. rewrite Bool.andb_true_iff, Nat.eqb_eq. split.
    + intros [-> Hk]. exists "", "". repeat split; auto.
    + intros (a & rest & Hs & Hlo & _ & Hk).
      destruct a; [|rewrite app_cons in Hs; discriminate].
      rewrite app_nil_l in Hs. subst rest.
      simpl in Hlo. split; [lia | exact Hk].
  - cbn [Re.rep Re.dec_hi Re.may_take].
    rewrite Bool.orb_true_iff, !Bool.andb_true_iff, IH, Nat.eqb_eq. split.
    + intros [[[Hc _] (a & rest & -> & Hlo & Hall & Hk)] | [-> Hk]].
      * exists (String c a), rest. simpl. rewrite Hc, Hall. repeat split; auto. lia.
      * exists "", (String c s). repeat split; auto.
    + intros ([|c' a] & rest & Hs & Hlo & Hall & Hk).
      * right. rewrite app_nil_l in Hs. simpl in Hlo. subst rest.
        split; [lia | exact Hk].
      * left. rewrite app_cons in Hs. simpl in Hlo, Hall. injection Hs as <- ->.
        apply andb_prop in Hall as [Hc Hall].
        split; [now rewrite Hc|].
        exists a, rest. repeat split; auto. lia.
Qed.

Lemma at_eos_iff (t : string) :
  Re.at_eos t = true <-> t = "" \/ t = String "010" "".
Proof.
  destruct t as [|c [|c' t]]; simpl.
  - tauto.
  - rewrite Ascii.eqb_eq. split.
    + intros ->. now right.
    + intros [H|H]; [discriminate | now injection H as ->].
  - split; [discriminate | intros [H|H]; discriminate].
Qed.

End Email.

(** X16: an email address is accepted exactly when it is a local part,
    [@], a domain part, [.], and a last part, all three non-empty and
    free of [@] and of whitespace, with nothing after them but possibly
    one final line feed. *)
Theorem is_valid_email_iff (email : string) :
  App._is_valid_email email = true <->
  exists local domain last tail : string,
    email = local +:+ "@" +:+ domain +:+ "." +:+ last +:+ tail
    /\ local <> "" /\ domain <> "" /\ last <> ""
    /\ PyStr.str_forall App.email_cls local = true
    /\ PyStr.str_forall App.email_cls domain = true
    /\ PyStr.str_forall App.email_cls last = true
    /\ (tail = "" \/ tail = String "010" "").
Proof.
  assert (Hlen : forall a : string, (1 <= String.length a)%nat <-> a <> "").
  { intros [|c a]; simpl; split; try congruence; lia. }
  unfold App._is_valid_email, App.email_pattern. cbn [Re.matches].
  rewrite rep_unbounded_spec. split.
  - intros (local & r1 & -> & Hl & Hal & Hk).
    destruct r1 as [|c1 r1]; [discriminate|].
    apply andb_prop in Hk as [Hc1 Hk]. apply Ascii.eqb_eq in Hc1. subst c1.
    apply rep_unbounded_spec in Hk as (domain & r2 & -> & Hd & Had & Hk).
    destruct r2 as [|c2 r2]; [discriminate|].
    apply andb_prop in Hk as [Hc2 Hk]. apply Ascii.eqb_eq in Hc2. subst c2.
    apply rep_unbounded_spec in Hk as (last & tail & -> & Ht & Hat & Hk).
    rewrite Bool.andb_true_r in Hk. apply at_eos_iff in Hk.
    exists local, domain, last, tail. rewrite <- !Hlen. repeat split; auto.
  - intros (local & domain & last & tail & -> & Hl & Hd & Ht & Hal & Had & Hat & Htail).
    exists local, ("@" +:+ domain +:+ "." +:+ last +:+ tail).
    split; [reflexivity|]. split; [now apply Hlen|]. split; [exact Hal|].
    simpl. apply rep_unbounded_spec.
    exists domain, ("." +:+ last +:+ tail).
    split; [reflexivity|]. split; [now apply Hlen|]. split; [exact Had|].
    simpl. apply rep_unbounded_spec.
    exists last, tail.
    split; [reflexivity|]. split; [now apply Hlen|]. split; [exact Hat|].
    rewrite Bool.andb_true_r. now apply at_eos_iff.
Qed.

(* ===================================================================== *)
(** * The choice of page *)
(* ===================================================================== *)

(** X17: the form is served exactly when the view is "form" and the
    token is present and not empty, with the first element taken of a
    parameter given as a list; the review page is served for the view
    "review" whenever the form is not; everything else, a form view
    without a token included, ends on the admin dashboard. *)
Theorem main_dispatch (params : gmap string Routing.param) (t : string) :
  (Routing.main params = Routing.FormPage t <->
   Routing._get_param_value params "view" = Some "form"
   /\ Routing._get_param_value params "token" = Some t /\ t <> "")
  /\ (Routing.main params = Routing.ReviewPage <->
      Routing._get_param_value params "view" = Some "review")
  /\ (params !! "token" = None -> forall t', Routing.main params <> Routing.FormPage t')
  /\ (forall key x l, params !! key = Some (Routing.PList (x :: l)) ->
                      Routing._get_param_value params key = Some x)
  /\ (forall key, params !! key = Some (Routing.PList []) ->
                  Routing._get_param_value params key = None).
Proof.
  unfold Routing.main.
  split; [|split; [|split; [|split]]].
  - destruct (Routing._get_param_value params "view") as [v|];
      destruct (Routing._get_param_value params "token") as [t0|].
    + destruct (String.eqb_spec v "form") as [->|Hv]; simpl.
      * destruct t0 as [|c t0]; simpl.
        -- split; [discriminate | intros (_ & H & Hne); injection H as <-; contradiction].
        -- split; [intros H; injection H as <-; repeat split; discriminate
                  | intros (_ & H & _); now injection H as <-].
      * destruct (String.eqb v "review");
          (split; [discriminate | intros (H & _); congruence]).
    + destruct (String.eqb v "review");
        (split; [discriminate | intros (_ & H & _); discriminate]).
    + split; [discriminate | intros (H & _); discriminate].
    + split; [discriminate | intros (H & _); discriminate].
  - destruct (Routing._get_param_value params "view") as [v|];
      destruct (Routing._get_param_value params "token") as [t0|].
    + destruct (String.eqb_spec v "form") as [->|Hv]; simpl.
      * destruct (PyStr.truthy t0); simpl; split; discriminate.
      * destruct (String.eqb_spec v "review") as [->|Hr];
          split; try discriminate; try reflexivity; congruence.
    + destruct (String.eqb_spec v "review") as [->|Hr];
        split; try discriminate; try reflexivity; congruence.
    + split; discriminate.
    + split; discriminate.
  - intros Hnone t'. unfold Routing._get_param_value at 2. rewrite Hnone.
    destruct (Routing._get_param_value params "view") as [v|]; [|discriminate].
    destruct (String.eqb v "review"); discriminate.
  - intros key x l H. unfold Routing._get_param_value. now rewrite H.
  - intros key H. unfold Routing._get_param_value. now rewrite H.
Qed.

(* ===================================================================== *)
(** * The settings keys of a request *)
(* ===================================================================== *)

Section Keys.
Import Db App.

Lemma to_int_parses (z : Z) :
  NilZero.int_of_string (NilZero.string_of_int (Z.to_int z)) = Some (Z.to_int z).
Proof.
  apply NilZero.isi; destruct z; simpl; try discriminate;
    intros H; injection H as H; now apply DecimalPos.Unsigned.to_uint_nonnil in H.
Qed.

(** [str] of an integer determines the integer. *)
Lemma str_of_int_inj (a b : Z) : PyStr.str_of_int a = PyStr.str_of_int b -> a = b.
Proof.
  unfold PyStr.str_of_int. intros H. apply DecimalZ.to_int_inj.
  pose proof (to_int_parses a) as Ha. rewrite H, to_int_parses in Ha.
  now injection Ha.
Qed.

Lemma points_key_inj (i j : Z) : points_key i = points_key j -> i = j.
Proof.
  unfold points_key. intros H. apply str_of_int_inj.
  change ("points_" +:+ PyStr.str_of_int i) with
    (String "p" (String "o" (String "i" (String "n" (String "t" (String "s"
       (String "_" (PyStr.str_of_int i)))))))) in H.
  change ("points_" +:+ PyStr.str_of_int j) with
    (String "p" (String "o" (String "i" (String "n" (String "t" (String "s"
       (String "_" (PyStr.str_of_int j)))))))) in H.
  now injection H.
Qed.

Lemma qr_custom_key_inj (i j : Z) : qr_custom_key i = qr_custom_key j -> i = j.
Proof.
  unfold qr_custom_key. intros H. apply str_of_int_inj.
  change ("qr_custom_" +:+ PyStr.str_of_int i) with
    (String "q" (String "r" (String "_" (String "c" (String "u" (String "s"
       (String "t" (String "o" (String "m" (String "_"
          (PyStr.str_of_int i))))))))))) in H.
  change ("qr_custom_" +:+ PyStr.str_of_int j) with
    (String "q" (String "r" (String "_" (String "c" (String "u" (String "s"
       (String "t" (String "o" (String "m" (String "_"
          (PyStr.str_of_int j))))))))))) in H.
  now injection H.
Qed.

Lemma points_key_not_custom (i j : Z) : points_key i <> qr_custom_key j.
Proof. discriminate. Qed.

Lemma points_key_not_base (i : Z) : points_key i <> "base_url".
Proof. discriminate. Qed.

Lemma qr_custom_key_not_base (i : Z) : qr_custom_key i <> "base_url".
Proof. discriminate. Qed.

End Keys.

(** X18: the settings keys built from request ids do not collide: two
    requests have different points keys and different custom-text keys,
    no points key is a custom-text key, and none of them is the key of
    the base URL. *)
Theorem settings_keys_distinct (i j : Z) :
  (App.points_key i = App.points_key j <-> i = j)
  /\ (App.qr_custom_key i = App.qr_custom_key j <-> i = j)
  /\ App.points_key i <> App.qr_custom_key j
  /\ App.points_key i <> "base_url"
  /\ App.qr_custom_key i <> "base_url".
Proof.
  repeat split; try discriminate.
  - apply points_key_inj.
  - now intros ->.
  - apply qr_custom_key_inj.
  - now intros ->.
Qed.

(* ===================================================================== *)
(** * From the create form to the list of requests *)
(* ===================================================================== *)

Section CreateForm.
Import Db App Admin.

Lemma get_setting_insert_ne s (m : gmap string string) key key' value default :
  key <> key' ->
  get_setting (with_settings s (<[key := value]> m)) key' default
  = get_setting (with_settings s m) key' default.
Proof. intros Hne. unfold get_setting; simpl. now rewrite lookup_insert_ne. Qed.

Lemma local_url_is_form_url token :
  "http://192.168.1.4:8501?view=form&token=" +:+ token
  = _build_form_url "http://192.168.1.4:8501" token.
Proof. reflexivity. Qed.

End CreateForm.

(** X19: a request made by the create form is listed with the content
    that was encoded for it: the custom text when one was given, and
    otherwise the form URL on the base URL of the settings, or on the
    built-in address when none is set.  The custom-text key of the new
    id has to be free when no custom text is given. *)
Theorem created_request_is_listed_alike
        (s s' : Db.Store) (title description token now : string) (points : Z)
        (one_time_use : bool) (custom : option string) (req : Db.Request) :
  Db.settings s !! App.qr_custom_key (Db.seq_requests s + 1) = None ->
  App.admin_create_single s title description token now points one_time_use custom
  = Ok (req, s') ->
  exists r,
    Db.get_request_by_token s' token = Some r
    /\ Db.req_id r = Db.req_id req
    /\ Db.req_one_time_use r = (if one_time_use then 1 else 0)
    /\ Db.get_setting s' (App.points_key (Db.req_id r)) "0" = PyStr.str_of_int points
    /\ Admin.listed_content s' r
       = Admin.created_content (Admin.create_form_base s) custom token.
Proof.
  intros Hfree Hc. unfold App.admin_create_single in Hc.
  destruct (Db.get_request_by_token s token) as [r0|] eqn:Hfresh.
  { unfold Db.create_request in Hc. rewrite Hfresh in Hc. discriminate. }
  rewrite (create_request_ok _ _ _ _ _ Hfresh) in Hc. simpl in Hc.
  set (rid := Db.seq_requests s + 1) in *.
  set (row := Db.mkRequest rid (PyStr.strip title) (PyStr.strip description) "open"
                           token now 0 0) in *.
  set (flag := if one_time_use then 1 else 0).
  assert (Hsel : forall m seq1 seq2 subs rw,
             Db.get_request_by_token
               (Db.mkStore m
                  (Db.update_where (fun r => Z.eqb (Db.req_id r) rid)
                                   (Db.set_flag flag) (Db.requests s ++ [row]))
                  subs rw seq1 seq2) token
             = Some (Db.set_flag flag row)).
  { intros. unfold Db.get_request_by_token; simpl.
    rewrite select_update_where by reflexivity.
    unfold Db.get_request_by_token in Hfresh.
    rewrite (select_one_app_none _ _ _ Hfresh); simpl.
    rewrite String.eqb_refl; simpl. subst rid. now rewrite Z.eqb_refl. }
  assert (Hbase : Admin.created_content (Admin.create_form_base s) None token
                  = if PyStr.truthy (Db.get_setting s "base_url" "")
                    then App._build_form_url (Db.get_setting s "base_url" "") token
                    else "http://192.168.1.4:8501?view=form&token=" +:+ token).
  { unfold Admin.created_content, Admin.create_form_base, Admin.or_default.
    now destruct (PyStr.truthy (Db.get_setting s "base_url" "")). }
  assert (Hplain :
            forall s3,
              Db.settings s3 = <[App.points_key rid := PyStr.str_of_int points]> (Db.settings s) ->
              Db.get_request_by_token s3 token = Some (Db.set_flag flag row) ->
              Admin.listed_content s3 (Db.set_flag flag row)
              = Admin.created_content (Admin.create_form_base s) None token).
  { intros s3 Hset _. rewrite Hbase.
    unfold Admin.listed_content, Admin.or_default, Db.get_setting. rewrite Hset. simpl.
    rewrite lookup_insert_ne by apply points_key_not_custom.
    fold rid. rewrite Hfree. simpl.
    rewrite lookup_insert_ne by apply points_key_not_base.
    destruct (Db.settings s !! "base_url") as [b|]; simpl; [|reflexivity].
    destruct (PyStr.truthy b) eqn:Hb; simpl; now rewrite ?Hb. }
  assert (Hpoints : forall s3 m,
             Db.settings s3 = m ->
             m !! App.points_key rid = Some (PyStr.str_of_int points) ->
             Db.get_setting s3 (App.points_key rid) "0" = PyStr.str_of_int points).
  { intros s3 m <- Hm. unfold Db.get_setting. now rewrite Hm. }
  destruct custom as [txt|].
  - destruct (PyStr.truthy (PyStr.strip txt)) eqn:Htxt; injection Hc as <- <-.
    + exists (Db.set_flag flag row). split; [apply Hsel|]. split; [reflexivity|].
      split; [reflexivity|]. split.
      * eapply Hpoints; [reflexivity|]. simpl.
        rewrite lookup_insert_ne by (intros H; symmetry in H; revert H; apply points_key_not_custom).
        apply lookup_insert_eq.
      * unfold Admin.listed_content, Admin.created_content, Db.get_setting.
        destruct (PyStr.strip txt) as [|c t]; [discriminate|]. simpl.
        now rewrite lookup_insert_eq.
    + exists (Db.set_flag flag row). split; [apply Hsel|]. split; [reflexivity|].
      split; [reflexivity|]. split.
      * eapply Hpoints; [reflexivity|]. simpl. apply lookup_insert_eq.
      * unfold Admin.created_content at 1. rewrite Htxt.
        change (App._build_form_url (Admin.create_form_base s) token)
          with (Admin.created_content (Admin.create_form_base s) None token).
        apply Hplain; [reflexivity | apply Hsel].
  - injection Hc as <- <-.
    exists (Db.set_flag flag row). split; [apply Hsel|]. split; [reflexivity|].
    split; [reflexivity|]. split.
    + eapply Hpoints; [reflexivity|]. simpl. apply lookup_insert_eq.
    + apply Hplain; [reflexivity | apply Hsel].
Qed.

(** "Event A" of the scenario comes from the create form. *)
Lemma created_request_is_listed_alike_witness :
  exists r,
    Db.get_request_by_token Scenario.event_store "abc123" = Some r
    /\ Db.req_id r
       = Db.req_id (Db.mkRequest 1 "Event A" "" "open" "abc123" "2024-01-01T09:00:00" 0 0)
    /\ Db.req_one_time_use r = (if true then 1 else 0)
    /\ Db.get_setting Scenario.event_store (App.points_key (Db.req_id r)) "0"
       = PyStr.str_of_int 10
    /\ Admin.listed_content Scenario.event_store r
       = Admin.created_content (Admin.create_form_base Db.empty_store) None "abc123".
Proof.
  apply (created_request_is_listed_alike Db.empty_store Scenario.event_store
           "Event A" "" "abc123" "2024-01-01T09:00:00" 10 true None).
  - reflexivity.
  - vm_compute. reflexivity.
Defined.

(* ===================================================================== *)
(** * The create form for several QR codes *)
(* ===================================================================== *)

Section Batch.
Import Db Wf App Admin.
Variables (title description : string) (points : Z) (one_time_use : bool).

Let flag : Z := if one_time_use then 1 else 0.

Lemma update_where_none {A : Type} (cond : A -> bool) (f : A -> A) (rows : list A) :
  (forall r, List.In r rows -> cond r = false) ->
  update_where cond f rows = rows.
Proof.
  intros H. unfold update_where. induction rows as [|x rows IH]; simpl; [reflexivity|].
  rewrite (H x (or_introl eq_refl)), IH; [reflexivity|].
  intros r Hr. apply H. now right.
Qed.

Lemma batch_iteration_wf i s btok now req s3 :
  wf_store s ->
  batch_iteration i s title description points one_time_use btok now = Ok (req, s3) ->
  wf_store s3.
Proof.
  intros Hwf Hit. unfold batch_iteration in Hit.
  destruct (create_request s _ _ btok now) as [[r s1]|e] eqn:Hc; [|discriminate].
  simpl in Hit. injection Hit as <- <-.
  apply wf_set_one_time_use, wf_set_setting.
  eapply wf_create_request; eauto.
Qed.

Lemma batch_iteration_ok i s btok now :
  wf_store s ->
  get_request_by_token s btok = None ->
  batch_iteration i s title description points one_time_use btok now
  = Ok (mkRequest (seq_requests s + 1)
                  (PyStr.strip title +:+ " #" +:+ PyStr.str_of_int (i + 1))
                  (PyStr.strip description) "open" btok now 0 0,
        mkStore (<[points_key (seq_requests s + 1) := PyStr.str_of_int points]> (settings s))
                (requests s
                 ++ [mkRequest (seq_requests s + 1)
                               (PyStr.strip title +:+ " #" +:+ PyStr.str_of_int (i + 1))
                               (PyStr.strip description) "open" btok now flag 0])
                (submissions s) (reward_entries s)
                (seq_requests s + 1) (seq_submissions s)).
Proof.
  intros (_ & _ & Hall) Hfresh. unfold batch_iteration.
  rewrite (create_request_ok _ _ _ _ _ Hfresh). simpl.
  unfold set_one_time_use, set_setting, with_requests, with_settings; simpl.
  do 2 f_equal. f_equal.
  unfold update_where. rewrite List.map_app; simpl.
  rewrite Z.eqb_refl. f_equal.
  apply update_where_none. intros r Hr.
  rewrite List.Forall_forall in Hall. destruct (Hall r Hr) as (_ & _ & Hle).
  apply Z.eqb_neq. lia.
Qed.

Lemma create_batch_from_ok (fresh : list (string * string)) :
  forall (i : Z) (s : Store),
    wf_store s ->
    List.NoDup (map fst fresh) ->
    (forall tok, List.In tok (map fst fresh) -> get_request_by_token s tok = None) ->
    exists reqs s',
      create_batch_from i s title description points one_time_use fresh = (s', Ok reqs)
      /\ wf_store s'
      /\ length reqs = length fresh
      /\ seq_requests s' = seq_requests s + Z.of_nat (length fresh)
      /\ submissions s' = submissions s
      /\ (forall tok r, get_request_by_token s tok = Some r ->
                        get_request_by_token s' tok = Some r)
      /\ (forall key, (forall j, seq_requests s < j -> key <> points_key j) ->
                      settings s' !! key = settings s !! key)
      /\ (forall (k : nat) tok now,
             fresh !! k = Some (tok, now) ->
             exists r,
               get_request_by_token s' tok = Some r
               /\ req_id r = seq_requests s + Z.of_nat k + 1
               /\ req_title r
                  = PyStr.strip title +:+ " #" +:+ PyStr.str_of_int (i + Z.of_nat k + 1)
               /\ req_status r = "open"
               /\ req_created_at r = now
               /\ req_used_count r = 0
               /\ req_one_time_use r = flag
               /\ settings s' !! points_key (req_id r) = Some (PyStr.str_of_int points)).
Proof.
  induction fresh as [|[btok now] rest IH]; intros i s Hwf Hnd Hfresh.
  - exists [], s. simpl.
    split; [reflexivity|]. split; [assumption|]. split; [reflexivity|].
    split; [lia|]. split; [reflexivity|]. split; [auto|]. split; [auto|].
    intros k tok now H. discriminate.
  - simpl in Hnd. inversion Hnd as [|? ? Hnotin Hnd']; subst.
    assert (Hb : get_request_by_token s btok = None) by (apply Hfresh; now left).
    pose proof (batch_iteration_ok i s btok now Hwf Hb) as Hit.
    set (row := mkRequest (seq_requests s + 1)
                          (PyStr.strip title +:+ " #" +:+ PyStr.str_of_int (i + 1))
                          (PyStr.strip description) "open" btok now flag 0) in *.
    set (s3 := mkStore _ (requests s ++ [row]) _ _ _ _) in *.
    assert (Hwf3 : wf_store s3) by (eapply batch_iteration_wf; eauto).
    assert (Hkeep : forall tok r, get_request_by_token s tok = Some r ->
                                  get_request_by_token s3 tok = Some r).
    { intros tok r Hr. unfold get_request_by_token in *. simpl.
      now apply select_one_app_some. }
    assert (Hrow : get_request_by_token s3 btok = Some row).
    { unfold get_request_by_token in *. simpl.
      rewrite (select_one_app_none _ _ _ Hb). simpl. now rewrite String.eqb_refl. }
    assert (Hfresh3 : forall tok, List.In tok (map fst rest) ->
                                  get_request_by_token s3 tok = None).
    { intros tok Htok. apply get_request_by_token_none. intros r Hr Heq.
      simpl in Hr. apply List.in_app_iff in Hr as [Hr|[<-|[]]].
      - assert (Hn : get_request_by_token s tok = None) by (apply Hfresh; now right).
        rewrite get_request_by_token_none in Hn. exact (Hn r Hr Heq).
      - simpl in Heq. subst tok. contradiction. }
    destruct (IH (i + 1) s3 Hwf3 Hnd' Hfresh3)
      as (reqs & s' & Hrun & Hwf' & Hlen & Hseq & Hsubs & Hkeep' & Hframe & Hnth).
    eexists _, s'. cbn [create_batch_from]. rewrite Hit, Hrun.
    split; [reflexivity|]. split; [exact Hwf'|].
    split; [simpl; now rewrite Hlen|].
    split; [rewrite Hseq; simpl; lia|].
    split; [exact Hsubs|].
    split; [intros tok r Hr; apply Hkeep', Hkeep, Hr|].
    split.
    + intros key Hkey. rewrite Hframe.
      * simpl. apply lookup_insert_ne. intros Heq. apply (Hkey (seq_requests s + 1)); [lia|].
        now symmetry.
      * intros j Hj. apply Hkey. simpl in Hj. lia.
    + intros [|k] tok now' Hk.
      * simpl in Hk. injection Hk as <- <-.
        exists row. split; [apply Hkeep', Hrow|].
        replace (i + Z.of_nat 0 + 1) with (i + 1) by lia.
        split; [simpl; lia|]. do 5 (split; [reflexivity|]).
        rewrite Hframe; [simpl; apply lookup_insert_eq|].
        intros j Hj Heq. apply points_key_inj in Heq.
        unfold s3 in Hj. unfold row in Heq. simpl in Hj, Heq. lia.
      * simpl in Hk. destruct (Hnth k tok now' Hk)
          as (r & Hr & Hid & Htitle & Hst & Hcr & Hu & Hf & Hp).
        exists r. split; [exact Hr|].
        split; [rewrite Hid; simpl; lia|].
        split; [rewrite Htitle; replace (i + 1 + Z.of_nat k + 1)
                                    with (i + Z.of_nat (S k) + 1) by lia; reflexivity|].
        auto.
Qed.

End Batch.

(** X20: given distinct tokens that no request has, the create form for
    several QR codes makes one request per token, with consecutive ids
    in the order of the tokens, numbered titles, status open, used count
    0, the chosen one-time flag and the chosen points; each token is
    usable afterwards; the requests that were there are found as before;
    no submission is touched and no custom-text key is written. *)
Theorem create_batch_makes_all
        (s : Db.Store) (title description : string) (points : Z) (one_time_use : bool)
        (fresh : list (string * string)) :
  Wf.wf_store s ->
  List.NoDup (map fst fresh) ->
  (forall tok, List.In tok (map fst fresh) -> Db.get_request_by_token s tok = None) ->
  exists reqs s',
    Admin.create_batch s title description points one_time_use fresh = (s', Ok reqs)
    /\ Wf.wf_store s'
    /\ length reqs = length fresh
    /\ Db.submissions s' = Db.submissions s
    /\ (forall tok r, Db.get_request_by_token s tok = Some r ->
                      Db.get_request_by_token s' tok = Some r)
    /\ (forall id, Db.settings s' !! App.qr_custom_key id
                   = Db.settings s !! App.qr_custom_key id)
    /\ (forall (k : nat) tok now,
           fresh !! k = Some (tok, now) ->
           exists r,
             Db.get_request_by_token s' tok = Some r
             /\ Db.req_id r = Db.seq_requests s + Z.of_nat k + 1
             /\ Db.req_title r
                = PyStr.strip title +:+ " #" +:+ PyStr.str_of_int (Z.of_nat k + 1)
             /\ Db.req_status r = "open"
             /\ Db.req_created_at r = now
             /\ Db.req_used_count r = 0
             /\ Db.req_one_time_use r = (if one_time_use then 1 else 0)
             /\ Db.get_setting s' (App.points_key (Db.req_id r)) "0"
                = PyStr.str_of_int points
             /\ App.token_gate s' tok = App.USABLE).
Proof.
  intros Hwf Hnd Hfresh. unfold Admin.create_batch.
  destruct (create_batch_from_ok title description points one_time_use fresh 0 s
                                 Hwf Hnd Hfresh)
    as (reqs & s' & Hrun & Hwf' & Hlen & _ & Hsubs & Hkeep & Hframe & Hnth).
  exists reqs, s'. split; [exact Hrun|]. split; [exact Hwf'|]. split; [exact Hlen|].
  split; [exact Hsubs|]. split; [exact Hkeep|]. split.
  - intros id. apply Hframe. intros j _ Heq. symmetry in Heq.
    revert Heq. apply points_key_not_custom.
  - intros k tok now Hk.
    destruct (Hnth k tok now Hk) as (r & Hr & Hid & Htitle & Hst & Hcr & Hu & Hf & Hp).
    exists r. repeat split; auto.
    + unfold Db.get_setting. now rewrite Hp.
    + unfold App.token_gate. rewrite Hr, Hst; simpl.
      rewrite is_token_used_lookup, Hr, Hu. now rewrite Bool.andb_false_r.
Qed.

(** Two more codes next to "Event A". *)
Lemma create_batch_makes_all_witness :
  exists reqs s',
    Admin.create_batch Scenario.event_store "Fair" "" 5 true
                       [("aa01", "2024-03-01T09:00:00"); ("aa02", "2024-03-01T09:00:01")]
    = (s', Ok reqs)
    /\ Wf.wf_store s'
    /\ length reqs = length [("aa01", "2024-03-01T09:00:00"); ("aa02", "2024-03-01T09:00:01")]
    /\ Db.submissions s' = Db.submissions Scenario.event_store
    /\ (forall tok r, Db.get_request_by_token Scenario.event_store tok = Some r ->
                      Db.get_request_by_token s' tok = Some r)
    /\ (forall id, Db.settings s' !! App.qr_custom_key id
                   = Db.settings Scenario.event_store !! App.qr_custom_key id)
    /\ (forall (k : nat) tok now,
           [("aa01", "2024-03-01T09:00:00"); ("aa02", "2024-03-01T09:00:01")] !! k
           = Some (tok, now) ->
           exists r,
             Db.get_request_by_token s' tok = Some r
             /\ Db.req_id r = Db.seq_requests Scenario.event_store + Z.of_nat k + 1
             /\ Db.req_title r
                = PyStr.strip "Fair" +:+ " #" +:+ PyStr.str_of_int (Z.of_nat k + 1)
             /\ Db.req_status r = "open"
             /\ Db.req_created_at r = now
             /\ Db.req_used_count r = 0
             /\ Db.req_one_time_use r = (if true then 1 else 0)
             /\ Db.get_setting s' (App.points_key (Db.req_id r)) "0" = PyStr.str_of_int 5
             /\ App.token_gate s' tok = App.USABLE).
Proof.
  apply (create_batch_makes_all Scenario.event_store "Fair" "" 5 true
           [("aa01", "2024-03-01T09:00:00"); ("aa02", "2024-03-01T09:00:01")]).
  - apply wf_storeb_sound. vm_compute. reflexivity.
  - simpl. repeat constructor; simpl; intuition discriminate.
  - simpl. intros tok [<-|[<-|[]]]; reflexivity.
Defined.

(* ===================================================================== *)
(** * The first loop of the rewards summary, by identity *)
(* ===================================================================== *)

Section ByIdentity.
Import Review Summary.

Lemma shaped_ext (E C E' C' : string * string -> Z)
      (agg : list ((string * string) * gmap string pyval)) :
  (forall k, List.In k (map fst agg) -> E k = E' k /\ C k = C' k) ->
  shaped E C agg -> shaped E' C' agg.
Proof.
  unfold shaped. intros Hext H. induction H as [|kv agg Hkv H IH]; constructor.
  - destruct (Hext kv.1 (or_introl eq_refl)) as [<- <-]. exact Hkv.
  - apply IH. intros k Hk. apply Hext. now right.
Qed.

Lemma dict_has_in key (agg : list ((string * string) * gmap string pyval)) :
  dict_has key agg = true <-> List.In key (map fst agg).
Proof.
  unfold dict_has. rewrite List.existsb_exists, List.in_map_iff.
  split; intros (kv & H1 & H2); exists kv.
  - apply bool_decide_eq_true in H2. auto.
  - split; [assumption | now apply bool_decide_eq_true].
Qed.

(** Updating the row of a key that occurs once: the keys stay, the row
    of the key gets the new values, the other rows keep theirs. *)
Lemma dict_update_shaped (E C : string * string -> Z)
      (agg : list ((string * string) * gmap string pyval)) key
      (f : gmap string pyval -> result (gmap string pyval)) (e' c' : Z) :
  shaped E C agg ->
  List.NoDup (map fst agg) ->
  List.In key (map fst agg) ->
  f (mk_row key.1 key.2 (E key) 0 0 (C key)) = Ok (mk_row key.1 key.2 e' 0 0 c') ->
  exists agg',
    dict_update agg key f = Ok agg'
    /\ map fst agg' = map fst agg
    /\ shaped (fun k => if bool_decide (k = key) then e' else E k)
              (fun k => if bool_decide (k = key) then c' else C k) agg'.
Proof.
  intros Hsh Hnd Hin Hf. induction Hsh as [|[k row] agg Hrow Hsh IH].
  - contradiction.
  - simpl in *. inversion Hnd as [|? ? Hnotin Hnd']; subst.
    case_bool_decide as Hk.
    + subst k. rewrite Hf. simpl.
      eexists. split; [reflexivity|]. split; [reflexivity|].
      constructor.
      * simpl. now rewrite !bool_decide_eq_true_2.
      * change (shaped (fun k => if bool_decide (k = key) then e' else E k)
                       (fun k => if bool_decide (k = key) then c' else C k) agg).
        apply shaped_ext with (E := E) (C := C); [|exact Hsh].
        intros k Hk. assert (k <> key) by congruence.
        rewrite !bool_decide_eq_false_2 by assumption. auto.
    + destruct Hin as [Hin|Hin]; [congruence|].
      destruct (IH Hnd' Hin) as (agg' & -> & Hkeys & Hsh'). simpl.
      eexists. split; [reflexivity|]. split; [simpl; now rewrite Hkeys|].
      constructor; [|exact Hsh'].
      simpl. now rewrite !bool_decide_eq_false_2.
Qed.

Lemma rows_of_app rows r k :
  rows_of (rows ++ [r]) k
  = (rows_of rows k ++ (if bool_decide (row_key r = k) then [r] else []))%list.
Proof.
  unfold rows_of. rewrite List.filter_app. simpl.
  now destruct (bool_decide (row_key r = k)).
Qed.

Lemma earned_for_app rows r k :
  earned_for (rows ++ [r]) k
  = earned_for rows k + (if bool_decide (row_key r = k) then Z.max 0 r.2 else 0).
Proof.
  unfold earned_for. rewrite rows_of_app, List.map_app.
  generalize (map (fun r0 : string * string * Z => Z.max 0 r0.2) (rows_of rows k)).
  intros l. induction l as [|x l IH]; simpl.
  - destruct (bool_decide (row_key r = k)); simpl; lia.
  - rewrite IH. lia.
Qed.

Lemma count_for_app rows r k :
  count_for (rows ++ [r]) k
  = count_for rows k + (if bool_decide (row_key r = k) then 1 else 0).
Proof.
  unfold count_for. rewrite rows_of_app, length_app.
  destruct (bool_decide (row_key r = k)); simpl; lia.
Qed.

Lemma rows_of_absent rows k :
  ~ List.In k (map row_key rows) -> rows_of rows k = [].
Proof.
  unfold rows_of. induction rows as [|r rows IH]; simpl; intros H; [reflexivity|].
  case_bool_decide as Hk; [exfalso; apply H; now left|].
  apply IH. intros Hin. apply H. now right.
Qed.

Lemma aggregate_step_inv pre agg r :
  loop_inv pre agg ->
  exists agg', aggregate_step agg r = Ok agg' /\ loop_inv (pre ++ [r]) agg'.
Proof.
  intros (Hnd & Hkeys & Hsh). destruct r as [[name_val phone_val] pts].
  unfold aggregate_step.
  set (key := (name_val, phone_val)).
  set (agg1 := if dict_has key agg then agg else (agg ++ [(key, new_row key)])%list).
  assert (H1 : List.NoDup (map fst agg1)
               /\ (forall k, List.In k (map fst agg1) <-> List.In k (map fst agg) \/ k = key)
               /\ shaped (earned_for pre) (count_for pre) agg1).
  { subst agg1. destruct (dict_has key agg) eqn:Hhas.
    - apply dict_has_in in Hhas. split; [assumption|]. split; [|assumption].
      intros k. split; [auto | intros [H | ->]; assumption].
    - assert (Hnot : ~ List.In key (map fst agg)).
      { intros H. apply dict_has_in in H. congruence. }
      rewrite List.map_app. simpl. split; [|split].
      + apply List.NoDup_app. repeat split; auto.
        * constructor; [intros [] | constructor].
        * intros k Hk [<-|[]]. contradiction.
      + intros k. rewrite List.in_app_iff. simpl. intuition.
      + apply List.Forall_app. split; [assumption|].
        constructor; [|constructor]. simpl. unfold earned_for, count_for.
        rewrite rows_of_absent by (now rewrite <- Hkeys). reflexivity. }
  destruct H1 as (Hnd1 & Hkeys1 & Hsh1).
  assert (Hin1 : List.In key (map fst agg1)) by (apply Hkeys1; now right).
  destruct (dict_update_shaped _ _ agg1 key (iadd "Earned Points" (Z.max 0 pts))
                               (earned_for pre key + Z.max 0 pts) (count_for pre key)
                               Hsh1 Hnd1 Hin1)
    as (agg2 & -> & Hkeys2 & Hsh2); [apply iadd_earned|]. simpl.
  assert (Hnd2 : List.NoDup (map fst agg2)) by now rewrite Hkeys2.
  assert (Hin2 : List.In key (map fst agg2)) by now rewrite Hkeys2.
  destruct (dict_update_shaped _ _ agg2 key (iadd "Submissions" 1)
                               (earned_for pre key + Z.max 0 pts) (count_for pre key + 1)
                               Hsh2 Hnd2 Hin2)
    as (agg3 & -> & Hkeys3 & Hsh3).
  { simpl. rewrite !bool_decide_eq_true_2 by reflexivity. apply iadd_submissions. }
  eexists. split; [reflexivity|]. split; [|split].
  - now rewrite Hkeys3.
  - intros k. rewrite Hkeys3, Hkeys2, Hkeys1, Hkeys, List.map_app, List.in_app_iff. simpl.
    unfold row_key at 3. simpl. fold key. intuition.
  - eapply shaped_ext; [|exact Hsh3]. intros k _. simpl.
    rewrite earned_for_app, count_for_app. unfold row_key at 1 3. simpl. fold key.
    case_bool_decide as Hk.
    + subst k. rewrite !bool_decide_eq_true_2 by reflexivity. split; reflexivity.
    + rewrite !bool_decide_eq_false_2 by congruence. split; lia.
Qed.

Lemma aggregate_from_inv rows :
  forall pre agg,
    loop_inv pre agg ->
    exists agg', aggregate_from agg rows = Ok agg' /\ loop_inv (pre ++ rows) agg'.
Proof.
  induction rows as [|r rows IH]; intros pre agg Hinv; simpl.
  - exists agg. now rewrite List.app_nil_r.
  - destruct (aggregate_step_inv pre agg r Hinv) as (agg1 & -> & Hinv1). simpl.
    destruct (IH (pre ++ [r])%list agg1 Hinv1) as (agg' & Hrun & Hinv').
    exists agg'. split; [exact Hrun|]. now rewrite <- List.app_assoc in Hinv'.
Qed.

End ByIdentity.

(** X21: the first loop of the rewards summary makes one row per
    identity, a pair of name and phone compared as strings, for the
    identities of the collected rows and no other; the row carries the
    name and the phone, the sum of the points of the identity's rows,
    a negative number of points counting for nothing, and the number of
    those rows. *)
Theorem aggregate_groups_by_identity (rows : list (string * string * Z)) :
  exists agg,
    Review.aggregate rows = Ok agg
    /\ List.NoDup (map fst agg)
    /\ (forall k, List.In k (map fst agg) <-> List.In k (map Summary.row_key rows))
    /\ List.Forall
         (fun kv : (string * string) * gmap string Review.pyval =>
            kv.2 !! "Name" = Some (Review.VStr kv.1.1)
            /\ kv.2 !! "Phone" = Some (Review.VStr kv.1.2)
            /\ kv.2 !! "Earned Points" = Some (Review.VInt (Summary.earned_for rows kv.1))
            /\ kv.2 !! "Submissions" = Some (Review.VInt (Summary.count_for rows kv.1))
            /\ 0 <= Summary.earned_for rows kv.1
            /\ 1 <= Summary.count_for rows kv.1)
         agg.
Proof.
  unfold Review.aggregate.
  destruct (aggregate_from_inv rows [] []) as (agg & Hrun & Hnd & Hkeys & Hsh).
  { split; [constructor|]. split; [tauto | constructor]. }
  exists agg. split; [exact Hrun|]. split; [exact Hnd|]. split; [exact Hkeys|].
  apply List.Forall_forall. intros kv Hkv.
  unfold Summary.shaped in Hsh. rewrite List.Forall_forall in Hsh.
  rewrite (Hsh kv Hkv).
  rewrite row_name, row_phone, row_earned, row_submissions.
  repeat split.
  - unfold Summary.earned_for.
    induction (Summary.rows_of rows kv.1) as [|x l IH]; simpl; lia.
  - assert (Hin : List.In kv.1 (map Summary.row_key rows))
      by (apply Hkeys; now apply List.in_map).
    apply List.in_map_iff in Hin as (r & Hr & Hin).
    unfold Summary.count_for, Summary.rows_of.
    assert (Hf : List.In r (List.filter (fun r0 => bool_decide (Summary.row_key r0 = kv.1)) rows))
      by (apply List.filter_In; split; [assumption | now apply bool_decide_eq_true]).
    destruct (List.filter _ rows); [contradiction | simpl; lia].
Qed.

(** A second visit to the open house with the phone of the first. *)
Lemma multi_use_request_duplicate_witness :
  App.token_gate OpenHouse.store_after_visit "777fee" = App.USABLE
  /\ (App.f_submit Scenario.jane = true -> App.validate Scenario.jane = [] ->
      PyStr.strip (App.f_phone Scenario.jane) = PyStr.strip (App.f_phone Scenario.jane) ->
      App._public_form OpenHouse.store_after_visit "777fee" Scenario.jane
      = (OpenHouse.store_after_visit, App.Duplicate)).
Proof.
  apply (multi_use_request_duplicate OpenHouse.house_store OpenHouse.store_after_visit
           "777fee" OpenHouse.house_request Scenario.jane Scenario.jane).
  - reflexivity.
  - reflexivity.
  - vm_compute. reflexivity.
Defined.

(* ===================================================================== *)
(** * The grid of the A4 sheet *)
(* ===================================================================== *)

Section Grid.
Import QrUtils.
Context {A : Type}.

Lemma place_from_lookup (p : Sizes) (cols rows : Z) (imgs : list A) :
  forall (i : Z) (k : nat),
    place_from p cols rows i imgs !! k
    = if Z.ltb (i + Z.of_nat k) (cols * rows)
      then (fun img => (img, position p cols (i + Z.of_nat k))) <$> imgs !! k
      else None.
Proof.
  induction imgs as [|img imgs IH]; intros i k; simpl.
  - rewrite !lookup_nil. now destruct (Z.ltb _ _).
  - destruct (Z.geb_spec i (cols * rows)) as [Hge|Hlt].
    + rewrite lookup_nil.
      destruct (Z.ltb_spec (i + Z.of_nat k) (cols * rows)); [lia | reflexivity].
    + destruct k as [|k]; simpl.
      * rewrite Z.add_0_r. destruct (Z.ltb_spec i (cols * rows)); [reflexivity | lia].
      * rewrite IH. replace (i + 1 + Z.of_nat k) with (i + Z.pos (Pos.of_succ_nat k)) by lia.
        reflexivity.
Qed.

Lemma place_from_length (p : Sizes) (cols rows : Z) (imgs : list A) :
  forall i : Z,
    length (place_from p cols rows i imgs)
    = Nat.min (length imgs) (Z.to_nat (cols * rows - i)).
Proof.
  induction imgs as [|img imgs IH]; intros i; simpl; [reflexivity|].
  destruct (Z.geb_spec i (cols * rows)) as [Hge|Hlt]; simpl.
  - replace (Z.to_nat (cols * rows - i)) with O by lia. reflexivity.
  - rewrite IH. replace (Z.to_nat (cols * rows - i))
      with (S (Z.to_nat (cols * rows - (i + 1)))) by lia.
    reflexivity.
Qed.

Lemma place_from_images (p : Sizes) (cols rows : Z) (imgs : list A) :
  forall i : Z,
    map fst (place_from p cols rows i imgs)
    = take (Z.to_nat (cols * rows - i)) imgs.
Proof.
  induction imgs as [|img imgs IH]; intros i; simpl.
  - now rewrite take_nil.
  - destruct (Z.geb_spec i (cols * rows)) as [Hge|Hlt]; simpl.
    + replace (Z.to_nat (cols * rows - i)) with O by lia. reflexivity.
    + rewrite IH. replace (Z.to_nat (cols * rows - i))
        with (S (Z.to_nat (cols * rows - (i + 1)))) by lia.
      reflexivity.
Qed.

Lemma grid_cols_some (p : Sizes) :
  qr_width_px p + spacing_px p <> 0 ->
  grid_cols p
  = Some (Z.max 1 ((a4_width_px p - 2 * margin_px p + spacing_px p)
                   / (qr_width_px p + spacing_px p))).
Proof.
  intros H. unfold grid_cols, floordiv.
  destruct (Z.eqb_spec (qr_width_px p + spacing_px p) 0); [contradiction | reflexivity].
Qed.

Lemma grid_rows_some (p : Sizes) :
  qr_height_px p + spacing_px p <> 0 ->
  grid_rows p
  = Some (Z.max 1 ((a4_height_px p - 2 * margin_px p + spacing_px p)
                   / (qr_height_px p + spacing_px p))).
Proof.
  intros H. unfold grid_rows, floordiv.
  destruct (Z.eqb_spec (qr_height_px p + spacing_px p) 0); [contradiction | reflexivity].
Qed.

(** The pasted images, when the two divisions are defined. *)
Lemma pasted_some (p : Sizes) (imgs : list A) (l : list (A * (Z * Z))) :
  pasted p imgs = Some l ->
  exists cols rows,
    grid_cols p = Some cols /\ grid_rows p = Some rows
    /\ 1 <= cols /\ 1 <= rows
    /\ l = place_from p cols rows 0 imgs.
Proof.
  unfold pasted. destruct (grid_cols p) as [cols|] eqn:Hc; [|discriminate].
  destruct (grid_rows p) as [rows|] eqn:Hr; [|discriminate].
  simpl. intros H. injection H as <-.
  exists cols, rows. repeat split; auto.
  - unfold grid_cols in Hc. destruct (floordiv _ _); [|discriminate].
    simpl in Hc. injection Hc as <-. lia.
  - unfold grid_rows in Hr. destruct (floordiv _ _); [|discriminate].
    simpl in Hr. injection Hr as <-. lia.
Qed.

End Grid.

(** X22: the sheet takes the first [cols * rows] images, in order, and
    leaves the others out without a word; the grid has at least one
    column and one row; and nothing is pasted, a division by zero being
    raised, exactly when code width or code height plus spacing is 0. *)
Theorem sheet_capacity {A : Type} (p : QrUtils.Sizes) (qr_images : list A) :
  (QrUtils.pasted p qr_images = None <->
   QrUtils.qr_width_px p + QrUtils.spacing_px p = 0
   \/ QrUtils.qr_height_px p + QrUtils.spacing_px p = 0)
  /\ (forall l, QrUtils.pasted p qr_images = Some l ->
        exists cols rows,
          QrUtils.grid_cols p = Some cols /\ QrUtils.grid_rows p = Some rows
          /\ 1 <= cols /\ 1 <= rows
          /\ map fst l = take (Z.to_nat (cols * rows)) qr_images
          /\ length l = Nat.min (length qr_images) (Z.to_nat (cols * rows))).
Proof.
  split.
  - unfold QrUtils.pasted, QrUtils.grid_cols, QrUtils.grid_rows, QrUtils.floordiv.
    destruct (Z.eqb_spec (QrUtils.qr_width_px p + QrUtils.spacing_px p) 0) as [Hw|Hw];
      destruct (Z.eqb_spec (QrUtils.qr_height_px p + QrUtils.spacing_px p) 0) as [Hh|Hh];
      simpl; split; auto; try discriminate.
    intros [H|H]; contradiction.
  - intros l Hl. apply pasted_some in Hl as (cols & rows & Hc & Hr & Hc1 & Hr1 & ->).
    exists cols, rows. repeat split; auto.
    + rewrite place_from_images. now rewrite Z.sub_0_r.
    + rewrite place_from_length. now rewrite Z.sub_0_r.
Qed.

(** On the passport sheet 21 of 30 codes are pasted. *)
Lemma sheet_capacity_witness :
  (QrUtils.pasted OpenHouse.passport_sheet (QrUtils.generate_batch_qr_codes "qr" 30) = None <->
   QrUtils.qr_width_px OpenHouse.passport_sheet + QrUtils.spacing_px OpenHouse.passport_sheet = 0
   \/ QrUtils.qr_height_px OpenHouse.passport_sheet
      + QrUtils.spacing_px OpenHouse.passport_sheet = 0)
  /\ (forall l,
         QrUtils.pasted OpenHouse.passport_sheet (QrUtils.generate_batch_qr_codes "qr" 30)
         = Some l ->
         exists cols rows,
           QrUtils.grid_cols OpenHouse.passport_sheet = Some cols
           /\ QrUtils.grid_rows OpenHouse.passport_sheet = Some rows
           /\ 1 <= cols /\ 1 <= rows
           /\ map fst l = take (Z.to_nat (cols * rows)) (QrUtils.generate_batch_qr_codes "qr" 30)
           /\ length l = Nat.min (length (QrUtils.generate_batch_qr_codes "qr" 30))
                                 (Z.to_nat (cols * rows))).
Proof.
  apply (sheet_capacity OpenHouse.passport_sheet (QrUtils.generate_batch_qr_codes "qr" 30)).
Defined.

(** X23: when spacing and margin are not negative and a code fits
    between the margins in width and in height, every pasted code lies
    within the margins of the sheet. *)
Theorem pasted_codes_within_margins {A : Type} (p : QrUtils.Sizes) (qr_images : list A) :
  0 <= QrUtils.spacing_px p ->
  0 <= QrUtils.margin_px p ->
  0 < QrUtils.qr_width_px p <= QrUtils.a4_width_px p - 2 * QrUtils.margin_px p ->
  0 < QrUtils.qr_height_px p <= QrUtils.a4_height_px p - 2 * QrUtils.margin_px p ->
  exists l,
    QrUtils.pasted p qr_images = Some l
    /\ forall (k : nat) img x y,
        l !! k = Some (img, (x, y)) ->
        QrUtils.margin_px p <= x
        /\ x + QrUtils.qr_width_px p <= QrUtils.a4_width_px p - QrUtils.margin_px p
        /\ QrUtils.margin_px p <= y
        /\ y + QrUtils.qr_height_px p <= QrUtils.a4_height_px p - QrUtils.margin_px p.
Proof.
  intros Hsp Hm Hw Hh.
  destruct p as [W H qw qh m sp]; simpl in *.
  set (p := QrUtils.mkSizes W H qw qh m sp).
  assert (Hc : QrUtils.grid_cols p = Some (Z.max 1 ((W - 2 * m + sp) / (qw + sp))))
    by (apply (grid_cols_some p); simpl; lia).
  assert (Hr : QrUtils.grid_rows p = Some (Z.max 1 ((H - 2 * m + sp) / (qh + sp))))
    by (apply (grid_rows_some p); simpl; lia).
  set (qc := (W - 2 * m + sp) / (qw + sp)) in *.
  set (qr := (H - 2 * m + sp) / (qh + sp)) in *.
  assert (Hqc : 1 <= qc /\ qc * (qw + sp) <= W - 2 * m + sp).
  { split.
    - apply Z.div_le_lower_bound; lia.
    - subst qc. rewrite Z.mul_comm. apply Z.mul_div_le. lia. }
  assert (Hqr : 1 <= qr /\ qr * (qh + sp) <= H - 2 * m + sp).
  { split.
    - apply Z.div_le_lower_bound; lia.
    - subst qr. rewrite Z.mul_comm. apply Z.mul_div_le. lia. }
  replace (Z.max 1 qc) with qc in Hc by lia.
  replace (Z.max 1 qr) with qr in Hr by lia.
  eexists. unfold QrUtils.pasted. rewrite Hc, Hr. simpl. split; [reflexivity|].
  intros k img x y Hk. rewrite place_from_lookup in Hk.
  destruct (Z.ltb_spec (0 + Z.of_nat k) (qc * qr)) as [Hlt|]; [|discriminate].
  destruct (qr_images !! k); [|discriminate]. simpl in Hk.
  injection Hk as _ <- <-. simpl.
  set (i := 0 + Z.of_nat k) in *.
  assert (Hi : 0 <= i) by lia.
  pose proof (Z.mod_pos_bound i qc ltac:(lia)) as Hcol.
  assert (Hrow : 0 <= i / qc <= qr - 1).
  { split; [apply Z.div_pos; lia|].
    assert (i / qc < qr) by (apply Z.div_lt_upper_bound; lia). lia. }
  repeat split; nia.
Qed.

(** The passport sheet. *)
Lemma pasted_codes_within_margins_witness :
  exists l,
    QrUtils.pasted OpenHouse.passport_sheet (QrUtils.generate_batch_qr_codes "qr" 30) = Some l
    /\ forall (k : nat) img x y,
        l !! k = Some (img, (x, y)) ->
        QrUtils.margin_px OpenHouse.passport_sheet <= x
        /\ x + QrUtils.qr_width_px OpenHouse.passport_sheet
           <= QrUtils.a4_width_px OpenHouse.passport_sheet
              - QrUtils.margin_px OpenHouse.passport_sheet
        /\ QrUtils.margin_px OpenHouse.passport_sheet <= y
        /\ y + QrUtils.qr_height_px OpenHouse.passport_sheet
           <= QrUtils.a4_height_px OpenHouse.passport_sheet
              - QrUtils.margin_px OpenHouse.passport_sheet.
Proof.
  apply (pasted_codes_within_margins OpenHouse.passport_sheet
                                     (QrUtils.generate_batch_qr_codes "qr" 30));
    simpl; lia.
Defined.

(** X24: when the spacing is not negative and the codes have a positive
    width and height, no two pasted codes overlap. *)
Theorem pasted_codes_do_not_overlap {A : Type} (p : QrUtils.Sizes) (qr_images : list A)
        (l : list (A * (Z * Z))) :
  0 <= QrUtils.spacing_px p ->
  0 < QrUtils.qr_width_px p ->
  0 < QrUtils.qr_height_px p ->
  QrUtils.pasted p qr_images = Some l ->
  forall (j k : nat) img1 x1 y1 img2 x2 y2,
    j <> k ->
    l !! j = Some (img1, (x1, y1)) ->
    l !! k = Some (img2, (x2, y2)) ->
    x1 + QrUtils.qr_width_px p <= x2 \/ x2 + QrUtils.qr_width_px p <= x1
    \/ y1 + QrUtils.qr_height_px p <= y2 \/ y2 + QrUtils.qr_height_px p <= y1.
Proof.
  intros Hsp Hw Hh Hl j k img1 x1 y1 img2 x2 y2 Hjk Hj Hk.
  apply pasted_some in Hl as (cols & rows & _ & _ & Hc1 & _ & ->).
  rewrite place_from_lookup in Hj, Hk.
  destruct (Z.ltb _ _) in Hj; [|discriminate].
  destruct (Z.ltb _ _) in Hk; [|discriminate].
  destruct (qr_images !! j); [|discriminate].
  destruct (qr_images !! k); [|discriminate].
  simpl in Hj, Hk. unfold QrUtils.position in Hj, Hk.
  injection Hj as _ <- <-. injection Hk as _ <- <-.
  set (ia := 0 + Z.of_nat j). set (ib := 0 + Z.of_nat k).
  assert (Hab : ia <> ib) by lia.
  pose proof (Z.div_mod ia cols ltac:(lia)) as Ha.
  pose proof (Z.div_mod ib cols ltac:(lia)) as Hb.
  pose proof (Z.mod_pos_bound ia cols ltac:(lia)) as Hma.
  pose proof (Z.mod_pos_bound ib cols ltac:(lia)) as Hmb.
  destruct (Z.lt_trichotomy (ia / cols) (ib / cols)) as [Hlt|[Heq|Hgt]].
  - right. right. left. nia.
  - assert (Hm : ia mod cols <> ib mod cols) by (intros Hm; apply Hab; lia).
    destruct (Z.lt_trichotomy (ia mod cols) (ib mod cols)) as [Hl|[He|Hg]];
      [left; nia | contradiction | right; left; nia].
  - right. right. right. nia.
Qed.

(** The first two codes on the passport sheet. *)
Lemma pasted_codes_do_not_overlap_witness :
  118 + QrUtils.qr_width_px OpenHouse.passport_sheet <= 708
  \/ 708 + QrUtils.qr_width_px OpenHouse.passport_sheet <= 118
  \/ 118 + QrUtils.qr_height_px OpenHouse.passport_sheet <= 118
  \/ 118 + QrUtils.qr_height_px OpenHouse.passport_sheet <= 118.
Proof.
  apply (pasted_codes_do_not_overlap OpenHouse.passport_sheet
           (QrUtils.generate_batch_qr_codes "qr" 30)
           (QrUtils.place_from OpenHouse.passport_sheet 3 7 0
                               (QrUtils.generate_batch_qr_codes "qr" 30))
           ltac:(simpl; lia) ltac:(simpl; lia) ltac:(simpl; lia)
           ltac:(vm_compute; reflexivity)
           0%nat 1%nat "qr" 118 118 "qr" 708 118).
  - discriminate.
  - reflexivity.
  - reflexivity.
Defined.

(* ===================================================================== *)
(** * The address encoded by the batch form *)
(* ===================================================================== *)

(** X25: for a request without custom text, the list of requests shows
    the URL that the batch form encoded whenever a base URL is set; with
    no base URL set the two differ: the batch form encodes the address
    192.168.1.12 and the list, like the create form, shows 192.168.1.4. *)
Theorem batch_form_address (s : Db.Store) (r : Db.Request) :
  Db.settings s !! App.qr_custom_key (Db.req_id r) = None ->
  (PyStr.truthy (Db.get_setting s "base_url" "") = true ->
   Admin.listed_content s r
   = App._build_form_url (Admin.batch_form_base s) (Db.req_token r))
  /\ (Db.get_setting s "base_url" "" = "" ->
      Admin.listed_content s r
      = "http://192.168.1.4:8501?view=form&token=" +:+ Db.req_token r
      /\ Admin.listed_content s r
         = App._build_form_url (Admin.create_form_base s) (Db.req_token r)
      /\ App._build_form_url (Admin.batch_form_base s) (Db.req_token r)
         = "http://192.168.1.12:8501?view=form&token=" +:+ Db.req_token r
      /\ Admin.listed_content s r
         <> App._build_form_url (Admin.batch_form_base s) (Db.req_token r)).
Proof.
  intros Hfree.
  assert (Hcustom : Db.get_setting s (App.qr_custom_key (Db.req_id r)) "" = "")
    by (unfold Db.get_setting; now rewrite Hfree).
  unfold Admin.listed_content, Admin.batch_form_base, Admin.create_form_base,
    Admin.or_default.
  rewrite Hcustom. split.
  - intros Hb. rewrite Hb. simpl. now rewrite Hb.
  - intros ->. simpl. repeat split. discriminate.
Qed.

(** The scenario has no base URL and no custom text. *)
Lemma batch_form_address_witness :
  (PyStr.truthy (Db.get_setting Scenario.event_store "base_url" "") = true ->
   Admin.listed_content Scenario.event_store Scenario.event_request
   = App._build_form_url (Admin.batch_form_base Scenario.event_store)
                         (Db.req_token Scenario.event_request))
  /\ (Db.get_setting Scenario.event_store "base_url" "" = "" ->
      Admin.listed_content Scenario.event_store Scenario.event_request
      = "http://192.168.1.4:8501?view=form&token=" +:+ Db.req_token Scenario.event_request
      /\ Admin.listed_content Scenario.event_store Scenario.event_request
         = App._build_form_url (Admin.create_form_base Scenario.event_store)
                               (Db.req_token Scenario.event_request)
      /\ App._build_form_url (Admin.batch_form_base Scenario.event_store)
                             (Db.req_token Scenario.event_request)
         = "http://192.168.1.12:8501?view=form&token="
           +:+ Db.req_token Scenario.event_request
      /\ Admin.listed_content Scenario.event_store Scenario.event_request
         <> App._build_form_url (Admin.batch_form_base Scenario.event_store)
                                (Db.req_token Scenario.event_request)).
Proof.
  apply (batch_form_address Scenario.event_store Scenario.event_request).
  reflexivity.
Defined.

(* ===================================================================== *)
(** * The rewards table, row by row *)
(* ===================================================================== *)

Section SummaryTable.
Import Db Review Summary.

Lemma pull_adjustments_shaped s (E C : string * string -> Z)
      (agg : list ((string * string) * gmap string pyval)) :
  shaped E C agg ->
  pull_adjustments s agg
  = Ok (map (fun kv : (string * string) * gmap string pyval =>
               (kv.1,
                mk_row kv.1.1 kv.1.2 (E kv.1)
                       (get_rewards_adjustment_sum s kv.1.1 kv.1.2)
                       (compute_balance (E kv.1)
                                        (get_rewards_adjustment_sum s kv.1.1 kv.1.2))
                       (C kv.1))) agg).
Proof.
  unfold shaped, pull_adjustments.
  induction 1 as [|[k row] agg Hrow Hall IH]; simpl; [reflexivity|].
  simpl in Hrow. subst row. rewrite pull_adjustment_row. simpl.
  rewrite IH. reflexivity.
Qed.

(** The table has one row per identity of the collected rows, the row
    [summary_row] describes, and the identities do not depend on the
    store. *)
Lemma rewards_rows_summary (rows : list (string * string * Z)) :
  exists keys : list (string * string),
    List.NoDup keys
    /\ (forall k, List.In k keys <-> List.In k (map row_key rows))
    /\ forall s, rewards_rows s rows = Ok (map (summary_row s rows) keys).
Proof.
  destruct (aggregate_from_inv rows [] []) as (agg & Hrun & Hnd & Hkeys & Hsh).
  { split; [constructor|]. split; [tauto | constructor]. }
  exists (map fst agg). split; [exact Hnd|]. split; [exact Hkeys|].
  intros s. unfold rewards_rows, aggregate. rewrite Hrun. simpl.
  rewrite (pull_adjustments_shaped s _ _ agg Hsh). simpl.
  rewrite !List.map_map. reflexivity.
Qed.

Lemma summary_row_lookups s rows k :
  summary_row s rows k !! "Name" = Some (VStr k.1)
  /\ summary_row s rows k !! "Phone" = Some (VStr k.2)
  /\ summary_row s rows k !! "Earned Points" = Some (VInt (earned_for rows k))
  /\ summary_row s rows k !! "Adjustments"
     = Some (VInt (get_rewards_adjustment_sum s k.1 k.2))
  /\ summary_row s rows k !! "Balance"
     = Some (VInt (Z.max 0 (earned_for rows k + get_rewards_adjustment_sum s k.1 k.2)))
  /\ summary_row s rows k !! "Submissions" = Some (VInt (count_for rows k)).
Proof. unfold summary_row. repeat split. Qed.



End SummaryTable.

(** C4: the rewards table has one row per identity of the collected
    rows, and the row of an identity carries its earned points, under
    "Adjustments" the adjustment sum of its name and phone, and under
    "Balance" the maximum of 0 and their sum; the balance is never
    negative and is 0 when the adjustments outweigh the earned points;
    and the adjustment sum counts an entry exactly when its name and
    phone are the same strings. *)
Theorem balance_is_floored_sum (s : Db.Store) (rows : list (string * string * Z)) :
  (exists keys : list (string * string),
      List.NoDup keys
      /\ (forall name phone,
             List.In (name, phone) keys <-> exists pts, List.In (name, phone, pts) rows)
      /\ Review.rewards_rows s rows = Ok (map (Summary.summary_row s rows) keys)
      /\ forall name phone,
          List.In (name, phone) keys ->
          let row := Summary.summary_row s rows (name, phone) in
          let earned := Summary.earned_for rows (name, phone) in
          let adj := Db.get_rewards_adjustment_sum s name phone in
          row !! "Name" = Some (Review.VStr name)
          /\ row !! "Phone" = Some (Review.VStr phone)
          /\ row !! "Earned Points" = Some (Review.VInt earned)
          /\ row !! "Adjustments" = Some (Review.VInt adj)
          /\ row !! "Balance" = Some (Review.VInt (Z.max 0 (earned + adj)))
          /\ 0 <= Z.max 0 (earned + adj)
          /\ (adj < - earned -> row !! "Balance" = Some (Review.VInt 0)))
  /\ (forall (earned : Z) (name phone : string),
         Review.compute_balance earned (Db.get_rewards_adjustment_sum s name phone)
         = Z.max 0 (earned + Db.get_rewards_adjustment_sum s name phone)
         /\ 0 <= Review.compute_balance earned (Db.get_rewards_adjustment_sum s name phone)
         /\ (Db.get_rewards_adjustment_sum s name phone < - earned ->
             Review.compute_balance earned (Db.get_rewards_adjustment_sum s name phone) = 0))
  /\ (forall (e : Db.RewardEntry) (name phone : string),
         Db.get_rewards_adjustment_sum
           (Db.with_reward_entries s (Db.reward_entries s ++ [e])) name phone
         = Db.get_rewards_adjustment_sum s name phone
           + (if bool_decide (Db.rw_name e = name /\ Db.rw_phone e = phone)
              then Db.rw_points e else 0)).
Proof.
  split; [|split].
  - destruct (rewards_rows_summary rows) as (keys & Hnd & Hkeys & Htable).
    exists keys. split; [exact Hnd|]. split; [|split; [apply Htable|]].
    + intros name phone. rewrite Hkeys, List.in_map_iff. split.
      * intros ([[n p] pts] & Hk & Hin). unfold Summary.row_key in Hk. simpl in Hk.
        injection Hk as -> ->. now exists pts.
      * intros (pts & Hin). now exists (name, phone, pts).
    + intros name phone _ row earned adj.
      destruct (summary_row_lookups s rows (name, phone)) as (Hn & Hp & He & Ha & Hb & _).
      subst row earned adj. simpl in *.
      split; [exact Hn|]. split; [exact Hp|]. split; [exact He|]. split; [exact Ha|].
      split; [exact Hb|]. split; [lia|].
      intros Hlt. rewrite Hb. do 2 f_equal. lia.
  - intros earned name phone. apply compute_balance_floor.
  - intros e name phone. rewrite adjustment_sum_app. f_equal.
    destruct (String.eqb_spec (Db.rw_name e) name) as [Hn|Hn];
      destruct (String.eqb_spec (Db.rw_phone e) phone) as [Hp|Hp]; simpl;
      case_bool_decide as H; try reflexivity; tauto.
Qed.



(* ===================================================================== *)
(** * The order of rows with equal keys *)
(* ===================================================================== *)

Section SortStable.
Import Review.

Lemma key_lt_irrefl (k : pyval * pyval) :
  (exists a b, k = (a, VInt b)) \/ (exists a b, k = (a, VStr b)) ->
  key_lt k k = Ok false.
Proof.
  intros [(a & b & ->)|(a & b & ->)]; unfold key_lt; cbn [fst snd];
    rewrite bool_decide_eq_true_2 by reflexivity; cbn [py_lt].
  - now rewrite Z.ltb_irrefl.
  - unfold String.ltb. pose proof (String.compare_antisym b b) as Hc.
    destruct (String.compare b b); simpl in Hc; congruence.
Qed.

(** [list.sort] is stable: rows that all have the key (total, name)
    come out in the order they went in. *)
Lemma sort_keyed_equal_keys (t : pyval) (name : string)
      (l : list ((pyval * pyval) * Row)) :
  Forall (fun x : (pyval * pyval) * Row => x.1 = (t, VStr name)) l ->
  sort_keyed l = Ok l.
Proof.
  induction 1 as [|x l Hx Hl IH]; [reflexivity|].
  cbn [sort_keyed]. rewrite IH. cbn [mbind result_bind].
  destruct Hl as [|y l' Hy Hl']; [reflexivity|].
  cbn [insert_sorted]. rewrite Hx, Hy, key_lt_irrefl by (right; eauto).
  reflexivity.
Qed.

End SortStable.
